(** * NovaZone backend: the request handlers of [backend/server.py]

    A shallow embedding of the FastAPI handlers over the Mongo document
    store.  Python values keep their shape: [int] is [Z], [float] is the
    kernel's binary64 [float], [str] is [string], [Optional[T]] is
    [option T], a pydantic model is a record, a collection is the list of
    its documents in natural (insertion) order.  A handler is a function
    from the database to an outcome and the database it leaves behind, so
    that what was written before an exception stays written. *)

From Stdlib Require Import ZArith String List Bool Lia Floats Uint63.
From Stdlib Require Import Sorting.Sorted Sorting.Permutation.
Import ListNotations.

Local Open Scope string_scope.
Local Open Scope list_scope.
Local Open Scope Z_scope.

Set Implicit Arguments.
#[local] Set Warnings "-inexact-float".

(* ================================================================== *)
(** * Python run-time: exceptions, outcomes, numbers *)
(* ================================================================== *)

Module Py.

(** The exceptions the handlers can meet.  [JWTException cls] is an
    exception class of the [jwt] package, named by its class name. *)
Inductive exn : Type :=
| HTTPException (status_code : Z) (detail : string)
| ZeroDivisionError
| IndexError
| TypeError (msg : string)
| ValueError (msg : string)
| AttributeError (obj attr : string)
| JWTException (cls : string).

Inductive outcome (A : Type) : Type :=
| Return (a : A)
| Raise (e : exn).

Arguments Return {A} a.
Arguments Raise {A} e.

Definition obind {A B} (r : outcome A) (k : A -> outcome B) : outcome B :=
  match r with
  | Return a => k a
  | Raise e => Raise e
  end.

(** What FastAPI answers: an [HTTPException] carries its own status,
    every other exception escaping a handler is a 500. *)
Definition http_status {A} (r : outcome A) : Z :=
  match r with
  | Return _ => 200
  | Raise (HTTPException s _) => s
  | Raise _ => 500
  end.

(** [float(n)] for a Python [int]; exact below 2^53, which covers every
    length and counter of this program. *)
Definition float_of_int (z : Z) : float :=
  if z <? 0 then PrimFloat.opp (PrimFloat.of_uint63 (Uint63.of_Z (- z)))
  else PrimFloat.of_uint63 (Uint63.of_Z z).

(** [a / b] with an [int] divisor: [ZeroDivisionError] when [b] is 0. *)
Definition truediv (a : float) (b : Z) : outcome float :=
  if b =? 0 then Raise ZeroDivisionError
  else Return (PrimFloat.div a (float_of_int b)).

(** [sum(xs)] over floats: a left fold of [+] from the integer 0, which
    the first addition turns into 0.0 (for the empty list the integer 0
    is returned, the same number). *)
Definition sum (xs : list float) : float :=
  fold_left PrimFloat.add xs (float_of_int 0).

(** [len(xs)] *)
Definition len {A} (xs : list A) : Z := Z.of_nat (length xs).

(** [enumerate(xs)] *)
Definition enumerate {A} (xs : list A) : list (Z * A) :=
  combine (map Z.of_nat (seq 0 (length xs))) xs.

(** [xs[i]] for a non-negative index: [IndexError] out of range. *)
Definition getitem {A} (xs : list A) (i : Z) : outcome A :=
  if i <? 0 then Raise IndexError
  else match nth_error xs (Z.to_nat i) with
       | Some x => Return x
       | None => Raise IndexError
       end.

(** Truth value of an [Optional[str]]: [None] and the empty string are
    false. *)
Definition truthy_str (s : option string) : bool :=
  match s with
  | Some s' => negb (String.eqb s' "")
  | None => false
  end.

(** Truth value of an optional document: [None] is false, a document
    (a non-empty dict) is true. *)
Definition truthy_doc {A} (d : option A) : bool :=
  match d with Some _ => true | None => false end.

End Py.

Import Py.

(* ================================================================== *)
(** * Models (the pydantic classes and the stored documents) *)
(* ================================================================== *)

(** [datetime] values are instants on a line, here microseconds as [Z]. *)
Definition datetime := Z.

Module UserCreate.
Record t := mk { email : string; password : string;
                 full_name : string; role : string }.
End UserCreate.

Module User.
Record t := mk { id : string; email : string; full_name : string;
                 role : string; created_at : datetime;
                 profile_image : option string; bio : option string }.
End User.

(** A document of [db.users]: [user.dict()] with the key
    ["hashed_password"] added.  There is no key for the clear password. *)
Module UserDoc.
Record t := mk { id : string; email : string; full_name : string;
                 role : string; created_at : datetime;
                 profile_image : option string; bio : option string;
                 hashed_password : string }.
End UserDoc.

Module UserResponse.
Record t := mk { id : string; email : string; full_name : string;
                 role : string;
                 profile_image : option string; bio : option string }.
End UserResponse.

Module Course.
Record t := mk { id : string; title : string; description : string;
                 teacher_id : string; teacher_name : string;
                 subject : string; difficulty_level : string;
                 duration_hours : Z; created_at : datetime;
                 image : option string;
                 enrolled_students : list string;
                 rating : float; total_lessons : Z }.

Definition set_enrolled_students (c : t) (l : list string) : t :=
  mk (id c) (title c) (description c) (teacher_id c) (teacher_name c)
     (subject c) (difficulty_level c) (duration_hours c) (created_at c)
     (image c) l (rating c) (total_lessons c).
End Course.

Module CourseCreate.
Record t := mk { title : string; description : string; subject : string;
                 difficulty_level : string; duration_hours : Z;
                 image : option string; total_lessons : Z }.
End CourseCreate.

Module Teacher.
Record t := mk { id : string; user_id : string; full_name : string;
                 email : string; subjects : list string;
                 experience_years : Z; rating : float;
                 total_students : Z; bio : option string;
                 profile_image : option string;
                 hourly_rate : option float }.
End Teacher.

(** The body of [PUT /teachers/profile].  A key the request leaves out is
    parsed to the field's default, [None]. *)
Module TeacherCreate.
Record t := mk { subjects : list string; experience_years : Z;
                 bio : option string; hourly_rate : option float }.
End TeacherCreate.

Module Progress.
Record t := mk { id : string; student_id : string; course_id : string;
                 course_title : string; completion_percentage : float;
                 last_accessed : datetime; time_spent_hours : float;
                 quiz_scores : list float }.
End Progress.

Module QuizQuestion.
Record t := mk { id : string; question : string; options : list string;
                 correct_answer : Z; explanation : option string }.
End QuizQuestion.

Module Quiz.
Record t := mk { id : string; course_id : string; title : string;
                 questions : list QuizQuestion.t; created_at : datetime }.
End Quiz.

Module QuizSubmission.
Record t := mk { quiz_id : string; student_id : string;
                 answers : list Z; score : float;
                 completed_at : datetime }.
End QuizSubmission.

Module CommunityPost.
Record t := mk { id : string; author_id : string; author_name : string;
                 title : string; content : string; category : string;
                 created_at : datetime; likes : Z;
                 replies : list string }.
End CommunityPost.

(* ================================================================== *)
(** * The document store *)
(* ================================================================== *)

(** The collections the handlers below touch, each in natural order. *)
Record Database := mkDB {
  users : list UserDoc.t;
  teachers : list Teacher.t;
  courses : list Course.t;
  progress : list Progress.t;
  quizzes : list Quiz.t;
  quiz_submissions : list QuizSubmission.t;
  community_posts : list CommunityPost.t
}.

Definition set_users (d : Database) (x : list UserDoc.t) : Database :=
  mkDB x (teachers d) (courses d) (progress d) (quizzes d)
       (quiz_submissions d) (community_posts d).
Definition set_teachers (d : Database) (x : list Teacher.t) : Database :=
  mkDB (users d) x (courses d) (progress d) (quizzes d)
       (quiz_submissions d) (community_posts d).
Definition set_courses (d : Database) (x : list Course.t) : Database :=
  mkDB (users d) (teachers d) x (progress d) (quizzes d)
       (quiz_submissions d) (community_posts d).
Definition set_progress (d : Database) (x : list Progress.t) : Database :=
  mkDB (users d) (teachers d) (courses d) x (quizzes d)
       (quiz_submissions d) (community_posts d).
Definition set_quizzes (d : Database) (x : list Quiz.t) : Database :=
  mkDB (users d) (teachers d) (courses d) (progress d) x
       (quiz_submissions d) (community_posts d).
Definition set_quiz_submissions (d : Database)
    (x : list QuizSubmission.t) : Database :=
  mkDB (users d) (teachers d) (courses d) (progress d) (quizzes d)
       x (community_posts d).

(** The cursor and collection operations of the driver that the handlers
    use, on a collection held as a list. *)
Module Mongo.

(** [coll.find(query)]: the matching documents, in natural order. *)
Definition find {A} (query : A -> bool) (coll : list A) : list A :=
  filter query coll.

(** [cursor.to_list(n)] and [cursor.limit(n)]: at most the first [n]. *)
Definition to_list {A} (n : nat) (cursor : list A) : list A :=
  firstn n cursor.
Definition limit {A} (n : nat) (cursor : list A) : list A :=
  firstn n cursor.

(** [coll.find_one(query)]: the first matching document, or [None]. *)
Definition find_one {A} (query : A -> bool) (coll : list A) : option A :=
  List.find query coll.

(** [coll.insert_one(doc)] *)
Definition insert_one {A} (doc : A) (coll : list A) : list A :=
  coll ++ [doc].

(** [coll.update_one(query, update)]: the first matching document is
    updated, nothing happens when none matches. *)
Fixpoint update_one {A} (query : A -> bool) (update : A -> A)
    (coll : list A) : list A :=
  match coll with
  | [] => []
  | d :: rest =>
      if query d then update d :: rest
      else d :: update_one query update rest
  end.

(** The operator [$addToSet] on an array of strings: the value is
    appended unless the array already holds it. *)
Definition addToSet (v : string) (arr : list string) : list string :=
  if existsb (String.eqb v) arr then arr else arr ++ [v].

(** A query on an array field with a scalar: the array holds the value. *)
Definition array_contains (v : string) (arr : list string) : bool :=
  existsb (String.eqb v) arr.

(** [cursor.sort(key, -1)]: descending by an integer key (an insertion
    sort; documents with equal keys keep their natural order). *)
Fixpoint insert_desc {A} (key : A -> Z) (x : A) (l : list A) : list A :=
  match l with
  | [] => [x]
  | y :: rest =>
      if key y <? key x then x :: y :: rest
      else y :: insert_desc key x rest
  end.

Definition sort_desc {A} (key : A -> Z) (l : list A) : list A :=
  fold_left (fun acc x => insert_desc key x acc) l [].

End Mongo.

(* ================================================================== *)
(** * Handlers as state-and-exception computations *)
(* ================================================================== *)

(** An [async def] handler: it runs against the database and ends with a
    value or an exception; the writes made before an exception stay. *)
Definition handler (A : Type) : Type := Database -> outcome A * Database.

Definition ret {A} (a : A) : handler A := fun db => (Return a, db).
Definition raise {A} (e : exn) : handler A := fun db => (Raise e, db).
Definition bind {A B} (m : handler A) (k : A -> handler B) : handler B :=
  fun db =>
    match m db with
    | (Return a, db') => k a db'
    | (Raise e, db') => (Raise e, db')
    end.
(** A read of the store, and a write to it. *)
Definition query {A} (f : Database -> A) : handler A :=
  fun db => (Return (f db), db).
Definition write (f : Database -> Database) : handler unit :=
  fun db => (Return tt, f db).
(** A pure step that may raise. *)
Definition lift {A} (r : outcome A) : handler A := fun db => (r, db).

Declare Scope handler_scope.
Delimit Scope handler_scope with handler.
Notation "x <- m ;; k" := (bind m (fun x => k))
  (at level 100, m at next level, right associativity) : handler_scope.
Notation "m ;;; k" := (bind m (fun _ => k))
  (at level 100, right associativity) : handler_scope.
Local Open Scope handler_scope.

(* ================================================================== *)
(** * Tokens: the part of the [jwt] package the handlers call *)
(* ================================================================== *)

(** A symbolic model of signed tokens: a token is what [encode] built
    from a payload under a key, or a string no key decodes. *)
Module jwt.

Record payload := mk { sub : option string; exp : option datetime }.

Inductive token : Type :=
| Encoded (key : string) (claims : payload)
| Undecodable (raw : string).

Definition encode (claims : payload) (key : string) : token :=
  Encoded key claims.

(** [decode]: the signature is checked against the key, then the expiry
    against the clock. *)
Definition decode (t : token) (key : string) (utcnow : datetime)
  : outcome payload :=
  match t with
  | Undecodable _ => Raise (JWTException "DecodeError")
  | Encoded k claims =>
      if negb (String.eqb k key)
      then Raise (JWTException "InvalidSignatureError")
      else match exp claims with
           | Some e =>
               if e <=? utcnow
               then Raise (JWTException "ExpiredSignatureError")
               else Return claims
           | None => Return claims
           end
  end.

(** The exception classes the package exports, each with its base. *)
Definition exceptions : list (string * string) :=
  [ ("PyJWTError", "Exception");
    ("InvalidTokenError", "PyJWTError");
    ("DecodeError", "InvalidTokenError");
    ("InvalidSignatureError", "DecodeError");
    ("ExpiredSignatureError", "InvalidTokenError");
    ("InvalidAudienceError", "InvalidTokenError");
    ("InvalidIssuerError", "InvalidTokenError");
    ("InvalidIssuedAtError", "InvalidTokenError");
    ("ImmatureSignatureError", "InvalidTokenError");
    ("InvalidKeyError", "PyJWTError");
    ("InvalidAlgorithmError", "InvalidTokenError");
    ("MissingRequiredClaimError", "InvalidTokenError");
    ("PyJWKError", "PyJWTError");
    ("PyJWKSetError", "PyJWTError");
    ("PyJWKClientError", "PyJWTError");
    ("PyJWKClientConnectionError", "PyJWKClientError") ].

(** [jwt.<name>] for an exception class: the class when the package has
    it, [AttributeError] otherwise. *)
Definition getattr (name : string) : outcome string :=
  if existsb (fun c => String.eqb (fst c) name) exceptions
  then Return name
  else Raise (AttributeError "jwt" name).

Definition base_of (cls : string) : option string :=
  option_map snd (List.find (fun c => String.eqb (fst c) cls) exceptions).

(** [issubclass(cls, base)], walking up at most [fuel] bases. *)
Fixpoint issubclass (fuel : nat) (cls base : string) : bool :=
  String.eqb cls base ||
  match fuel with
  | O => false
  | S fuel' =>
      match base_of cls with
      | Some b => issubclass fuel' b base
      | None => false
      end
  end.

End jwt.

(** [isinstance(e, cls)] for a class of the [jwt] package. *)
Definition isinstance_jwt (e : exn) (cls : string) : bool :=
  match e with
  | JWTException c => jwt.issubclass (List.length jwt.exceptions) c cls
  | _ => false
  end.

(** [try: body  except <cls_expr>: on_match].  The expression of the
    [except] clause is evaluated only once the body has raised; when that
    evaluation itself raises, its exception replaces the one in flight. *)
Definition try_except {A} (body : handler A) (cls_expr : outcome string)
    (on_match : handler A) : handler A :=
  fun db =>
    match body db with
    | (Return a, db') => (Return a, db')
    | (Raise e, db') =>
        match cls_expr with
        | Raise e' => (Raise e', db')
        | Return cls =>
            if isinstance_jwt e cls then on_match db' else (Raise e, db')
        end
    end.

Definition SECRET_KEY : string := "your-secret-key-change-in-production".

(** [timedelta(minutes=15)] *)
Definition minutes_15 : Z := 15 * 60 * 1000000.

(** [create_access_token(data, expires_delta)]; a zero [timedelta] is
    false, as [None] is. *)
Definition create_access_token (data : jwt.payload)
    (expires_delta : option Z) (utcnow : datetime) : jwt.token :=
  let expire :=
    match expires_delta with
    | Some d => if d =? 0 then utcnow + minutes_15 else utcnow + d
    | None => utcnow + minutes_15
    end in
  let to_encode := jwt.mk (jwt.sub data) (Some expire) in
  jwt.encode to_encode SECRET_KEY.

(** [UserResponse] built from the keys of a user document; the keys that
    are no field of the model are dropped. *)
Definition UserResponse_of_doc (d : UserDoc.t) : UserResponse.t :=
  UserResponse.mk (UserDoc.id d) (UserDoc.email d) (UserDoc.full_name d)
                  (UserDoc.role d) (UserDoc.profile_image d) (UserDoc.bio d).

(** [UserResponse] built from the keys of [user.dict()]. *)
Definition UserResponse_of_user (u : User.t) : UserResponse.t :=
  UserResponse.mk (User.id u) (User.email u) (User.full_name u)
                  (User.role u) (User.profile_image u) (User.bio u).

Definition get_current_user (credentials : jwt.token) (utcnow : datetime)
  : handler UserResponse.t :=
  try_except
    (payload <- lift (jwt.decode credentials SECRET_KEY utcnow) ;;
     match jwt.sub payload with
     | None => raise (HTTPException 401 "Invalid token")
     | Some user_id =>
         user_doc <- query (fun db =>
           Mongo.find_one (fun u => String.eqb (UserDoc.id u) user_id)
                          (users db)) ;;
         match user_doc with
         | None => raise (HTTPException 401 "User not found")
         | Some d => ret (UserResponse_of_doc d)
         end
     end)
    (jwt.getattr "PyJSONError")
    (raise (HTTPException 401 "Invalid token")).

(** A route declared with [Depends(get_current_user)]: the dependency
    runs first and the handler body receives its value. *)
Definition authenticated {A} (route : UserResponse.t -> handler A)
    (credentials : jwt.token) (utcnow : datetime) : handler A :=
  current_user <- get_current_user credentials utcnow ;;
  route current_user.

(* ================================================================== *)
(** * The placeholder generators *)
(* ================================================================== *)

Record RecommendedCourse := mkRecommendedCourse {
  rc_course_id : string; rc_title : string;
  rc_priority : string; rc_reason : string }.

Record LearningPath := mkLearningPath {
  current_level : string;
  recommended_courses : list RecommendedCourse;
  learning_goals : list string;
  estimated_completion : string }.

Definition get_learning_path (student_id : string) : LearningPath :=
  mkLearningPath "Intermediate"
    [ mkRecommendedCourse "course_1" "Advanced Python Programming" "high"
        "Based on your progress in basic Python, this is the next logical step";
      mkRecommendedCourse "course_2" "Data Structures & Algorithms" "medium"
        "Will strengthen your programming foundation" ]
    [ "Master object-oriented programming";
      "Understand algorithm complexity";
      "Build real-world projects" ]
    "6 weeks".

Record ProgressAnalysis := mkProgressAnalysis {
  overall_performance : string;
  strengths : list string;
  areas_for_improvement : list string;
  recommendations : list string;
  next_milestone : string;
  motivation_message : string }.

Definition analyze_progress (student_id : string) : ProgressAnalysis :=
  mkProgressAnalysis "Good"
    [ "Problem solving"; "Code implementation" ]
    [ "Algorithm optimization"; "Code documentation" ]
    [ "Focus more on time complexity analysis";
      "Practice writing clean, documented code";
      "Take on more challenging projects" ]
    "Complete advanced algorithms course"
    "You're making excellent progress! Keep up the great work.".

(** The two identifiers are what [uuid.uuid4()] gives the two questions. *)
Definition generate_quiz_questions (course_id topic : string)
    (uuid_q1 uuid_q2 : string) : list QuizQuestion.t :=
  [ QuizQuestion.mk uuid_q1
      "What is the main purpose of object-oriented programming?"
      [ "To make code run faster";
        "To organize code into reusable objects";
        "To use less memory";
        "To write shorter programs" ]
      1
      (Some "OOP helps organize code into reusable, maintainable objects.");
    QuizQuestion.mk uuid_q2
      "Which principle of OOP allows hiding internal implementation?"
      [ "Inheritance"; "Polymorphism"; "Encapsulation"; "Abstraction" ]
      2
      (Some "Encapsulation hides the internal state and implementation details.") ].

(* ================================================================== *)
(** * Route handlers *)
(* ================================================================== *)

(** ** Documents as a cursor yields them, and the response encoder *)

Module bson.
(** The identifier the store keeps for each document under the key
    ["_id"].  Its value plays no part in what follows and is not
    tracked. *)
Inductive ObjectId : Type := ObjectId_of_store.
End bson.

(** A document as a cursor yields it: the stored fields and, unless a
    projection took it away, the key ["_id"]. *)
Module Document.
Record t (A : Type) := mk { _id : option bson.ObjectId; fields : A }.
End Document.

(** [coll.find(query)] without a projection: the matching documents, in
    natural order, each with its ["_id"]. *)
Definition find_documents {A} (query : A -> bool) (coll : list A)
  : list (Document.t A) :=
  map (Document.mk (Some bson.ObjectId_of_store)) (Mongo.find query coll).

(** What the framework does with the value of a handler that declares no
    response model: [jsonable_encoder] walks it.  Strings, numbers,
    instants, lists and dicts encode; an [ObjectId] has no encoder and is
    neither a mapping nor an object with attributes, so the encoder
    raises [ValueError]. *)
Definition encode_document {A} (d : Document.t A) : outcome A :=
  match Document._id d with
  | Some _ => Raise (ValueError "'ObjectId' object is not iterable")
  | None => Return (Document.fields d)
  end.

Fixpoint encode_documents {A} (docs : list (Document.t A))
  : outcome (list A) :=
  match docs with
  | [] => Return []
  | d :: rest =>
      obind (encode_document d) (fun x =>
      obind (encode_documents rest) (fun xs => Return (x :: xs)))
  end.

(** A route without response model: the handler, then the encoding of
    what it returned. *)
Definition respond {A B} (jsonable_encoder : A -> outcome B)
    (h : handler A) : handler B :=
  v <- h ;; lift (jsonable_encoder v).

Module Token.
Record t := mk { access_token : jwt.token; token_type : string;
                 user : UserResponse.t }.
End Token.

(** [user.dict()] with ["hashed_password"] set. *)
Definition user_dict (u : User.t) (hashed_password : string) : UserDoc.t :=
  UserDoc.mk (User.id u) (User.email u) (User.full_name u) (User.role u)
             (User.created_at u) (User.profile_image u) (User.bio u)
             hashed_password.

(** [POST /auth/register].  [get_password_hash] is the hashing of the
    password context; [uuid_user] and [uuid_teacher] are what
    [uuid.uuid4()] gives the two models, [utcnow_user] and [utcnow_token]
    what [datetime.utcnow()] gives when the user is built and when the
    token is issued. *)
Definition register (get_password_hash : string -> string)
    (user_data : UserCreate.t) (uuid_user uuid_teacher : string)
    (utcnow_user utcnow_token : datetime) : handler Token.t :=
  existing_user <- query (fun db =>
    Mongo.find_one
      (fun u => String.eqb (UserDoc.email u) (UserCreate.email user_data))
      (users db)) ;;
  if truthy_doc existing_user
  then raise (HTTPException 400 "Email already registered")
  else
    let hashed_password :=
      get_password_hash (UserCreate.password user_data) in
    let user :=
      User.mk uuid_user (UserCreate.email user_data)
              (UserCreate.full_name user_data) (UserCreate.role user_data)
              utcnow_user None None in
    write (fun db =>
      set_users db
        (Mongo.insert_one (user_dict user hashed_password) (users db))) ;;;
    (if String.eqb (UserCreate.role user_data) "teacher"
     then
       let teacher :=
         Teacher.mk uuid_teacher (User.id user) (User.full_name user)
                    (User.email user) [] 0 4.5%float 0 None None None in
       write (fun db =>
         set_teachers db (Mongo.insert_one teacher (teachers db)))
     else ret tt) ;;;
    let access_token :=
      create_access_token (jwt.mk (Some (User.id user)) None) None
                          utcnow_token in
    let user_response := UserResponse_of_user user in
    ret (Token.mk access_token "bearer" user_response).

Record StudentDashboard := mkStudentDashboard {
  sd_learning_path : LearningPath;
  sd_enrolled_courses : list Course.t;
  sd_progress : list Progress.t;
  sd_recent_posts : list CommunityPost.t;
  sd_ai_insights : ProgressAnalysis }.

(** [GET /dashboard/student/{student_id}] *)
Definition get_student_dashboard (student_id : string)
  : handler StudentDashboard :=
  let learning_path := get_learning_path student_id in
  enrolled_courses <- query (fun db =>
    Mongo.to_list 10
      (Mongo.find
         (fun c => Mongo.array_contains student_id
                     (Course.enrolled_students c))
         (courses db))) ;;
  progress_docs <- query (fun db =>
    Mongo.to_list 10
      (Mongo.find (fun p => String.eqb (Progress.student_id p) student_id)
                  (progress db))) ;;
  recent_posts <- query (fun db =>
    Mongo.to_list 5
      (Mongo.limit 5
         (Mongo.sort_desc CommunityPost.created_at
            (Mongo.find (fun _ => true) (community_posts db))))) ;;
  ret (mkStudentDashboard learning_path enrolled_courses progress_docs
         recent_posts (analyze_progress student_id)).

(** The keys a course query can carry, and the equality match of a query
    dict against a course document. *)
Inductive course_key : Type := K_subject | K_difficulty_level.

Definition course_get (k : course_key) (c : Course.t) : string :=
  match k with
  | K_subject => Course.subject c
  | K_difficulty_level => Course.difficulty_level c
  end.

Definition course_matches (filter_query : list (course_key * string))
    (c : Course.t) : bool :=
  forallb (fun kv => String.eqb (course_get (fst kv) c) (snd kv))
          filter_query.

(** [GET /courses] *)
Definition get_courses (subject difficulty : option string)
  : handler (list Course.t) :=
  let filter_query := [] in
  let filter_query :=
    match subject with
    | Some s => if truthy_str subject
                then filter_query ++ [(K_subject, s)] else filter_query
    | None => filter_query
    end in
  let filter_query :=
    match difficulty with
    | Some d => if truthy_str difficulty
                then filter_query ++ [(K_difficulty_level, d)]
                else filter_query
    | None => filter_query
    end in
  courses <- query (fun db =>
    Mongo.to_list 50 (Mongo.find (course_matches filter_query)
                                 (courses db))) ;;
  ret courses.

(** [POST /courses] *)
Definition create_course (course_data : CourseCreate.t)
    (uuid_course : string) (utcnow : datetime)
    (current_user : UserResponse.t) : handler Course.t :=
  if negb (String.eqb (UserResponse.role current_user) "teacher")
  then raise (HTTPException 403 "Only teachers can create courses")
  else
    let course :=
      Course.mk uuid_course (CourseCreate.title course_data)
        (CourseCreate.description course_data)
        (UserResponse.id current_user)
        (UserResponse.full_name current_user)
        (CourseCreate.subject course_data)
        (CourseCreate.difficulty_level course_data)
        (CourseCreate.duration_hours course_data) utcnow
        (CourseCreate.image course_data) [] 4.5%float
        (CourseCreate.total_lessons course_data) in
    write (fun db => set_courses db (Mongo.insert_one course (courses db))) ;;;
    ret course.

(** [POST /courses/{course_id}/enroll] *)
Definition enroll_in_course (course_id : string) (uuid_progress : string)
    (utcnow : datetime) (current_user : UserResponse.t) : handler string :=
  if negb (String.eqb (UserResponse.role current_user) "student")
  then raise (HTTPException 403 "Only students can enroll in courses")
  else
    write (fun db =>
      set_courses db
        (Mongo.update_one
           (fun c => String.eqb (Course.id c) course_id)
           (fun c => Course.set_enrolled_students c
                       (Mongo.addToSet (UserResponse.id current_user)
                                       (Course.enrolled_students c)))
           (courses db))) ;;;
    course <- query (fun db =>
      Mongo.find_one (fun c => String.eqb (Course.id c) course_id)
                     (courses db)) ;;
    match course with
    | Some course =>
        let progress_entry :=
          Progress.mk uuid_progress (UserResponse.id current_user)
                      course_id (Course.title course) 0%float utcnow
                      0%float [] in
        write (fun db =>
          set_progress db (Mongo.insert_one progress_entry (progress db)))
    | None => ret tt
    end ;;;
    ret "Successfully enrolled in course".

(** The update [{"$set": profile_data.dict()}]: [dict()] lists every field
    of the model, so all four keys are set. *)
Definition set_profile (profile_data : TeacherCreate.t) (t : Teacher.t)
  : Teacher.t :=
  Teacher.mk (Teacher.id t) (Teacher.user_id t) (Teacher.full_name t)
             (Teacher.email t)
             (TeacherCreate.subjects profile_data)
             (TeacherCreate.experience_years profile_data)
             (Teacher.rating t) (Teacher.total_students t)
             (TeacherCreate.bio profile_data)
             (Teacher.profile_image t)
             (TeacherCreate.hourly_rate profile_data).

(** [PUT /teachers/profile] *)
Definition update_teacher_profile (profile_data : TeacherCreate.t)
    (current_user : UserResponse.t) : handler string :=
  if negb (String.eqb (UserResponse.role current_user) "teacher")
  then raise (HTTPException 403 "Only teachers can update profile")
  else
    write (fun db =>
      set_teachers db
        (Mongo.update_one
           (fun t => String.eqb (Teacher.user_id t)
                                (UserResponse.id current_user))
           (set_profile profile_data)
           (teachers db))) ;;;
    ret "Profile updated successfully".

Record ProgressStats := mkProgressStats {
  total_courses : Z;
  average_completion : float;
  total_time_hours : float }.

(** The dict the handler returns, over the kind of document it holds. *)
Record ProgressView (D : Type) := mkProgressView {
  pv_courses : list D;
  pv_stats : ProgressStats;
  pv_ai_analysis : ProgressAnalysis }.

(** [get_student_progress]: the cursor has no projection, the documents
    it returns keep their ["_id"]. *)
Definition get_student_progress (student_id : string)
  : handler (ProgressView (Document.t Progress.t)) :=
  progress_docs <- query (fun db =>
    Mongo.to_list 50
      (find_documents
         (fun p => String.eqb (Progress.student_id p) student_id)
         (progress db))) ;;
  let total_courses := len progress_docs in
  avg_completion <- lift
    (truediv
       (Py.sum (map (fun p => Progress.completion_percentage
                                (Document.fields p)) progress_docs))
       (Z.max total_courses 1)) ;;
  let total_time :=
    Py.sum (map (fun p => Progress.time_spent_hours (Document.fields p))
                progress_docs) in
  ret (mkProgressView progress_docs
         (mkProgressStats total_courses avg_completion total_time)
         (analyze_progress student_id)).

(** The encoding of that dict. *)
Definition encode_progress_view (v : ProgressView (Document.t Progress.t))
  : outcome (ProgressView Progress.t) :=
  obind (encode_documents (pv_courses v)) (fun courses =>
  Return (mkProgressView courses (pv_stats v) (pv_ai_analysis v))).

(** [GET /progress/{student_id}]: the handler and the encoding of its
    value. *)
Definition route_get_student_progress (student_id : string)
  : handler (ProgressView Progress.t) :=
  respond encode_progress_view (get_student_progress student_id).

(** What the variable [quiz] of [get_course_quiz] holds when the handler
    returns: the stored document (a dict) or the freshly built model. *)
Inductive quiz_value : Type :=
| QuizDict (doc : Quiz.t)
| QuizModel (model : Quiz.t).

(** [Quiz] called with the double-star unpacking of a value: the value
    has to be a mapping.  A dict is one; a pydantic model has neither
    [keys] nor item access, and the call raises [TypeError]. *)
Definition Quiz_unpack (v : quiz_value) : outcome Quiz.t :=
  match v with
  | QuizDict doc => Return doc
  | QuizModel _ =>
      Raise (TypeError "argument after ** must be a mapping, not Quiz")
  end.

(** [GET /quiz/{course_id}] *)
Definition get_course_quiz (course_id : string)
    (uuid_quiz uuid_q1 uuid_q2 : string) (utcnow : datetime)
  : handler Quiz.t :=
  found <- query (fun db =>
    Mongo.find_one (fun q => String.eqb (Quiz.course_id q) course_id)
                   (quizzes db)) ;;
  quiz <- match found with
          | Some doc => ret (QuizDict doc)
          | None =>
              let questions :=
                generate_quiz_questions course_id "General"
                                        uuid_q1 uuid_q2 in
              let quiz :=
                Quiz.mk uuid_quiz course_id "Course Assessment"
                        questions utcnow in
              write (fun db =>
                set_quizzes db (Mongo.insert_one quiz (quizzes db))) ;;;
              ret (QuizModel quiz)
          end ;;
  lift (Quiz_unpack quiz).

(** One turn of the scoring loop of [submit_quiz]; [and] evaluates its
    right operand, which indexes the questions, only when the left one is
    true. *)
Definition score_step (questions : list QuizQuestion.t)
    (correct_answers : Z) (ia : Z * Z) : outcome Z :=
  let (i, answer) := ia in
  if i <? len questions then
    obind (getitem questions i) (fun q =>
      if answer =? QuizQuestion.correct_answer q
      then Return (correct_answers + 1)
      else Return correct_answers)
  else Return correct_answers.

(** [for i, answer in enumerate(answers): ...] from [correct_answers]. *)
Fixpoint score_loop (questions : list QuizQuestion.t)
    (items : list (Z * Z)) (correct_answers : Z) : outcome Z :=
  match items with
  | [] => Return correct_answers
  | ia :: rest =>
      obind (score_step questions correct_answers ia)
            (score_loop questions rest)
  end.

Record SubmitResult := mkSubmitResult {
  sr_score : float;
  sr_correct_answers : Z;
  sr_total_questions : Z;
  sr_percentage : float }.

(** [POST /quiz/submit] *)
Definition submit_quiz (submission : QuizSubmission.t)
    (current_user : UserResponse.t) : handler SubmitResult :=
  quiz <- query (fun db =>
    Mongo.find_one
      (fun q => String.eqb (Quiz.id q) (QuizSubmission.quiz_id submission))
      (quizzes db)) ;;
  match quiz with
  | None => raise (HTTPException 404 "Quiz not found")
  | Some quiz =>
      let total_questions := len (Quiz.questions quiz) in
      correct_answers <- lift
        (score_loop (Quiz.questions quiz)
           (enumerate (QuizSubmission.answers submission)) 0) ;;
      ratio <- lift
        (truediv (float_of_int correct_answers) total_questions) ;;
      let score := PrimFloat.mul ratio (float_of_int 100) in
      let submission :=
        QuizSubmission.mk (QuizSubmission.quiz_id submission)
          (UserResponse.id current_user)
          (QuizSubmission.answers submission) score
          (QuizSubmission.completed_at submission) in
      write (fun db =>
        set_quiz_submissions db
          (Mongo.insert_one submission (quiz_submissions db))) ;;;
      ret (mkSubmitResult score correct_answers total_questions score)
  end.

(* ================================================================== *)
(** * The specification's reading of the quiz score *)
(* ================================================================== *)

(** The number of positions that lie within both the answers and the
    questions and where the answer is the question's [correct_answer]. *)
Definition matching_positions (answers : list Z)
    (questions : list QuizQuestion.t) : nat :=
  List.length
    (filter
       (fun i =>
          match nth_error answers i, nth_error questions i with
          | Some a, Some q => a =? QuizQuestion.correct_answer q
          | _, _ => false
          end)
       (seq 0 (Nat.min (List.length answers) (List.length questions)))).

(** The same count, walking the two lists together. *)
Fixpoint zip_count (answers : list Z) (questions : list QuizQuestion.t)
  : nat :=
  match answers, questions with
  | a :: answers', q :: questions' =>
      Nat.add (if a =? QuizQuestion.correct_answer q then 1%nat else 0%nat)
              (zip_count answers' questions')
  | _, _ => O
  end.

(** The score the handler reports for [n] right answers out of [total]. *)
Definition percent (n total : nat) : float :=
  PrimFloat.mul
    (PrimFloat.div (float_of_int (Z.of_nat n)) (float_of_int (Z.of_nat total)))
    (float_of_int 100).

(** The submission as [submit_quiz] stores it. *)
Definition scored (submission : QuizSubmission.t) (student_id : string)
    (score : float) : QuizSubmission.t :=
  QuizSubmission.mk (QuizSubmission.quiz_id submission) student_id
    (QuizSubmission.answers submission) score
    (QuizSubmission.completed_at submission).

(* ================================================================== *)
(** * Sample data *)
(* ================================================================== *)

Module Sample.

Definition empty_db : Database := mkDB [] [] [] [] [] [] [].

(** A quiz as [get_course_quiz] generates it: correct answers 1 and 2. *)
Definition quiz_1 : Quiz.t :=
  Quiz.mk "quiz_1" "course_1" "Course Assessment"
          (generate_quiz_questions "course_1" "General" "q_1" "q_2") 0.

(** A stored quiz without questions. *)
Definition quiz_0 : Quiz.t :=
  Quiz.mk "quiz_0" "course_0" "Empty" [] 0.

Definition db_quiz : Database := set_quizzes empty_db [quiz_1; quiz_0].

Definition student : UserResponse.t :=
  UserResponse.mk "student_1" "emma.watson@student.com" "Emma Watson"
                  "student" None None.

Definition teacher : UserResponse.t :=
  UserResponse.mk "teacher_1" "john.smith@teacher.com" "John Smith"
                  "teacher" None None.

Definition submission (quiz_id : string) (answers : list Z)
  : QuizSubmission.t :=
  QuizSubmission.mk quiz_id "" answers 0%float 0.

End Sample.

Module AuthSample.

Definition emma : UserDoc.t :=
  UserDoc.mk "student_1" "emma.watson@student.com" "Emma Watson"
             "student" 0 None None "$2b$12$hash".

Definition db_users : Database := set_users Sample.empty_db [emma].

(** A token for Emma issued at instant 0 that expired one second
    before it was issued, presented at instant 5000000. *)
Definition expired_token : jwt.token :=
  create_access_token (jwt.mk (Some "student_1") None)
                      (Some (-1000000)) 0.

(** A token for Emma issued at instant 0 with the default lifetime. *)
Definition fresh_token : jwt.token :=
  create_access_token (jwt.mk (Some "student_1") None) None 0.

Definition garbage_token : jwt.token := jwt.Undecodable "invalid_token".

Definition emma_data : UserCreate.t :=
  UserCreate.mk "emma.watson@student.com" "SecurePass123!"
                "Emma Watson" "student".

Definition john_data : UserCreate.t :=
  UserCreate.mk "john.smith@teacher.com" "TeacherPass456!"
                "John Smith" "teacher".

(** A stand-in for the hashing of the password context. *)
Definition sample_hash (password : string) : string :=
  "$2b$12$" ++ password.

End AuthSample.

Module CourseSample.

Definition course_1 : Course.t :=
  Course.mk "course_1" "Introduction to Python Programming"
    "Learn Python from scratch with hands-on projects"
    "teacher_1" "Dr. Sarah Chen" "Programming" "beginner" 40 0 None
    ["student_1"; "student_2"] 4.8%float 20.

Definition course_2 : Course.t :=
  Course.mk "course_2" "Data Structures & Algorithms"
    "Master fundamental CS concepts"
    "teacher_2" "Prof. Michael Rodriguez" "Computer Science"
    "intermediate" 60 0 None ["student_1"] 4.7%float 30.

Definition course_3 : Course.t :=
  Course.mk "course_3" "Web Development with React"
    "Build modern web applications"
    "teacher_1" "Dr. Sarah Chen" "Web Development" "intermediate" 50 0
    None ["student_2"] 4.9%float 25.

(** The courses of the seeding route. *)
Definition db_seeded : Database :=
  set_courses Sample.empty_db [course_1; course_2; course_3].

Definition student_3 : UserResponse.t :=
  UserResponse.mk "student_3" "s3@student.com" "Sam Three" "student"
                  None None.

End CourseSample.

Module TeacherSample.

Definition john_profile : Teacher.t :=
  Teacher.mk "teacher_1" "teacher_1" "John Smith"
    "john.smith@teacher.com" ["Programming"; "Web Development"] 12
    4.9%float 150
    (Some "Experienced full-stack developer and educator") None
    (Some 75%float).

Definition db_teachers : Database :=
  set_teachers Sample.empty_db [john_profile].

(** A request body that names only the two required keys. *)
Definition subjects_only : TeacherCreate.t :=
  TeacherCreate.mk ["Programming"; "JavaScript"] 13 None None.

End TeacherSample.

Module BulkSample.

(** [n] strokes, to number sample documents. *)
Fixpoint tally (n : nat) : string :=
  match n with
  | O => ""
  | S k => "I" ++ tally k
  end.

Definition numbered_course (subject : string) (n : nat) : Course.t :=
  Course.mk ("course_" ++ tally n) "Title" "Description" "teacher_1"
    "Dr. Sarah Chen" subject "beginner" 10 (Z.of_nat n) None
    ["student_1"] 4.5%float 5.

(** Eleven courses, all with student_1 enrolled. *)
Definition db_11_courses : Database :=
  set_courses Sample.empty_db
    (map (numbered_course "Programming") (seq 1 11)).

Definition numbered_progress (n : nat) : Progress.t :=
  Progress.mk ("progress_" ++ tally n) "student_1"
    ("course_" ++ tally n) "Title" 50%float 0 2%float [].

(** Fifty-one progress records of student_1. *)
Definition db_51_progress : Database :=
  set_progress Sample.empty_db (map numbered_progress (seq 1 51)).

(** Fifty courses on Mathematics followed by one on Programming. *)
Definition db_51_courses : Database :=
  set_courses Sample.empty_db
    (map (numbered_course "Mathematics") (seq 1 50)
     ++ [numbered_course "Programming" 51]).

End BulkSample.

(** The value a handler returned, when it returned one. *)
Definition returned {A} (r : outcome A * Database) : option A :=
  match fst r with
  | Return a => Some a
  | Raise _ => None
  end.

(** Descending order of the key. *)
Definition desc {A} (key : A -> Z) (x y : A) : Prop := key y <= key x.

(** The specification's reading of the optional course filters: a course
    passes a filter that is absent or empty, and otherwise passes when
    its field equals the filter value. *)
Definition passes (filter_value : option string) (field : string) : bool :=
  match filter_value with
  | Some v => if String.eqb v "" then true else String.eqb field v
  | None => true
  end.

Definition selected (subject difficulty : option string) (c : Course.t)
  : bool :=
  passes subject (Course.subject c)
  && passes difficulty (Course.difficulty_level c).


(* ================================================================== *)
(** * The other routes *)
(* ================================================================== *)

Module UserLogin.
Record t := mk { email : string; password : string }.
End UserLogin.

(** [POST /auth/login].  [verify_password] is the check of the password
    context; [or] leaves the check alone when no document was found. *)
Definition login (verify_password : string -> string -> bool)
    (user_data : UserLogin.t) (utcnow : datetime) : handler Token.t :=
  user_doc <- query (fun db =>
    Mongo.find_one
      (fun u => String.eqb (UserDoc.email u) (UserLogin.email user_data))
      (users db)) ;;
  match user_doc with
  | None => raise (HTTPException 401 "Invalid credentials")
  | Some doc =>
      if negb (verify_password (UserLogin.password user_data)
                               (UserDoc.hashed_password doc))
      then raise (HTTPException 401 "Invalid credentials")
      else
        let access_token :=
          create_access_token (jwt.mk (Some (UserDoc.id doc)) None) None
                              utcnow in
        let user_response := UserResponse_of_doc doc in
        ret (Token.mk access_token "bearer" user_response)
  end.

(** [GET /auth/me] *)
Definition get_me (current_user : UserResponse.t) : handler UserResponse.t :=
  ret current_user.

Record TeacherAnalytics := mkTeacherAnalytics {
  ta_total_students : Z;
  ta_total_courses : Z;
  ta_average_completion : float;
  ta_total_hours_taught : float }.

(** The dict the handler returns, over the kinds of document it holds. *)
Record TeacherDashboard (C P : Type) := mkTeacherDashboard {
  td_courses : list C;
  td_student_progress : list P;
  td_analytics : TeacherAnalytics }.

(** [len(set(xs))] for strings. *)
Definition len_set (xs : list string) : Z := len (nodup string_dec xs).

(** [get_teacher_dashboard]: neither cursor has a projection, the
    documents keep their ["_id"]. *)
Definition get_teacher_dashboard (teacher_id : string)
  : handler (TeacherDashboard (Document.t Course.t)
                              (Document.t Progress.t)) :=
  teacher_courses <- query (fun db =>
    Mongo.to_list 20
      (find_documents
         (fun c => String.eqb (Course.teacher_id c) teacher_id)
         (courses db))) ;;
  let course_ids :=
    map (fun course => Course.id (Document.fields course))
        teacher_courses in
  student_progress <- query (fun db =>
    Mongo.to_list 100
      (find_documents
         (fun p => existsb (String.eqb (Progress.course_id p)) course_ids)
         (progress db))) ;;
  let analytics :=
    mkTeacherAnalytics
      (len_set (map (fun p => Progress.student_id (Document.fields p))
                    student_progress))
      (len teacher_courses) 75.5%float 120.5%float in
  ret (mkTeacherDashboard teacher_courses student_progress analytics).

(** The encoding of that dict, key after key. *)
Definition encode_teacher_dashboard
    (d : TeacherDashboard (Document.t Course.t) (Document.t Progress.t))
  : outcome (TeacherDashboard Course.t Progress.t) :=
  obind (encode_documents (td_courses d)) (fun courses =>
  obind (encode_documents (td_student_progress d)) (fun student_progress =>
  Return (mkTeacherDashboard courses student_progress (td_analytics d)))).

(** [GET /dashboard/teacher/{teacher_id}]: the handler and the encoding
    of its value. *)
Definition route_get_teacher_dashboard (teacher_id : string)
  : handler (TeacherDashboard Course.t Progress.t) :=
  respond encode_teacher_dashboard (get_teacher_dashboard teacher_id).

(** The one condition a teacher query can carry: the array [subjects]
    holds one of the listed values. *)
Inductive teacher_cond : Type := Subjects_in (values : list string).

Definition teacher_matches (filter_query : list teacher_cond)
    (t : Teacher.t) : bool :=
  forallb
    (fun cond =>
       match cond with
       | Subjects_in values =>
           existsb (fun v => Mongo.array_contains v (Teacher.subjects t))
                   values
       end)
    filter_query.

(** [GET /teachers] *)
Definition get_teachers (subject : option string)
  : handler (list Teacher.t) :=
  let filter_query := [] in
  let filter_query :=
    match subject with
    | Some s => if truthy_str subject
                then filter_query ++ [Subjects_in [s]] else filter_query
    | None => filter_query
    end in
  teachers <- query (fun db =>
    Mongo.to_list 50 (Mongo.find (teacher_matches filter_query)
                                 (teachers db))) ;;
  ret teachers.

(** The update of [update_progress]: the two values as given, and the
    clock. *)
Definition set_progress_fields (completion_percentage
    time_spent_hours : float) (utcnow : datetime) (p : Progress.t)
  : Progress.t :=
  Progress.mk (Progress.id p) (Progress.student_id p) (Progress.course_id p)
              (Progress.course_title p) completion_percentage utcnow
              time_spent_hours (Progress.quiz_scores p).

(** [PUT /progress/{progress_id}] *)
Definition update_progress (progress_id : string)
    (completion_percentage time_spent_hours : float) (utcnow : datetime)
  : handler string :=
  write (fun db =>
    set_progress db
      (Mongo.update_one
         (fun p => String.eqb (Progress.id p) progress_id)
         (set_progress_fields completion_percentage time_spent_hours utcnow)
         (progress db))) ;;;
  ret "Progress updated successfully".

Definition set_community_posts (d : Database)
    (x : list CommunityPost.t) : Database :=
  mkDB (users d) (teachers d) (courses d) (progress d) (quizzes d)
       (quiz_submissions d) x.

Definition post_matches (filter_query : list string)
    (p : CommunityPost.t) : bool :=
  forallb (fun v => String.eqb (CommunityPost.category p) v) filter_query.

(** [get_community_posts]; the query dict has at most the key
    ["category"], held here as the list of its values.  The cursor has
    no projection, the documents keep their ["_id"]. *)
Definition get_community_posts (category : option string)
  : handler (list (Document.t CommunityPost.t)) :=
  let filter_query := [] in
  let filter_query :=
    match category with
    | Some c => if truthy_str category
                then filter_query ++ [c] else filter_query
    | None => filter_query
    end in
  posts <- query (fun db =>
    Mongo.to_list 50
      (Mongo.sort_desc
         (fun post => CommunityPost.created_at (Document.fields post))
         (find_documents (post_matches filter_query)
                         (community_posts db)))) ;;
  ret posts.

(** [GET /community/posts]: the handler and the encoding of the list it
    returned. *)
Definition route_get_community_posts (category : option string)
  : handler (list CommunityPost.t) :=
  respond encode_documents (get_community_posts category).

Module PostCreate.
Record t := mk { title : string; content : string; category : string }.
End PostCreate.

(** [POST /community/posts] *)
Definition create_community_post (post_data : PostCreate.t)
    (uuid_post : string) (utcnow : datetime)
    (current_user : UserResponse.t) : handler CommunityPost.t :=
  let post :=
    CommunityPost.mk uuid_post (UserResponse.id current_user)
      (UserResponse.full_name current_user)
      (PostCreate.title post_data) (PostCreate.content post_data)
      (PostCreate.category post_data) utcnow 0 [] in
  write (fun db =>
    set_community_posts db
      (Mongo.insert_one post (community_posts db))) ;;;
  ret post.

(** ** Files

    The two file routes touch only [db.files]; they are run against that
    collection. *)

Module StoredFile.
Record t := mk { id : string; filename : option string;
                 content_type : option string; content : string;
                 uploaded_at : datetime }.
End StoredFile.

Module UploadFile.
Record t := mk { filename : option string; content_type : option string;
                 data : list Byte.byte }.
End UploadFile.

Record UploadResult := mkUploadResult {
  ur_file_id : string; ur_filename : option string; ur_message : string }.

Record FileView := mkFileView {
  fv_filename : option string; fv_content_type : option string;
  fv_content : string }.

Definition file_handler (A : Type) : Type :=
  list StoredFile.t -> outcome A * list StoredFile.t.

(** [POST /upload]; [b64] is [base64.b64encode(content).decode()]. *)
Definition upload_file (b64 : list Byte.byte -> string)
    (file : UploadFile.t) (uuid_file : string) (utcnow : datetime)
  : file_handler UploadResult :=
  fun files =>
    let content := UploadFile.data file in
    let file_data :=
      StoredFile.mk uuid_file (UploadFile.filename file)
                    (UploadFile.content_type file) (b64 content) utcnow in
    (Return (mkUploadResult (StoredFile.id file_data)
                            (UploadFile.filename file)
                            "File uploaded successfully"),
     Mongo.insert_one file_data files).

(** [GET /files/{file_id}] *)
Definition get_file (file_id : string) : file_handler FileView :=
  fun files =>
    match Mongo.find_one (fun f => String.eqb (StoredFile.id f) file_id)
                         files with
    | None => (Raise (HTTPException 404 "File not found"), files)
    | Some file_doc =>
        (Return (mkFileView (StoredFile.filename file_doc)
                            (StoredFile.content_type file_doc)
                            (StoredFile.content file_doc)), files)
    end.

(** ** Seeding *)

(** [coll.delete_many(query)] and [coll.insert_many(docs)] *)
Definition delete_many {A} (query : A -> bool) (coll : list A) : list A :=
  filter (fun d => negb (query d)) coll.
Definition insert_many {A} (docs : list A) (coll : list A) : list A :=
  coll ++ docs.

(** The sample documents; the instants are what [datetime.utcnow()]
    gives for each. *)
Definition sample_courses (now1 now2 now3 : datetime) : list Course.t :=
  [ Course.mk "course_1" "Introduction to Python Programming"
      "Learn Python from scratch with hands-on projects"
      "teacher_1" "Dr. Sarah Chen" "Programming" "beginner" 40 now1 None
      ["student_1"; "student_2"] 4.8%float 20;
    Course.mk "course_2" "Data Structures & Algorithms"
      "Master fundamental CS concepts"
      "teacher_2" "Prof. Michael Rodriguez" "Computer Science"
      "intermediate" 60 now2 None ["student_1"] 4.7%float 30;
    Course.mk "course_3" "Web Development with React"
      "Build modern web applications"
      "teacher_1" "Dr. Sarah Chen" "Web Development" "intermediate" 50
      now3 None ["student_2"] 4.9%float 25 ].

Definition sample_teachers : list Teacher.t :=
  [ Teacher.mk "teacher_1" "teacher_1" "Dr. Sarah Chen"
      "sarah.chen@novazone.edu"
      ["Programming"; "Web Development"; "Data Science"] 12 4.9%float 150
      (Some "Passionate educator with 12+ years of experience in software engineering and education.")
      None (Some 75%float);
    Teacher.mk "teacher_2" "teacher_2" "Prof. Michael Rodriguez"
      "michael.rodriguez@novazone.edu"
      ["Computer Science"; "Algorithms"; "Mathematics"] 15 4.7%float 200
      (Some "Computer Science professor specializing in algorithms and theoretical CS.")
      None (Some 80%float) ].

Definition sample_posts (now1 now2 : datetime) : list CommunityPost.t :=
  [ CommunityPost.mk "post_1" "student_1" "Alex Johnson"
      "Best practices for Python coding?"
      "I'm new to Python and wondering what are some best practices I should follow from the beginning?"
      "question" now1 5 [];
    CommunityPost.mk "post_2" "teacher_1" "Dr. Sarah Chen"
      "New React Course Available!"
      "I'm excited to announce my new React course is now live. Perfect for those wanting to learn modern web development!"
      "announcement" now2 12 [] ].

(** [POST /seed-data] *)
Definition seed_database (now_c1 now_c2 now_c3 now_p1 now_p2 : datetime)
  : handler string :=
  write (fun db =>
    set_courses db (delete_many (fun _ => true) (courses db))) ;;;
  write (fun db =>
    set_courses db
      (insert_many (sample_courses now_c1 now_c2 now_c3) (courses db))) ;;;
  write (fun db =>
    set_teachers db (delete_many (fun _ => true) (teachers db))) ;;;
  write (fun db =>
    set_teachers db (insert_many sample_teachers (teachers db))) ;;;
  write (fun db =>
    set_community_posts db
      (delete_many (fun _ => true) (community_posts db))) ;;;
  write (fun db =>
    set_community_posts db
      (insert_many (sample_posts now_p1 now_p2) (community_posts db))) ;;;
  ret "Database seeded with sample data successfully".

(** ** Invariants of the store *)

(** Every enrollment list is free of repetition. *)
Definition enrollments_are_sets (db : Database) : Prop :=
  forall c, In c (courses db) -> NoDup (Course.enrolled_students c).

(** A question whose [correct_answer] indexes one of its options. *)
Definition question_ok (q : QuizQuestion.t) : Prop :=
  0 <= QuizQuestion.correct_answer q
       < len (QuizQuestion.options q).

(** Every stored quiz has a question, every question is well formed, and
    no two stored quizzes belong to one course. *)
Definition quizzes_ok (db : Database) : Prop :=
  (forall q, In q (quizzes db) ->
     Quiz.questions q <> [] /\ Forall question_ok (Quiz.questions q))
  /\ NoDup (map Quiz.course_id (quizzes db)).

(** The instant a token issued at [utcnow] expires. *)
Definition expiry (expires_delta : option Z) (utcnow : datetime) : datetime :=
  match expires_delta with
  | Some d => if d =? 0 then utcnow + minutes_15 else utcnow + d
  | None => utcnow + minutes_15
  end.

(** The teachers a subject filter selects: those whose subjects hold the
    value; an absent or empty filter selects every teacher. *)
Definition teaches (subject : option string) (t : Teacher.t) : bool :=
  match subject with
  | Some s => if String.eqb s "" then true
              else Mongo.array_contains s (Teacher.subjects t)
  | None => true
  end.

(** The posts a category filter selects; an absent or empty filter
    selects every post. *)
Definition in_category (category : option string) (p : CommunityPost.t)
  : bool :=
  match category with
  | Some c => if String.eqb c "" then true
              else String.eqb (CommunityPost.category p) c
  | None => true
  end.

(** The public view of a stored file. *)
Definition file_view (f : StoredFile.t) : FileView :=
  mkFileView (StoredFile.filename f) (StoredFile.content_type f)
             (StoredFile.content f).

Module MoreSample.

Definition sample_verify (password hashed : string) : bool :=
  String.eqb hashed (AuthSample.sample_hash password).

Definition sample_b64 (data : list Byte.byte) : string :=
  string_of_list_byte data.

Definition post_data : PostCreate.t :=
  PostCreate.mk "How to improve coding skills?"
    "I'm looking for advice on how to become a better programmer."
    "question".

Definition course_data : CourseCreate.t :=
  CourseCreate.mk "Advanced JavaScript Concepts"
    "Deep dive into modern JavaScript features and patterns"
    "Programming" "advanced" 35 None 15.

Definition text_file : UploadFile.t :=
  UploadFile.mk (Some "test_document.txt") (Some "text/plain")
    (list_byte_of_string "This is a test file for NovaZone platform").

Definition seeded : Database :=
  snd (seed_database 1 2 3 4 5 Sample.empty_db).

End MoreSample.

(* ================================================================== *)
(** * Properties of the quiz score *)
(* ================================================================== *)

Lemma zip_count_nil_r (answers : list Z) : zip_count answers [] = O.
Proof. destruct answers; reflexivity. Qed.

Lemma skipn_nth_error_cons {A} (l : list A) :
  forall k x, nth_error l k = Some x -> skipn k l = x :: skipn (S k) l.
Proof.
  induction l as [|y l IH]; intros [|k] x H; simpl in *; try discriminate.
  - now inversion H.
  - now apply IH.
Qed.

Lemma length_filter_map_S (f : nat -> bool) (l : list nat) :
  List.length (filter f (map S l))
  = List.length (filter (fun i => f (S i)) l).
Proof.
  induction l as [|i l IH]; simpl; [reflexivity|].
  destruct (f (S i)); simpl; now rewrite IH.
Qed.

Lemma matching_positions_zip (answers : list Z) :
  forall questions,
    matching_positions answers questions = zip_count answers questions.
Proof.
  unfold matching_positions.
  induction answers as [|a answers IH]; intros [|q questions];
    try reflexivity.
  cbn [List.length Nat.min seq filter nth_error zip_count].
  rewrite <- seq_shift.
  destruct (a =? QuizQuestion.correct_answer q);
    cbn [List.length]; rewrite length_filter_map_S;
    cbn [nth_error]; rewrite IH; reflexivity.
Qed.

(** The loop of the handler, started at index [k], counts along the
    questions from [k] on; indexing never leaves the list. *)
Lemma score_loop_from (questions : list QuizQuestion.t) (answers : list Z) :
  forall k acc,
    score_loop questions
      (combine (map Z.of_nat (seq k (List.length answers))) answers) acc
    = Return (acc + Z.of_nat (zip_count answers (skipn k questions))).
Proof.
  induction answers as [|a answers IH]; intros k acc.
  - cbn. f_equal. lia.
  - cbn [List.length seq map combine score_loop score_step].
    unfold len, getitem.
    destruct (Z.of_nat k <? Z.of_nat (List.length questions)) eqn:Hk.
    + apply Z.ltb_lt in Hk.
      assert (Hk0 : (Z.of_nat k <? 0) = false) by (apply Z.ltb_ge; lia).
      rewrite Hk0, Nat2Z.id.
      destruct (nth_error questions k) as [q|] eqn:Hq.
      * rewrite (skipn_nth_error_cons _ _ Hq).
        cbn [obind zip_count].
        destruct (a =? QuizQuestion.correct_answer q);
          cbn [obind]; rewrite IH; f_equal; lia.
      * apply nth_error_None in Hq. lia.
    + apply Z.ltb_ge in Hk.
      cbn [obind]. rewrite IH.
      rewrite !skipn_all2 by lia.
      now rewrite !zip_count_nil_r.
Qed.

Lemma score_loop_counts (questions : list QuizQuestion.t)
    (answers : list Z) :
  score_loop questions (enumerate answers) 0
  = Return (Z.of_nat (matching_positions answers questions)).
Proof.
  unfold enumerate.
  rewrite score_loop_from, matching_positions_zip.
  reflexivity.
Qed.

Lemma truediv_nonzero (a : float) (b : Z) :
  b <> 0 -> truediv a b = Return (PrimFloat.div a (float_of_int b)).
Proof.
  intros Hb. unfold truediv.
  destruct (b =? 0) eqn:E; [apply Z.eqb_eq in E; contradiction | reflexivity].
Qed.

(** What [submit_quiz] does once the quiz is found and has a question. *)
Lemma submit_quiz_found (db : Database) (submission : QuizSubmission.t)
    (current_user : UserResponse.t) (quiz : Quiz.t) :
  Mongo.find_one
    (fun q => String.eqb (Quiz.id q) (QuizSubmission.quiz_id submission))
    (quizzes db) = Some quiz ->
  Quiz.questions quiz <> [] ->
  let n := matching_positions (QuizSubmission.answers submission)
                              (Quiz.questions quiz) in
  let total := List.length (Quiz.questions quiz) in
  submit_quiz submission current_user db
  = (Return (mkSubmitResult (percent n total) (Z.of_nat n)
                            (Z.of_nat total) (percent n total)),
     set_quiz_submissions db
       (quiz_submissions db
        ++ [scored submission (UserResponse.id current_user)
                   (percent n total)])).
Proof.
  intros Hfind Hne n total.
  unfold submit_quiz, bind, query, lift, write, ret.
  rewrite Hfind, score_loop_counts.
  rewrite truediv_nonzero.
  - reflexivity.
  - unfold len. destruct (Quiz.questions quiz); [contradiction | cbn; lia].
Qed.

(** C1: for a stored quiz with at least one question, [submit_quiz]
    answers with the score (positions within both lists where the answer
    equals the question's [correct_answer]) / (number of questions) * 100,
    and stores the submission with that score; for a quiz whose correct
    answers are [1; 2], the answers [1; 2] score 100, [0; 0] score 0 and
    the short list [1] scores 50. *)
Theorem submit_quiz_score (db : Database) (submission : QuizSubmission.t)
    (current_user : UserResponse.t) (quiz : Quiz.t) :
  Mongo.find_one
    (fun q => String.eqb (Quiz.id q) (QuizSubmission.quiz_id submission))
    (quizzes db) = Some quiz ->
  Quiz.questions quiz <> [] ->
  let answers := QuizSubmission.answers submission in
  let n := matching_positions answers (Quiz.questions quiz) in
  let total := List.length (Quiz.questions quiz) in
  (exists db',
      submit_quiz submission current_user db
      = (Return (mkSubmitResult (percent n total) (Z.of_nat n)
                                (Z.of_nat total) (percent n total)), db')
      /\ quiz_submissions db'
         = quiz_submissions db
           ++ [scored submission (UserResponse.id current_user)
                      (percent n total)])
  /\ (map QuizQuestion.correct_answer (Quiz.questions quiz) = [1; 2] ->
      (answers = [1; 2] -> percent n total = 100%float)
      /\ (answers = [0; 0] -> percent n total = 0%float)
      /\ (answers = [1] -> percent n total = 50%float)).
Proof.
  intros Hfind Hne answers n total. split.
  - eexists. split.
    + apply (submit_quiz_found db submission current_user Hfind Hne).
    + reflexivity.
  - intros Hc. subst n total. rewrite matching_positions_zip.
    destruct (Quiz.questions quiz) as [|q1 [|q2 [|q3 qs]]];
      try discriminate Hc.
    cbn in Hc. injection Hc as H1 H2.
    repeat split; intros Ha; rewrite Ha;
      cbn [zip_count List.length]; rewrite ?H1, ?H2; reflexivity.
Qed.

Lemma submit_quiz_score_witness :
  Quiz.questions Sample.quiz_1 <> []
  /\ fst (submit_quiz (Sample.submission "quiz_1" [1]) Sample.student
                      Sample.db_quiz)
     = Return (mkSubmitResult 50%float 1 2 50%float).
Proof.
  split; [discriminate|].
  destruct (submit_quiz_score Sample.db_quiz
              (Sample.submission "quiz_1" [1]) Sample.student
              (quiz := Sample.quiz_1) eq_refl ltac:(discriminate))
    as [[db' [H _]] _].
  rewrite H. reflexivity.
Defined.

(** The three sample submissions, run against the generated quiz. *)
Example submit_quiz_sample_scores :
  option_map sr_score
    (returned (submit_quiz (Sample.submission "quiz_1" [1; 2])
                           Sample.student Sample.db_quiz))
  = Some 100%float
  /\ option_map sr_score
       (returned (submit_quiz (Sample.submission "quiz_1" [0; 0])
                              Sample.student Sample.db_quiz))
     = Some 0%float
  /\ option_map sr_score
       (returned (submit_quiz (Sample.submission "quiz_1" [1])
                              Sample.student Sample.db_quiz))
     = Some 50%float
  /\ option_map sr_score
       (returned (submit_quiz (Sample.submission "quiz_1" [1; 2; 3; 0])
                              Sample.student Sample.db_quiz))
     = Some 100%float.
Proof. repeat split. Qed.

(** C10: [submit_quiz] divides by the number of questions unguarded: a
    submission that references a stored quiz with no question ends in
    [ZeroDivisionError] (a 500) and nothing is stored; the division can
    only be relied on when every stored quiz has a question. *)
Theorem submit_quiz_zero_questions (db : Database)
    (submission : QuizSubmission.t) (current_user : UserResponse.t) :
  (forall quiz,
      Mongo.find_one
        (fun q => String.eqb (Quiz.id q)
                             (QuizSubmission.quiz_id submission))
        (quizzes db) = Some quiz ->
      (Quiz.questions quiz = [] <->
       submit_quiz submission current_user db
       = (Raise ZeroDivisionError, db))
      /\ (Quiz.questions quiz = [] ->
          http_status (fst (submit_quiz submission current_user db)) = 500))
  /\ ((forall q, In q (quizzes db) -> Quiz.questions q <> []) ->
      fst (submit_quiz submission current_user db)
      <> Raise ZeroDivisionError).
Proof.
  assert (Hempty : forall quiz,
    Mongo.find_one
      (fun q => String.eqb (Quiz.id q) (QuizSubmission.quiz_id submission))
      (quizzes db) = Some quiz ->
    Quiz.questions quiz = [] ->
    submit_quiz submission current_user db = (Raise ZeroDivisionError, db)).
  { intros quiz Hfind Hq.
    unfold submit_quiz, bind, query, lift.
    rewrite Hfind, score_loop_counts, Hq. reflexivity. }
  split.
  - intros quiz Hfind. split; [split|].
    + now apply Hempty.
    + intros Hsub. destruct (Quiz.questions quiz) as [|q qs] eqn:Hq;
        [reflexivity|].
      assert (Hne : Quiz.questions quiz <> []) by (rewrite Hq; discriminate).
      pose proof (submit_quiz_found db submission current_user Hfind Hne) as H.
      cbv zeta in H. rewrite H in Hsub. discriminate Hsub.
    + intros Hq. now rewrite (Hempty quiz Hfind Hq).
  - intros Hall.
    destruct (Mongo.find_one
      (fun q => String.eqb (Quiz.id q) (QuizSubmission.quiz_id submission))
      (quizzes db)) as [quiz|] eqn:Hfind.
    + assert (Hne : Quiz.questions quiz <> []).
      { apply Hall. apply (find_some _ _ Hfind). }
      pose proof (submit_quiz_found db submission current_user Hfind Hne) as H.
      cbv zeta in H. rewrite H. discriminate.
    + unfold submit_quiz, bind, query. rewrite Hfind. discriminate.
Qed.

(** The failing submission, evaluated. *)
Example submit_quiz_zero_questions_run :
  submit_quiz (Sample.submission "quiz_0" [0]) Sample.student
              Sample.db_quiz
  = (Raise ZeroDivisionError, Sample.db_quiz).
Proof. reflexivity. Qed.

(* ================================================================== *)
(** * Properties of the collection operations *)
(* ================================================================== *)

Lemma find_one_truthy {A} (f : A -> bool) (l : list A) :
  truthy_doc (Mongo.find_one f l) = existsb f l.
Proof.
  unfold Mongo.find_one.
  induction l as [|x l IH]; cbn; [reflexivity|].
  destruct (f x); [reflexivity | exact IH].
Qed.

Lemma find_one_app_none {A} (f : A -> bool) (l1 l2 : list A) :
  Mongo.find_one f l1 = None ->
  Mongo.find_one f (l1 ++ l2) = Mongo.find_one f l2.
Proof.
  unfold Mongo.find_one.
  induction l1 as [|x l1 IH]; cbn; [reflexivity|].
  destruct (f x); [discriminate | exact IH].
Qed.

(** [update_one] rewrites exactly the document [find_one] returns. *)
Lemma update_one_split {A} (q : A -> bool) (f : A -> A) (l : list A) :
  forall d, Mongo.find_one q l = Some d ->
    exists l1 l2,
      l = l1 ++ d :: l2
      /\ (forall x, In x l1 -> q x = false)
      /\ Mongo.update_one q f l = l1 ++ f d :: l2.
Proof.
  unfold Mongo.find_one.
  induction l as [|x l IH]; intros d H; cbn in *; [discriminate|].
  destruct (q x) eqn:Hq.
  - inversion H; subst. exists [], l. repeat split. intros y [].
  - destruct (IH d H) as (l1 & l2 & -> & Hl1 & Hup).
    exists (x :: l1), l2. repeat split.
    + intros y [<-|Hy]; [exact Hq | now apply Hl1].
    + cbn. now rewrite Hup.
Qed.

Lemma update_one_none {A} (q : A -> bool) (f : A -> A) (l : list A) :
  Mongo.find_one q l = None -> Mongo.update_one q f l = l.
Proof.
  unfold Mongo.find_one.
  induction l as [|x l IH]; cbn; [reflexivity|].
  destruct (q x); [discriminate|]. intros H. now rewrite IH.
Qed.

(** When the update keeps a document matching, [find_one] afterwards
    returns the updated document. *)
Lemma find_one_update_one {A} (q : A -> bool) (f : A -> A) (l : list A) :
  (forall x, q x = true -> q (f x) = true) ->
  Mongo.find_one q (Mongo.update_one q f l)
  = option_map f (Mongo.find_one q l).
Proof.
  intros Hf. unfold Mongo.find_one.
  induction l as [|x l IH]; cbn; [reflexivity|].
  destruct (q x) eqn:Hq; cbn.
  - now rewrite (Hf x Hq).
  - now rewrite Hq.
Qed.

(* ================================================================== *)
(** * Registration *)
(* ================================================================== *)

(** C2: [register] answers 400 exactly when a stored user has the
    request's email, and then changes nothing; otherwise it appends one
    user document, whose [hashed_password] is the hash of the password,
    appends a teacher profile with no subjects and the new user's id as
    [user_id] exactly when the role is "teacher", and returns a token for
    the new id with the public view of the user. *)
Theorem register_spec (get_password_hash : string -> string)
    (db : Database) (user_data : UserCreate.t)
    (uuid_user uuid_teacher : string)
    (utcnow_user utcnow_token : datetime) :
  let taken :=
    exists u, In u (users db)
              /\ UserDoc.email u = UserCreate.email user_data in
  let r := register get_password_hash user_data uuid_user uuid_teacher
                    utcnow_user utcnow_token db in
  let email := UserCreate.email user_data in
  let full_name := UserCreate.full_name user_data in
  let role := UserCreate.role user_data in
  (http_status (fst r) = 400 <-> taken)
  /\ (taken ->
      r = (Raise (HTTPException 400 "Email already registered"), db))
  /\ (~ taken ->
      fst r
      = Return
          (Token.mk
             (jwt.encode
                (jwt.mk (Some uuid_user)
                        (Some (utcnow_token + minutes_15)))
                SECRET_KEY)
             "bearer"
             (UserResponse.mk uuid_user email full_name role None None))
      /\ users (snd r)
         = users db
           ++ [UserDoc.mk uuid_user email full_name role utcnow_user
                 None None
                 (get_password_hash (UserCreate.password user_data))]
      /\ teachers (snd r)
         = (if String.eqb role "teacher"
            then teachers db
                 ++ [Teacher.mk uuid_teacher uuid_user full_name email
                                [] 0 4.5%float 0 None None None]
            else teachers db)
      /\ courses (snd r) = courses db
      /\ progress (snd r) = progress db
      /\ quizzes (snd r) = quizzes db
      /\ quiz_submissions (snd r) = quiz_submissions db
      /\ community_posts (snd r) = community_posts db).
Proof.
  intros taken r email full_name role.
  assert (Htaken : taken <->
    existsb (fun u => String.eqb (UserDoc.email u)
                                 (UserCreate.email user_data))
            (users db) = true).
  { unfold taken. rewrite existsb_exists.
    split; intros (u & Hin & He); exists u; split; trivial;
      now apply String.eqb_eq. }
  subst r. unfold register, bind, query, raise.
  rewrite find_one_truthy.
  destruct (existsb _ (users db)) eqn:Hex.
  - split; [|split].
    + cbn. rewrite Htaken. tauto.
    + reflexivity.
    + intros Hn. exfalso. apply Hn, Htaken. reflexivity.
  - assert (Hnt : ~ taken) by (rewrite Htaken; discriminate).
    unfold write, ret.
    fold role. destruct (String.eqb role "teacher") eqn:Hrole; cbn.
    + split; [split; [discriminate | contradiction]|].
      split; [contradiction|]. intros _. repeat split.
    + split; [split; [discriminate | contradiction]|].
      split; [contradiction|]. intros _. repeat split.
Qed.

(** A registration with an email no stored user has goes through and
    leaves a user with that email stored. *)
Lemma register_fresh (h : string -> string) (db : Database)
    (d : UserCreate.t) (u t : string) (now now' : datetime) :
  existsb (fun x => String.eqb (UserDoc.email x) (UserCreate.email d))
          (users db) = false ->
  let r := register h d u t now now' db in
  http_status (fst r) = 200
  /\ existsb (fun x => String.eqb (UserDoc.email x) (UserCreate.email d))
             (users (snd r)) = true.
Proof.
  intros Hex r. subst r. unfold register, bind, query, write, ret.
  rewrite find_one_truthy, Hex.
  destruct (String.eqb (UserCreate.role d) "teacher"); cbn;
    (split; [reflexivity|]);
    unfold Mongo.insert_one; rewrite existsb_app; cbn;
    rewrite String.eqb_refl; now rewrite orb_true_r.
Qed.

Lemma register_taken (h : string -> string) (db : Database)
    (d : UserCreate.t) (u t : string) (now now' : datetime) :
  existsb (fun x => String.eqb (UserDoc.email x) (UserCreate.email d))
          (users db) = true ->
  register h d u t now now' db
  = (Raise (HTTPException 400 "Email already registered"), db).
Proof.
  intros Hex. unfold register, bind, query, raise.
  now rewrite find_one_truthy, Hex.
Qed.

(** A second registration with the email of a registration that just
    succeeded is refused and leaves the store as the first one left it. *)
Lemma register_twice_conflict (h1 h2 : string -> string) (db : Database)
    (d1 d2 : UserCreate.t) (u1 t1 u2 t2 : string)
    (now1 now1' now2 now2' : datetime) :
  UserCreate.email d2 = UserCreate.email d1 ->
  let r1 := register h1 d1 u1 t1 now1 now1' db in
  http_status (fst r1) = 200 ->
  register h2 d2 u2 t2 now2 now2' (snd r1)
  = (Raise (HTTPException 400 "Email already registered"), snd r1).
Proof.
  intros He r1 Hok.
  apply register_taken. rewrite He.
  destruct (existsb
              (fun x => String.eqb (UserDoc.email x) (UserCreate.email d1))
              (users db)) eqn:Hex.
  - subst r1.
    rewrite (register_taken h1 db d1 u1 t1 now1 now1' Hex) in Hok.
    discriminate Hok.
  - apply (register_fresh h1 db d1 u1 t1 now1 now1' Hex).
Qed.

Example register_student_run :
  let r := register AuthSample.sample_hash AuthSample.emma_data
                    "u_1" "t_1" 0 1 Sample.empty_db in
  http_status (fst r) = 200
  /\ List.length (users (snd r)) = 1%nat
  /\ teachers (snd r) = [].
Proof. cbn. repeat split. Qed.

Example register_teacher_run :
  let r := register AuthSample.sample_hash AuthSample.john_data
                    "u_2" "t_2" 0 1 Sample.empty_db in
  http_status (fst r) = 200
  /\ map Teacher.user_id (teachers (snd r)) = ["u_2"]
  /\ map Teacher.subjects (teachers (snd r)) = [[]].
Proof. cbn. repeat split. Qed.

Example register_duplicate_run :
  register AuthSample.sample_hash AuthSample.emma_data "u_3" "t_3" 7 8
           AuthSample.db_users
  = (Raise (HTTPException 400 "Email already registered"),
     AuthSample.db_users).
Proof. reflexivity. Qed.

(* ================================================================== *)
(** * Resolution of the current user *)
(* ================================================================== *)

(** The [jwt] package has no attribute of the name the [except] clause of
    [get_current_user] looks up. *)
Lemma jwt_has_no_PyJSONError :
  jwt.getattr "PyJSONError" = Raise (AttributeError "jwt" "PyJSONError").
Proof. reflexivity. Qed.

(** C3, as the code behaves: a token that decodes, carries a subject and
    whose subject is a stored user resolves to that user; in each of the
    rejecting cases (the token does not decode or is expired, it carries
    no subject, the subject is no stored user) the exception raised in
    the [try] body meets an [except] clause whose class lookup fails, so
    what leaves [get_current_user], and every route that depends on it,
    is an [AttributeError], a 500 and never a 401. *)
Theorem get_current_user_outcomes (db : Database) (credentials : jwt.token)
    (utcnow : datetime) :
  let unhandled := Raise (AttributeError "jwt" "PyJSONError") in
  let lookup := fun user_id =>
    Mongo.find_one (fun u => String.eqb (UserDoc.id u) user_id) (users db) in
  (forall e, jwt.decode credentials SECRET_KEY utcnow = Raise e ->
     get_current_user credentials utcnow db = (unhandled, db))
  /\ (forall p, jwt.decode credentials SECRET_KEY utcnow = Return p ->
        jwt.sub p = None ->
        get_current_user credentials utcnow db = (unhandled, db))
  /\ (forall p user_id,
        jwt.decode credentials SECRET_KEY utcnow = Return p ->
        jwt.sub p = Some user_id -> lookup user_id = None ->
        get_current_user credentials utcnow db = (unhandled, db))
  /\ (forall p user_id d,
        jwt.decode credentials SECRET_KEY utcnow = Return p ->
        jwt.sub p = Some user_id -> lookup user_id = Some d ->
        get_current_user credentials utcnow db
        = (Return (UserResponse_of_doc d), db))
  /\ http_status (fst (get_current_user credentials utcnow db)) <> 401
  /\ (forall (A : Type) (route : UserResponse.t -> handler A),
        http_status (fst (get_current_user credentials utcnow db)) <> 200 ->
        authenticated route credentials utcnow db
        = (Raise (AttributeError "jwt" "PyJSONError"), db)).
Proof.
  intros unhandled lookup. subst unhandled lookup.
  unfold authenticated, get_current_user, try_except, bind, lift, query,
    raise, ret.
  rewrite jwt_has_no_PyJSONError.
  destruct (jwt.decode credentials SECRET_KEY utcnow) as [p|e] eqn:Hd;
    [destruct (jwt.sub p) as [user_id|] eqn:Hs;
     [destruct (Mongo.find_one
                  (fun u => String.eqb (UserDoc.id u) user_id) (users db))
        as [d|] eqn:Hu|]|];
    (split; [|split; [|split; [|split; [|split]]]]);
    try (intros; congruence);
    try (cbn; intros; discriminate).
  - intros p' uid Hp Hsub Hl.
    assert (uid = user_id) by congruence. subst uid. congruence.
  - intros p' uid d' Hp Hsub Hl.
    assert (uid = user_id) by congruence. subst uid. congruence.
  - intros A route Hne. cbn in Hne. contradiction.
  - intros p' uid d' Hp Hsub Hl.
    assert (uid = user_id) by congruence. subst uid. congruence.
Qed.

(** An expired token presented to [GET /auth/me]: the answer is a 500. *)
Example expired_token_run :
  jwt.decode AuthSample.expired_token SECRET_KEY 5000000
  = Raise (JWTException "ExpiredSignatureError")
  /\ authenticated (fun current_user => ret current_user)
       AuthSample.expired_token 5000000 AuthSample.db_users
     = (Raise (AttributeError "jwt" "PyJSONError"), AuthSample.db_users)
  /\ http_status
       (fst (get_current_user AuthSample.expired_token 5000000
                              AuthSample.db_users)) = 500.
Proof. repeat split. Qed.

Example garbage_token_run :
  http_status
    (fst (get_current_user AuthSample.garbage_token 5000000
                           AuthSample.db_users)) = 500.
Proof. reflexivity. Qed.

Example fresh_token_run :
  get_current_user AuthSample.fresh_token 5000000 AuthSample.db_users
  = (Return Sample.student, AuthSample.db_users).
Proof. reflexivity. Qed.

(* ================================================================== *)
(** * Lazy creation of quizzes *)
(* ================================================================== *)

Lemma get_course_quiz_stored (db : Database) (course_id : string)
    (uuid_quiz uuid_q1 uuid_q2 : string) (utcnow : datetime)
    (doc : Quiz.t) :
  Mongo.find_one (fun q => String.eqb (Quiz.course_id q) course_id)
                 (quizzes db) = Some doc ->
  get_course_quiz course_id uuid_quiz uuid_q1 uuid_q2 utcnow db
  = (Return doc, db).
Proof.
  intros H. unfold get_course_quiz, bind, query, ret, lift.
  now rewrite H.
Qed.

(** C8, as the code behaves: for a course without a stored quiz the
    first call generates the quiz and stores it, and then fails with a
    [TypeError] (a 500) while building the response from the model; any
    later call finds the stored quiz, returns it and inserts nothing. *)
Theorem get_course_quiz_first_call (db : Database) (course_id : string)
    (uuid_quiz uuid_q1 uuid_q2 : string) (utcnow : datetime) :
  Mongo.find_one (fun q => String.eqb (Quiz.course_id q) course_id)
                 (quizzes db) = None ->
  let quiz :=
    Quiz.mk uuid_quiz course_id "Course Assessment"
      (generate_quiz_questions course_id "General" uuid_q1 uuid_q2)
      utcnow in
  let db1 := set_quizzes db (quizzes db ++ [quiz]) in
  get_course_quiz course_id uuid_quiz uuid_q1 uuid_q2 utcnow db
  = (Raise (TypeError "argument after ** must be a mapping, not Quiz"),
     db1)
  /\ http_status
       (fst (get_course_quiz course_id uuid_quiz uuid_q1 uuid_q2 utcnow db))
     = 500
  /\ (forall uuid_quiz' uuid_q1' uuid_q2' utcnow',
        get_course_quiz course_id uuid_quiz' uuid_q1' uuid_q2' utcnow' db1
        = (Return quiz, db1)).
Proof.
  intros Hnone quiz db1.
  assert (H1 : get_course_quiz course_id uuid_quiz uuid_q1 uuid_q2 utcnow db
               = (Raise (TypeError
                    "argument after ** must be a mapping, not Quiz"), db1)).
  { unfold get_course_quiz, bind, query, write, ret, lift.
    rewrite Hnone. reflexivity. }
  split; [exact H1|]. split; [now rewrite H1|].
  intros u' q1' q2' now'.
  apply get_course_quiz_stored.
  subst db1. cbn [quizzes set_quizzes].
  rewrite find_one_app_none by exact Hnone.
  cbn. now rewrite String.eqb_refl.
Qed.

Lemma get_course_quiz_first_call_witness :
  Mongo.find_one (fun q => String.eqb (Quiz.course_id q) "course_1")
                 (quizzes Sample.empty_db) = None
  /\ fst (get_course_quiz "course_1" "quiz_1" "q_1" "q_2" 0
                          Sample.empty_db)
     = Raise (TypeError "argument after ** must be a mapping, not Quiz")
  /\ quizzes (snd (get_course_quiz "course_1" "quiz_1" "q_1" "q_2" 0
                                   Sample.empty_db))
     = [Sample.quiz_1].
Proof.
  split; [reflexivity|].
  destruct (get_course_quiz_first_call Sample.empty_db "course_1"
              "quiz_1" "q_1" "q_2" 0 eq_refl) as [H _].
  rewrite H. split; reflexivity.
Defined.

(* ================================================================== *)
(** * Enrollment *)
(* ================================================================== *)

Lemma addToSet_holds (v : string) (arr : list string) :
  existsb (String.eqb v) (Mongo.addToSet v arr) = true.
Proof.
  unfold Mongo.addToSet.
  destruct (existsb (String.eqb v) arr) eqn:E; [exact E|].
  rewrite existsb_app. cbn. rewrite String.eqb_refl.
  now rewrite orb_true_r.
Qed.

Lemma addToSet_idempotent (v : string) (arr : list string) :
  Mongo.addToSet v (Mongo.addToSet v arr) = Mongo.addToSet v arr.
Proof.
  unfold Mongo.addToSet at 1. now rewrite addToSet_holds.
Qed.

Lemma existsb_eqb_In (v : string) (arr : list string) :
  existsb (String.eqb v) arr = true <-> In v arr.
Proof.
  rewrite existsb_exists. split.
  - intros (x & Hin & He). apply String.eqb_eq in He. now subst.
  - intros Hin. exists v. split; [exact Hin | apply String.eqb_refl].
Qed.

Lemma addToSet_NoDup (v : string) (arr : list string) :
  NoDup arr -> NoDup (Mongo.addToSet v arr).
Proof.
  intros Hnd. unfold Mongo.addToSet.
  destruct (existsb (String.eqb v) arr) eqn:E; [exact Hnd|].
  apply NoDup_app; [exact Hnd | repeat constructor; intros [] |].
  intros x Hx [<-|[]].
  apply existsb_eqb_In in Hx. congruence.
Qed.

Lemma addToSet_incl_old (v : string) (arr : list string) :
  incl arr (Mongo.addToSet v arr).
Proof.
  unfold Mongo.addToSet. destruct (existsb (String.eqb v) arr).
  - apply incl_refl.
  - apply incl_appl, incl_refl.
Qed.

Lemma addToSet_once (v : string) (arr : list string) :
  NoDup arr -> count_occ string_dec (Mongo.addToSet v arr) v = 1%nat.
Proof.
  intros Hnd.
  apply (proj1 (NoDup_count_occ' string_dec _) (addToSet_NoDup v Hnd)).
  apply existsb_eqb_In, addToSet_holds.
Qed.

(** What one enrollment of a student does when the course exists. *)
Lemma enroll_in_course_found (db : Database) (course_id uuid : string)
    (utcnow : datetime) (current_user : UserResponse.t)
    (course : Course.t) :
  UserResponse.role current_user = "student" ->
  Mongo.find_one (fun c => String.eqb (Course.id c) course_id)
                 (courses db) = Some course ->
  let uid := UserResponse.id current_user in
  let course' :=
    Course.set_enrolled_students course
      (Mongo.addToSet uid (Course.enrolled_students course)) in
  let r := enroll_in_course course_id uuid utcnow current_user db in
  fst r = Return "Successfully enrolled in course"
  /\ Mongo.find_one (fun c => String.eqb (Course.id c) course_id)
                    (courses (snd r)) = Some course'
  /\ courses (snd r)
     = Mongo.update_one
         (fun c => String.eqb (Course.id c) course_id)
         (fun c => Course.set_enrolled_students c
                     (Mongo.addToSet uid (Course.enrolled_students c)))
         (courses db)
  /\ progress (snd r)
     = progress db
       ++ [Progress.mk uuid uid course_id (Course.title course) 0%float
                       utcnow 0%float []].
Proof.
  intros Hrole Hfind uid course' r. subst uid course'.
  assert (Hf : Mongo.find_one (fun c => String.eqb (Course.id c) course_id)
        (Mongo.update_one
           (fun c => String.eqb (Course.id c) course_id)
           (fun c => Course.set_enrolled_students c
                       (Mongo.addToSet (UserResponse.id current_user)
                                       (Course.enrolled_students c)))
           (courses db))
      = Some (Course.set_enrolled_students course
                (Mongo.addToSet (UserResponse.id current_user)
                                (Course.enrolled_students course)))).
  { rewrite find_one_update_one; [now rewrite Hfind|].
    intros x Hx. destruct x; exact Hx. }
  subst r. unfold enroll_in_course, bind, query, write, ret, raise.
  rewrite Hrole.
  change (negb ("student" =? "student")%string) with false.
  cbv beta iota. cbn [courses set_courses]. rewrite Hf.
  cbn. repeat split. exact Hf.
Qed.

Lemma update_one_fixed {A} (q : A -> bool) (f : A -> A) (l : list A)
    (d : A) :
  Mongo.find_one q l = Some d -> f d = d -> Mongo.update_one q f l = l.
Proof.
  intros Hfind Hfix.
  destruct (update_one_split q f l Hfind) as (l1 & l2 & Hl & _ & Hup).
  now rewrite Hup, Hfix.
Qed.

Lemma enroll_in_course_absent (db : Database) (course_id uuid : string)
    (utcnow : datetime) (current_user : UserResponse.t) :
  UserResponse.role current_user = "student" ->
  Mongo.find_one (fun c => String.eqb (Course.id c) course_id)
                 (courses db) = None ->
  enroll_in_course course_id uuid utcnow current_user db
  = (Return "Successfully enrolled in course", db).
Proof.
  intros Hrole Hnone.
  unfold enroll_in_course, bind, query, write, ret, raise.
  rewrite Hrole.
  change (negb ("student" =? "student")%string) with false.
  cbv beta iota. cbn [courses set_courses].
  rewrite (update_one_none _ _ _ Hnone), Hnone.
  destruct db; reflexivity.
Qed.

Lemma count_occ_added (uid : string) (old : list string) :
  count_occ string_dec
    (if existsb (String.eqb uid) old then old else old ++ [uid]) uid
  = Nat.max 1 (count_occ string_dec old uid).
Proof.
  destruct (existsb (String.eqb uid) old) eqn:E.
  - apply existsb_eqb_In in E.
    apply (count_occ_In string_dec) in E. lia.
  - assert (Hn : ~ In uid old).
    { intros Hin. apply existsb_eqb_In in Hin. congruence. }
    apply (count_occ_not_In string_dec) in Hn.
    rewrite count_occ_app, Hn. cbn.
    destruct (string_dec uid uid); [reflexivity | contradiction].
Qed.

(** C4: [enroll_in_course] answers 403 unless the role is "student".
    For a student and an existing course, an enrollment rewrites that
    course alone: its [enrolled_students] become the old list, with the
    student's id appended when the list did not hold it, every other
    field and every other course staying as they were.  A second
    enrollment leaves the courses as the first left them, so after two
    the id occurs as often as before, and once when it was absent: with
    a list free of repetition, as the routes keep it, exactly once.
    Each of the two calls appends one progress record for that student
    and course.  When no course has the id, nothing is written. *)
Theorem enroll_in_course_spec (db : Database) (course_id : string)
    (uuid1 uuid2 : string) (now1 now2 : datetime)
    (current_user : UserResponse.t) :
  let uid := UserResponse.id current_user in
  let by_id := fun c => String.eqb (Course.id c) course_id in
  (UserResponse.role current_user <> "student" ->
   enroll_in_course course_id uuid1 now1 current_user db
   = (Raise (HTTPException 403 "Only students can enroll in courses"), db))
  /\ (UserResponse.role current_user = "student" ->
      (forall course,
          Mongo.find_one by_id (courses db) = Some course ->
          let old := Course.enrolled_students course in
          let members :=
            if existsb (String.eqb uid) old then old else old ++ [uid] in
          let r1 := enroll_in_course course_id uuid1 now1 current_user db in
          let r2 := enroll_in_course course_id uuid2 now2 current_user
                                     (snd r1) in
          let p1 := Progress.mk uuid1 uid course_id (Course.title course)
                                0%float now1 0%float [] in
          let p2 := Progress.mk uuid2 uid course_id (Course.title course)
                                0%float now2 0%float [] in
          fst r1 = Return "Successfully enrolled in course"
          /\ fst r2 = Return "Successfully enrolled in course"
          /\ (exists before after course1,
                 courses db = before ++ course :: after
                 /\ (forall c, In c before -> Course.id c <> course_id)
                 /\ courses (snd r1) = before ++ course1 :: after
                 /\ courses (snd r2) = before ++ course1 :: after
                 /\ Mongo.find_one by_id (courses (snd r2)) = Some course1
                 /\ Course.enrolled_students course1 = members
                 /\ Course.id course1 = Course.id course
                 /\ Course.title course1 = Course.title course
                 /\ Course.teacher_id course1 = Course.teacher_id course
                 /\ Course.subject course1 = Course.subject course)
          /\ incl old members
          /\ In uid members
          /\ count_occ string_dec members uid
             = Nat.max 1 (count_occ string_dec old uid)
          /\ (NoDup old ->
              NoDup members /\ count_occ string_dec members uid = 1%nat)
          /\ progress (snd r1) = progress db ++ [p1]
          /\ progress (snd r2) = progress db ++ [p1; p2])
      /\ (Mongo.find_one by_id (courses db) = None ->
          enroll_in_course course_id uuid1 now1 current_user db
          = (Return "Successfully enrolled in course", db))).
Proof.
  intros uid by_id. split; [|intros Hrole; split].
  - intros Hrole. unfold enroll_in_course, raise.
    destruct (String.eqb (UserResponse.role current_user) "student") eqn:E;
      [apply String.eqb_eq in E; contradiction | reflexivity].
  - intros course Hfind old members r1 r2 p1 p2.
    destruct (enroll_in_course_found db course_id uuid1 now1 current_user
                Hrole Hfind) as (Hr1 & Hf1 & Hc1 & Hp1).
    fold r1 in Hr1, Hf1, Hc1, Hp1.
    destruct (enroll_in_course_found (snd r1) course_id uuid2 now2
                current_user Hrole Hf1) as (Hr2 & Hf2 & Hc2 & Hp2).
    fold r2 in Hr2, Hf2, Hc2, Hp2. fold uid in Hf1, Hf2, Hc1, Hc2, Hp1, Hp2.
    assert (Hmembers : Mongo.addToSet uid old = members) by reflexivity.
    assert (Hsame :
      Course.set_enrolled_students
        (Course.set_enrolled_students course
           (Mongo.addToSet uid (Course.enrolled_students course)))
        (Mongo.addToSet uid
           (Course.enrolled_students
              (Course.set_enrolled_students course
                 (Mongo.addToSet uid (Course.enrolled_students course)))))
      = Course.set_enrolled_students course
          (Mongo.addToSet uid (Course.enrolled_students course))).
    { destruct course; cbn. now rewrite addToSet_idempotent. }
    assert (H21 : courses (snd r2) = courses (snd r1)).
    { rewrite Hc2. apply (update_one_fixed _ _ _ Hf1). exact Hsame. }
    destruct (update_one_split by_id
                (fun c => Course.set_enrolled_students c
                            (Mongo.addToSet uid (Course.enrolled_students c)))
                (courses db) Hfind) as (l1 & l2 & Hl & Hl1 & Hup).
    split; [exact Hr1|]. split; [exact Hr2|]. split.
    { exists l1, l2,
        (Course.set_enrolled_students course (Mongo.addToSet uid old)).
      split; [exact Hl|]. split.
      { intros c Hc Heq. specialize (Hl1 c Hc). subst by_id. cbn in Hl1.
        rewrite Heq, String.eqb_refl in Hl1. discriminate. }
      split; [rewrite Hc1; exact Hup|].
      split; [rewrite H21, Hc1; exact Hup|].
      split; [unfold by_id; rewrite Hf2, Hsame; reflexivity|].
      destruct course; cbn. repeat split. }
    split; [rewrite <- Hmembers; apply addToSet_incl_old|].
    split; [rewrite <- Hmembers; apply existsb_eqb_In, addToSet_holds|].
    split; [apply count_occ_added|].
    split.
    { intros Hnd. rewrite <- Hmembers.
      split; [now apply addToSet_NoDup | now apply addToSet_once]. }
    split; [exact Hp1|].
    rewrite Hp2, Hp1, <- app_assoc.
    destruct course; reflexivity.
  - intros Hnone. now apply enroll_in_course_absent.
Qed.

(** [enroll_in_course] keeps every enrollment list free of repetition. *)
Lemma enroll_in_course_NoDup (db : Database) (course_id uuid : string)
    (utcnow : datetime) (current_user : UserResponse.t) :
  (forall c, In c (courses db) -> NoDup (Course.enrolled_students c)) ->
  forall c,
    In c (courses (snd (enroll_in_course course_id uuid utcnow
                                         current_user db))) ->
    NoDup (Course.enrolled_students c).
Proof.
  intros Hall c.
  destruct (String.eqb (UserResponse.role current_user) "student") eqn:Hrole.
  - apply String.eqb_eq in Hrole.
    destruct (Mongo.find_one (fun c => String.eqb (Course.id c) course_id)
                             (courses db)) as [course|] eqn:Hfind.
    + destruct (enroll_in_course_found db course_id uuid utcnow current_user
                  Hrole Hfind) as (_ & _ & Hc & _).
      rewrite Hc.
      destruct (update_one_split _
        (fun c => Course.set_enrolled_students c
           (Mongo.addToSet (UserResponse.id current_user)
                           (Course.enrolled_students c)))
        _ Hfind) as (l1 & l2 & Hl & _ & Hup).
      rewrite Hup. intros Hin.
      assert (Hold : forall x, In x (l1 ++ course :: l2) ->
                NoDup (Course.enrolled_students x))
        by (rewrite <- Hl; exact Hall).
      apply in_app_or in Hin. destruct Hin as [Hin|[<-|Hin]].
      * apply Hold, in_or_app. now left.
      * destruct course; cbn. apply addToSet_NoDup.
        apply (Hold (Course.mk id title description teacher_id teacher_name
                       subject difficulty_level duration_hours created_at
                       image enrolled_students rating total_lessons)).
        apply in_or_app. right. now left.
      * apply Hold, in_or_app. right. now right.
    + rewrite (enroll_in_course_absent db course_id uuid utcnow current_user
                 Hrole Hfind).
      apply Hall.
  - unfold enroll_in_course, raise. rewrite Hrole. apply Hall.
Qed.

(** [create_course] starts every course with an empty enrollment list. *)
Lemma create_course_NoDup (db : Database) (course_data : CourseCreate.t)
    (uuid : string) (utcnow : datetime) (current_user : UserResponse.t) :
  (forall c, In c (courses db) -> NoDup (Course.enrolled_students c)) ->
  forall c,
    In c (courses (snd (create_course course_data uuid utcnow
                                      current_user db))) ->
    NoDup (Course.enrolled_students c).
Proof.
  intros Hall c. unfold create_course, raise, bind, write, ret.
  destruct (negb (String.eqb (UserResponse.role current_user) "teacher"));
    cbn; [apply Hall|].
  unfold Mongo.insert_one. intros Hin.
  apply in_app_or in Hin. destruct Hin as [Hin|[<-|[]]];
    [now apply Hall | constructor].
Qed.

Example enroll_twice_run :
  let r1 := enroll_in_course "course_2" "p_1" 10 CourseSample.student_3
                             CourseSample.db_seeded in
  let r2 := enroll_in_course "course_2" "p_2" 20 CourseSample.student_3
                             (snd r1) in
  map Course.enrolled_students (courses (snd r2))
  = [["student_1"; "student_2"]; ["student_1"; "student_3"]; ["student_2"]]
  /\ map Progress.id (progress (snd r2)) = ["p_1"; "p_2"]
  /\ map Progress.student_id (progress (snd r2))
     = ["student_3"; "student_3"]
  /\ map Progress.course_id (progress (snd r2)) = ["course_2"; "course_2"].
Proof. cbn. repeat split. Qed.

Example enroll_unknown_course_run :
  enroll_in_course "course_9" "p_1" 10 CourseSample.student_3
                   CourseSample.db_seeded
  = (Return "Successfully enrolled in course", CourseSample.db_seeded).
Proof. reflexivity. Qed.

Example enroll_teacher_run :
  enroll_in_course "course_2" "p_1" 10 Sample.teacher
                   CourseSample.db_seeded
  = (Raise (HTTPException 403 "Only students can enroll in courses"),
     CourseSample.db_seeded).
Proof. reflexivity. Qed.

(* ================================================================== *)
(** * Teacher profile *)
(* ================================================================== *)

(** C6 as the specification states it fails: a request that leaves
    out [bio] and [hourly_rate] erases the stored values. *)
Lemma update_teacher_profile_erases_omitted :
  TeacherCreate.bio TeacherSample.subjects_only = None
  /\ TeacherCreate.hourly_rate TeacherSample.subjects_only = None
  /\ map Teacher.bio (teachers TeacherSample.db_teachers)
     = [Some "Experienced full-stack developer and educator"]
  /\ map Teacher.hourly_rate (teachers TeacherSample.db_teachers)
     = [Some 75%float]
  /\ fst (update_teacher_profile TeacherSample.subjects_only
            Sample.teacher TeacherSample.db_teachers)
     = Return "Profile updated successfully"
  /\ map Teacher.bio
       (teachers (snd (update_teacher_profile TeacherSample.subjects_only
                         Sample.teacher TeacherSample.db_teachers)))
     = [None]
  /\ map Teacher.hourly_rate
       (teachers (snd (update_teacher_profile TeacherSample.subjects_only
                         Sample.teacher TeacherSample.db_teachers)))
     = [None].
Proof. cbn. repeat split. Qed.

(** C6, amended: [update_teacher_profile] answers 403 and writes nothing
    unless the role is "teacher".  For a teacher it rewrites the first
    profile whose [user_id] is the caller's id: [subjects],
    [experience_years], [bio] and [hourly_rate] take the values of the
    request (an absent [bio] or [hourly_rate] is stored as [None]), every
    other field of that profile, every other profile and every other
    collection stay as they were; without such a profile nothing
    changes. *)
Theorem update_teacher_profile_spec (db : Database)
    (profile_data : TeacherCreate.t) (current_user : UserResponse.t) :
  let mine := fun t =>
    String.eqb (Teacher.user_id t) (UserResponse.id current_user) in
  let r := update_teacher_profile profile_data current_user db in
  (UserResponse.role current_user <> "teacher" ->
   r = (Raise (HTTPException 403 "Only teachers can update profile"), db))
  /\ (UserResponse.role current_user = "teacher" ->
      fst r = Return "Profile updated successfully"
      /\ users (snd r) = users db
      /\ courses (snd r) = courses db
      /\ progress (snd r) = progress db
      /\ quizzes (snd r) = quizzes db
      /\ quiz_submissions (snd r) = quiz_submissions db
      /\ community_posts (snd r) = community_posts db
      /\ (Mongo.find_one mine (teachers db) = None ->
          teachers (snd r) = teachers db)
      /\ (forall t, Mongo.find_one mine (teachers db) = Some t ->
          exists before after t',
            teachers db = before ++ t :: after
            /\ teachers (snd r) = before ++ t' :: after
            /\ (forall x, In x before -> mine x = false)
            /\ Teacher.subjects t' = TeacherCreate.subjects profile_data
            /\ Teacher.experience_years t'
               = TeacherCreate.experience_years profile_data
            /\ Teacher.bio t' = TeacherCreate.bio profile_data
            /\ Teacher.hourly_rate t'
               = TeacherCreate.hourly_rate profile_data
            /\ Teacher.id t' = Teacher.id t
            /\ Teacher.user_id t' = Teacher.user_id t
            /\ Teacher.full_name t' = Teacher.full_name t
            /\ Teacher.email t' = Teacher.email t
            /\ Teacher.rating t' = Teacher.rating t
            /\ Teacher.total_students t' = Teacher.total_students t
            /\ Teacher.profile_image t' = Teacher.profile_image t)).
Proof.
  intros mine r. subst r.
  unfold update_teacher_profile, bind, write, ret, raise.
  destruct (String.eqb (UserResponse.role current_user) "teacher") eqn:E.
  - apply String.eqb_eq in E. split; [intros Hne; contradiction|].
    intros _. cbn. repeat split.
    + intros Hnone. now apply update_one_none.
    + intros t Hfind.
      destruct (update_one_split mine (set_profile profile_data) _ Hfind)
        as (l1 & l2 & Hl & Hl1 & Hup).
      exists l1, l2, (set_profile profile_data t).
      repeat split; trivial.
  - split; [reflexivity|].
    intros Heq. rewrite Heq in E. discriminate E.
Qed.

(* ================================================================== *)
(** * Sorting and paging *)
(* ================================================================== *)

Section SortDesc.

Context {A : Type}.
Variable key : A -> Z.

Lemma insert_desc_perm (x : A) (l : list A) :
  Permutation (x :: l) (Mongo.insert_desc key x l).
Proof.
  induction l as [|y l IH]; cbn; [reflexivity|].
  destruct (key y <? key x); [reflexivity|].
  rewrite perm_swap. now constructor.
Qed.

Lemma insert_desc_sorted (x : A) (l : list A) :
  StronglySorted (desc key) l ->
  StronglySorted (desc key) (Mongo.insert_desc key x l).
Proof.
  induction 1 as [|y l Hs IH Hy]; cbn.
  - repeat constructor.
  - destruct (key y <? key x) eqn:E.
    + apply Z.ltb_lt in E.
      constructor; [now constructor|].
      constructor; [unfold desc; lia|].
      eapply Forall_impl; [|exact Hy].
      unfold desc. intros z Hz. lia.
    + apply Z.ltb_ge in E.
      constructor; [exact IH|].
      eapply Permutation_Forall; [apply insert_desc_perm|].
      constructor; [unfold desc; lia | exact Hy].
Qed.

Lemma sort_desc_from (l : list A) :
  forall acc,
    StronglySorted (desc key) acc ->
    StronglySorted (desc key)
      (fold_left (fun acc x => Mongo.insert_desc key x acc) l acc)
    /\ Permutation (l ++ acc)
         (fold_left (fun acc x => Mongo.insert_desc key x acc) l acc).
Proof.
  induction l as [|x l IH]; intros acc Hacc; cbn.
  - split; [exact Hacc | reflexivity].
  - destruct (IH _ (insert_desc_sorted x Hacc)) as [Hs Hp].
    split; [exact Hs|].
    rewrite <- Hp, <- insert_desc_perm.
    now rewrite Permutation_middle.
Qed.

Lemma sort_desc_sorted (l : list A) :
  StronglySorted (desc key) (Mongo.sort_desc key l).
Proof. apply sort_desc_from. constructor. Qed.

Lemma sort_desc_perm (l : list A) :
  Permutation l (Mongo.sort_desc key l).
Proof.
  destruct (sort_desc_from l (acc := [])) as [_ Hp]; [constructor|].
  now rewrite app_nil_r in Hp.
Qed.

Lemma sorted_app_inv (l1 l2 : list A) :
  StronglySorted (desc key) (l1 ++ l2) ->
  StronglySorted (desc key) l1
  /\ forall x y, In x l1 -> In y l2 -> desc key x y.
Proof.
  induction l1 as [|a l1 IH]; cbn; intros H.
  - split; [constructor | intros x y []].
  - inversion H as [|? ? Hs Hf]; subst.
    destruct (IH Hs) as [Hs1 Hxy].
    rewrite Forall_app in Hf. destruct Hf as [Hf1 Hf2].
    split; [now constructor|].
    intros x y [<-|Hx] Hy.
    + rewrite Forall_forall in Hf2. now apply Hf2.
    + now apply Hxy.
Qed.

(** The first [n] of a descending sort: they are in descending order,
    together with the rest they are the sorted documents, and nothing
    left out has a larger key than something kept. *)
Lemma most_recent (n : nat) (l : list A) :
  let top := firstn n (Mongo.sort_desc key l) in
  let rest := skipn n (Mongo.sort_desc key l) in
  List.length top = Nat.min n (List.length l)
  /\ StronglySorted (desc key) top
  /\ Permutation l (top ++ rest)
  /\ forall x y, In x top -> In y rest -> key y <= key x.
Proof.
  intros top rest. subst top rest.
  pose proof (sort_desc_sorted l) as Hs.
  pose proof (sort_desc_perm l) as Hp.
  rewrite <- (firstn_skipn n (Mongo.sort_desc key l)) in Hs.
  destruct (sorted_app_inv _ _ Hs) as [Hs1 Hxy].
  repeat split.
  - rewrite length_firstn. now rewrite <- (Permutation_length Hp).
  - exact Hs1.
  - now rewrite firstn_skipn.
  - exact Hxy.
Qed.

End SortDesc.

Lemma firstn_firstn_same {A} (n : nat) (l : list A) :
  firstn n (firstn n l) = firstn n l.
Proof. rewrite firstn_firstn. now rewrite Nat.min_id. Qed.

Lemma filter_true {A} (l : list A) : filter (fun _ => true) l = l.
Proof. induction l; cbn; congruence. Qed.

Lemma In_firstn {A} (n : nat) (l : list A) (x : A) :
  In x (firstn n l) -> In x l.
Proof.
  intros H. rewrite <- (firstn_skipn n l). apply in_or_app. now left.
Qed.

(* ================================================================== *)
(** * Student dashboard *)
(* ================================================================== *)

(** C5 as the specification states it fails: with eleven courses
    that all have the student enrolled, the dashboard lists ten, and the
    eleventh is not among them. *)
Lemma get_student_dashboard_caps_courses :
  let eleventh := BulkSample.numbered_course "Programming" 11 in
  let r := get_student_dashboard "student_1" BulkSample.db_11_courses in
  In eleventh (courses BulkSample.db_11_courses)
  /\ In "student_1" (Course.enrolled_students eleventh)
  /\ List.length
       (filter (fun c => Mongo.array_contains "student_1"
                           (Course.enrolled_students c))
               (courses BulkSample.db_11_courses)) = 11%nat
  /\ option_map (fun d => List.length (sd_enrolled_courses d)) (returned r)
     = Some 10%nat
  /\ option_map
       (fun d => existsb (fun c => String.eqb (Course.id c)
                                              (Course.id eleventh))
                         (sd_enrolled_courses d))
       (returned r)
     = Some false.
Proof.
  cbv zeta. split; [|split; [|split; [|split]]].
  - cbn. do 10 right. left. reflexivity.
  - cbn. left. reflexivity.
  - reflexivity.
  - reflexivity.
  - reflexivity.
Qed.

(** C5, amended: [get_student_dashboard] always returns a view and writes
    nothing.  Its courses are the first ten, in stored order, of the
    courses whose [enrolled_students] holds the student id, and its
    progress records the first ten of the student's; when there are at
    most ten of either, they are all there (none gives an empty list).
    Its posts are the five most recent ones in descending order of
    [created_at] (all of them when fewer are stored). *)
Theorem get_student_dashboard_spec (db : Database) (student_id : string) :
  let enrolled :=
    filter (fun c => Mongo.array_contains student_id
                       (Course.enrolled_students c)) (courses db) in
  let mine :=
    filter (fun p => String.eqb (Progress.student_id p) student_id)
           (progress db) in
  exists d,
    get_student_dashboard student_id db = (Return d, db)
    /\ sd_enrolled_courses d = firstn 10 enrolled
    /\ sd_progress d = firstn 10 mine
    /\ (forall c, In c (sd_enrolled_courses d) ->
          In c (courses db) /\ In student_id (Course.enrolled_students c))
    /\ (forall p, In p (sd_progress d) ->
          In p (progress db) /\ Progress.student_id p = student_id)
    /\ ((List.length enrolled <= 10)%nat ->
        forall c, In c (courses db) ->
                  In student_id (Course.enrolled_students c) ->
                  In c (sd_enrolled_courses d))
    /\ ((List.length mine <= 10)%nat ->
        forall p, In p (progress db) ->
                  Progress.student_id p = student_id ->
                  In p (sd_progress d))
    /\ (enrolled = [] -> sd_enrolled_courses d = [])
    /\ List.length (sd_recent_posts d)
       = Nat.min 5 (List.length (community_posts db))
    /\ StronglySorted (desc CommunityPost.created_at) (sd_recent_posts d)
    /\ (exists rest,
           Permutation (community_posts db) (sd_recent_posts d ++ rest)
           /\ forall x y, In x (sd_recent_posts d) -> In y rest ->
                CommunityPost.created_at y <= CommunityPost.created_at x)
    /\ sd_learning_path d = get_learning_path student_id
    /\ sd_ai_insights d = analyze_progress student_id.
Proof.
  intros enrolled mine.
  eexists. split; [reflexivity|].
  cbn [sd_enrolled_courses sd_progress sd_recent_posts sd_learning_path
       sd_ai_insights].
  unfold Mongo.to_list, Mongo.limit, Mongo.find.
  rewrite firstn_firstn_same, filter_true.
  fold enrolled mine.
  destruct (most_recent CommunityPost.created_at 5 (community_posts db))
    as (Hlen & Hsorted & Hperm & Htop).
  split; [reflexivity|]. split; [reflexivity|].
  split; [|split; [|split; [|split; [|split; [|split; [|split; [|split]]]]]]].
  - intros c Hc. apply In_firstn in Hc. apply filter_In in Hc.
    destruct Hc as [Hin Hb]. split; [exact Hin|].
    now apply existsb_eqb_In.
  - intros p Hp. apply In_firstn in Hp. apply filter_In in Hp.
    destruct Hp as [Hin Hb]. split; [exact Hin|].
    now apply String.eqb_eq.
  - intros Hle c Hin Hs. rewrite firstn_all2 by exact Hle.
    apply filter_In. split; [exact Hin|]. now apply existsb_eqb_In.
  - intros Hle p Hin Hs. rewrite firstn_all2 by exact Hle.
    apply filter_In. split; [exact Hin|]. now apply String.eqb_eq.
  - intros ->. reflexivity.
  - exact Hlen.
  - exact Hsorted.
  - eexists. split; [exact Hperm | exact Htop].
  - split; reflexivity.
Qed.

Example get_student_dashboard_empty_run :
  option_map
    (fun d => (sd_enrolled_courses d, sd_progress d, sd_recent_posts d))
    (returned (get_student_dashboard "student_9" CourseSample.db_seeded))
  = Some ([], [], []).
Proof. reflexivity. Qed.

(* ================================================================== *)
(** * Progress statistics *)
(* ================================================================== *)

Lemma sum_nil : Py.sum [] = 0%float.
Proof. reflexivity. Qed.

(** The encoder fails on the first document that still has its
    ["_id"]: a list of documents as found encodes only when empty. *)
Lemma encode_documents_found {A} (query : A -> bool) (coll : list A)
    (n : nat) :
  encode_documents (firstn n (find_documents query coll))
  = match firstn n (filter query coll) with
    | [] => Return []
    | _ :: _ => Raise (ValueError "'ObjectId' object is not iterable")
    end.
Proof.
  unfold find_documents, Mongo.find. rewrite firstn_map.
  destruct (firstn n (filter query coll)); reflexivity.
Qed.

(** The value [get_student_progress] returns. *)
Lemma get_student_progress_value (db : Database) (student_id : string) :
  let docs :=
    firstn 50
      (filter (fun p => String.eqb (Progress.student_id p) student_id)
              (progress db)) in
  get_student_progress student_id db
  = (Return
       (mkProgressView
          (map (Document.mk (Some bson.ObjectId_of_store)) docs)
          (mkProgressStats (Z.of_nat (List.length docs))
             (PrimFloat.div
                (Py.sum (map Progress.completion_percentage docs))
                (float_of_int (Z.max (Z.of_nat (List.length docs)) 1)))
             (Py.sum (map Progress.time_spent_hours docs)))
          (analyze_progress student_id)), db).
Proof.
  intros docs.
  unfold get_student_progress, bind, query, lift, ret.
  unfold Mongo.to_list, find_documents, Mongo.find.
  rewrite firstn_map. fold docs.
  rewrite truediv_nonzero by (unfold len; lia).
  unfold len. rewrite !map_map, length_map. reflexivity.
Qed.

(** What the route answers: the encoding of that value. *)
Lemma route_get_student_progress_value (db : Database)
    (student_id : string) :
  let docs :=
    firstn 50
      (filter (fun p => String.eqb (Progress.student_id p) student_id)
              (progress db)) in
  route_get_student_progress student_id db
  = (match docs with
     | [] => Return (mkProgressView []
               (mkProgressStats 0 0%float 0%float)
               (analyze_progress student_id))
     | _ :: _ => Raise (ValueError "'ObjectId' object is not iterable")
     end, db).
Proof.
  intros docs.
  unfold route_get_student_progress, respond, bind, lift.
  rewrite get_student_progress_value. fold docs.
  unfold encode_progress_view. cbn [pv_courses pv_stats pv_ai_analysis].
  destruct docs; reflexivity.
Qed.

(** The handler counts at most fifty records: a student with fifty-one
    is told fifty. *)
Lemma get_student_progress_caps_records :
  List.length
    (filter (fun p => String.eqb (Progress.student_id p) "student_1")
            (progress BulkSample.db_51_progress)) = 51%nat
  /\ option_map (fun v => total_courses (pv_stats v))
       (returned (get_student_progress "student_1"
                                       BulkSample.db_51_progress))
     = Some 50.
Proof. split; vm_compute; reflexivity. Qed.

(** C7, as the code behaves: the handler [get_student_progress] always
    returns (the divisor is at least 1) and writes nothing; over the
    first fifty of the student's progress records it computes
    [total_courses] as their number, [total_time_hours] as the sum of
    their [time_spent_hours] and [average_completion] as the sum of
    their [completion_percentage] over [max(number, 1)].  The documents
    it returns still carry their ["_id"], which the response encoder
    cannot encode: the route answers with the statistics, all zero,
    only for a student without progress record, and with a 500 for
    every student who has one. *)
Theorem get_student_progress_response (db : Database)
    (student_id : string) :
  let mine :=
    filter (fun p => String.eqb (Progress.student_id p) student_id)
           (progress db) in
  let docs := firstn 50 mine in
  exists view,
    get_student_progress student_id db = (Return view, db)
    /\ map (@Document.fields Progress.t) (pv_courses view) = docs
    /\ (forall d, In d (pv_courses view) -> Document._id d <> None)
    /\ total_courses (pv_stats view) = Z.of_nat (List.length docs)
    /\ total_time_hours (pv_stats view)
       = Py.sum (map Progress.time_spent_hours docs)
    /\ average_completion (pv_stats view)
       = PrimFloat.div
           (Py.sum (map Progress.completion_percentage docs))
           (float_of_int (Z.of_nat (Nat.max (List.length docs) 1)))
    /\ (mine = [] ->
        route_get_student_progress student_id db
        = (Return (mkProgressView []
                     (mkProgressStats 0 0%float 0%float)
                     (analyze_progress student_id)), db))
    /\ (mine <> [] ->
        route_get_student_progress student_id db
        = (Raise (ValueError "'ObjectId' object is not iterable"), db)
        /\ http_status (fst (route_get_student_progress student_id db))
           = 500).
Proof.
  intros mine docs.
  pose proof (get_student_progress_value db student_id) as Hv.
  cbv zeta in Hv. fold mine in Hv. fold docs in Hv.
  eexists. split; [exact Hv|].
  cbn [pv_courses pv_stats total_courses total_time_hours
       average_completion].
  split; [rewrite map_map; apply map_id|].
  split.
  { intros d Hd. apply in_map_iff in Hd. destruct Hd as (x & <- & _).
    discriminate. }
  split; [reflexivity|]. split; [reflexivity|].
  split; [now rewrite <- (Nat2Z.inj_max _ 1)|].
  pose proof (route_get_student_progress_value db student_id) as Hroute.
  cbv zeta in Hroute. fold mine in Hroute. fold docs in Hroute.
  rewrite Hroute. split.
  - intros Hnone. subst docs. rewrite Hnone. reflexivity.
  - intros Hsome. subst docs.
    destruct mine as [|p rest]; [contradiction|]. split; reflexivity.
Qed.

Example get_student_progress_run :
  option_map (fun v => pv_stats v)
    (returned (get_student_progress "student_1"
                 (set_progress Sample.empty_db
                    [Progress.mk "p_1" "student_1" "course_1" "T" 75.5%float
                                 0 12.5%float [];
                     Progress.mk "p_2" "student_1" "course_2" "T" 24.5%float
                                 0 1.5%float [];
                     Progress.mk "p_3" "student_2" "course_1" "T" 10%float
                                 0 3%float []])))
  = Some (mkProgressStats 2 50%float 14%float).
Proof. reflexivity. Qed.

(** The route for a student with one progress record, and for one with
    none. *)
Example route_get_student_progress_run :
  let db :=
    set_progress Sample.empty_db
      [Progress.mk "p_1" "student_1" "course_1" "T" 75.5%float 0
                   12.5%float []] in
  route_get_student_progress "student_1" db
  = (Raise (ValueError "'ObjectId' object is not iterable"), db)
  /\ route_get_student_progress "student_9" db
     = (Return (mkProgressView []
                  (mkProgressStats 0 0%float 0%float)
                  (analyze_progress "student_9")), db).
Proof. split; reflexivity. Qed.

(* ================================================================== *)
(** * Course listing *)
(* ================================================================== *)

(** The query dict [get_courses] builds selects what the optional
    filters select. *)
Lemma get_courses_selected (db : Database)
    (subject difficulty : option string) :
  get_courses subject difficulty db
  = (Return (firstn 50 (filter (selected subject difficulty) (courses db))),
     db).
Proof.
  unfold get_courses, bind, query, ret, Mongo.to_list, Mongo.find.
  cbv zeta. do 2 f_equal. f_equal.
  apply filter_ext. intros c.
  unfold selected, passes, truthy_str, course_matches.
  destruct subject as [s|], difficulty as [d|]; cbn;
    try destruct (String.eqb s ""); try destruct (String.eqb d "");
    cbn; rewrite ?andb_true_r; reflexivity.
Qed.

(** C9 as the specification states it fails: with fifty-one
    courses, the last the only one on Programming, the listing filtered
    on that subject returns the last course, which the unfiltered listing
    (the first fifty) does not hold. *)
Lemma get_courses_filtered_not_subset :
  let last := BulkSample.numbered_course "Programming" 51 in
  returned (get_courses (Some "Programming") None BulkSample.db_51_courses)
  = Some [last]
  /\ option_map (@List.length Course.t)
       (returned (get_courses None None BulkSample.db_51_courses))
     = Some 50%nat
  /\ option_map
       (existsb (fun c => String.eqb (Course.id c) (Course.id last)))
       (returned (get_courses None None BulkSample.db_51_courses))
     = Some false.
Proof. cbv zeta. repeat split; vm_compute; reflexivity. Qed.

(** C9, amended: [get_courses] always returns and writes nothing.  The
    result is the first fifty, in stored order, of the stored courses
    that pass the filters, an absent or empty filter passing every
    course: it has at most fifty elements, each a stored course whose
    [subject] (resp. [difficulty_level]) equals the filter value given;
    without filters it is the first fifty stored courses; and when at
    most fifty courses are stored it is exactly the unfiltered listing
    restricted to the courses that pass. *)
Theorem get_courses_spec (db : Database)
    (subject difficulty : option string) :
  exists listed unfiltered,
    get_courses subject difficulty db = (Return listed, db)
    /\ get_courses None None db = (Return unfiltered, db)
    /\ listed = firstn 50 (filter (selected subject difficulty) (courses db))
    /\ unfiltered = firstn 50 (courses db)
    /\ (List.length listed <= 50)%nat
    /\ (forall c, In c listed ->
          In c (courses db)
          /\ (forall s, subject = Some s -> s <> "" -> Course.subject c = s)
          /\ (forall d, difficulty = Some d -> d <> "" ->
                Course.difficulty_level c = d))
    /\ (truthy_str subject = false -> truthy_str difficulty = false ->
        listed = unfiltered)
    /\ ((List.length (courses db) <= 50)%nat ->
        listed = filter (selected subject difficulty) unfiltered
        /\ forall c, In c listed -> In c unfiltered).
Proof.
  exists (firstn 50 (filter (selected subject difficulty) (courses db))),
         (firstn 50 (courses db)).
  split; [apply get_courses_selected|].
  split.
  { rewrite get_courses_selected. do 2 f_equal.
    rewrite (filter_ext (selected None None) (fun _ => true))
      by reflexivity.
    now rewrite filter_true. }
  split; [reflexivity|]. split; [reflexivity|].
  split; [rewrite length_firstn; lia|].
  split; [|split].
  - intros c Hc. apply In_firstn in Hc. apply filter_In in Hc.
    destruct Hc as [Hin Hsel]. split; [exact Hin|].
    unfold selected in Hsel. apply andb_true_iff in Hsel.
    destruct Hsel as [Hs Hd]. split.
    + intros s -> Hne. cbn in Hs.
      destruct (String.eqb s "") eqn:E;
        [apply String.eqb_eq in E; contradiction|].
      now apply String.eqb_eq.
    + intros d -> Hne. cbn in Hd.
      destruct (String.eqb d "") eqn:E;
        [apply String.eqb_eq in E; contradiction|].
      now apply String.eqb_eq.
  - intros Hs Hd. f_equal.
    rewrite <- (filter_true (courses db)) at 2.
    apply filter_ext. intros c. unfold selected, passes, truthy_str in *.
    destruct subject as [s|], difficulty as [d|]; cbn in *;
      try (apply negb_false_iff in Hs; rewrite Hs);
      try (apply negb_false_iff in Hd; rewrite Hd); reflexivity.
  - intros Hle.
    assert (Hall : firstn 50 (courses db) = courses db)
      by now apply firstn_all2.
    rewrite Hall.
    assert (Hf : firstn 50 (filter (selected subject difficulty)
                                   (courses db))
                 = filter (selected subject difficulty) (courses db)).
    { apply firstn_all2.
      etransitivity; [apply filter_length_le | exact Hle]. }
    rewrite Hf. split; [reflexivity|].
    intros c Hc. now apply filter_In in Hc.
Qed.

Example get_courses_filter_run :
  returned (get_courses (Some "Programming") (Some "beginner")
                        CourseSample.db_seeded)
  = Some [CourseSample.course_1]
  /\ returned (get_courses None None CourseSample.db_seeded)
     = Some [CourseSample.course_1; CourseSample.course_2;
             CourseSample.course_3]
  /\ returned (get_courses (Some "") None CourseSample.db_seeded)
     = returned (get_courses None None CourseSample.db_seeded).
Proof. repeat split. Qed.

(* ================================================================== *)
(** * The theorems at sample inputs *)
(* ================================================================== *)

Lemma enroll_in_course_spec_witness :
  UserResponse.role CourseSample.student_3 = "student"
  /\ exists course1,
       Mongo.find_one (fun c => String.eqb (Course.id c) "course_2")
         (courses
            (snd (enroll_in_course "course_2" "p_2" 20
                    CourseSample.student_3
                    (snd (enroll_in_course "course_2" "p_1" 10
                            CourseSample.student_3
                            CourseSample.db_seeded)))))
       = Some course1
       /\ Course.enrolled_students course1 = ["student_1"; "student_3"].
Proof.
  split; [reflexivity|].
  destruct (enroll_in_course_spec CourseSample.db_seeded "course_2"
              "p_1" "p_2" 10 20 CourseSample.student_3) as [_ H].
  destruct (H eq_refl) as [H2 _].
  destruct (H2 CourseSample.course_2 eq_refl)
    as (_ & _ & (l1 & l2 & c1 & _ & _ & _ & _ & Hf & He & _) & _).
  exists c1. split; [exact Hf | exact He].
Defined.

Lemma submit_quiz_zero_questions_witness :
  Quiz.questions Sample.quiz_0 = []
  /\ http_status
       (fst (submit_quiz (Sample.submission "quiz_0" [0; 1]) Sample.student
                         Sample.db_quiz)) = 500.
Proof.
  split; [reflexivity|].
  destruct (submit_quiz_zero_questions Sample.db_quiz
              (Sample.submission "quiz_0" [0; 1]) Sample.student)
    as [H _].
  destruct (H Sample.quiz_0 eq_refl) as [_ H500].
  exact (H500 eq_refl).
Defined.

Lemma update_teacher_profile_spec_witness :
  UserResponse.role Sample.teacher = "teacher"
  /\ fst (update_teacher_profile TeacherSample.subjects_only Sample.teacher
            TeacherSample.db_teachers)
     = Return "Profile updated successfully".
Proof.
  split; [reflexivity|].
  destruct (update_teacher_profile_spec TeacherSample.db_teachers
              TeacherSample.subjects_only Sample.teacher) as [_ H].
  destruct (H eq_refl) as [Hr _].
  exact Hr.
Defined.

Lemma get_current_user_outcomes_witness :
  jwt.decode AuthSample.expired_token SECRET_KEY 5000000
  = Raise (JWTException "ExpiredSignatureError")
  /\ get_current_user AuthSample.expired_token 5000000 AuthSample.db_users
     = (Raise (AttributeError "jwt" "PyJSONError"), AuthSample.db_users).
Proof.
  split; [reflexivity|].
  destruct (get_current_user_outcomes AuthSample.db_users
              AuthSample.expired_token 5000000) as [H _].
  exact (H _ eq_refl).
Defined.

Unset Implicit Arguments.

(* ================================================================== *)
(** * Login and the life of a token *)
(* ================================================================== *)

Lemma login_found (verify_password : string -> string -> bool)
    (db : Database) (user_data : UserLogin.t) (utcnow : datetime)
    (doc : UserDoc.t) :
  Mongo.find_one
    (fun u => String.eqb (UserDoc.email u) (UserLogin.email user_data))
    (users db) = Some doc ->
  login verify_password user_data utcnow db
  = (if verify_password (UserLogin.password user_data)
                        (UserDoc.hashed_password doc)
     then Return
            (Token.mk
               (jwt.encode
                  (jwt.mk (Some (UserDoc.id doc))
                          (Some (utcnow + minutes_15)))
                  SECRET_KEY)
               "bearer" (UserResponse_of_doc doc))
     else Raise (HTTPException 401 "Invalid credentials"),
     db).
Proof.
  intros Hfind. unfold login, bind, query, raise, ret.
  rewrite Hfind.
  destruct (verify_password _ _); reflexivity.
Qed.

Lemma login_not_found (verify_password : string -> string -> bool)
    (db : Database) (user_data : UserLogin.t) (utcnow : datetime) :
  Mongo.find_one
    (fun u => String.eqb (UserDoc.email u) (UserLogin.email user_data))
    (users db) = None ->
  login verify_password user_data utcnow db
  = (Raise (HTTPException 401 "Invalid credentials"), db).
Proof.
  intros Hfind. unfold login, bind, query, raise. now rewrite Hfind.
Qed.

(** X1: [login] succeeds exactly when the first stored user with the
    email verifies the password; every other attempt, unknown email or
    wrong password alike, ends in the one exception 401 "Invalid
    credentials"; the store is never written. *)
Theorem login_outcomes (verify_password : string -> string -> bool)
    (db : Database) (user_data : UserLogin.t) (utcnow : datetime) :
  let r := login verify_password user_data utcnow db in
  let found :=
    Mongo.find_one
      (fun u => String.eqb (UserDoc.email u) (UserLogin.email user_data))
      (users db) in
  snd r = db
  /\ (http_status (fst r) = 200 <->
      exists doc, found = Some doc
                  /\ verify_password (UserLogin.password user_data)
                                     (UserDoc.hashed_password doc) = true)
  /\ (http_status (fst r) <> 200 ->
      fst r = Raise (HTTPException 401 "Invalid credentials"))
  /\ (forall doc, found = Some doc ->
        verify_password (UserLogin.password user_data)
                        (UserDoc.hashed_password doc) = true ->
        exists token,
          fst r = Return token
          /\ Token.user token = UserResponse_of_doc doc
          /\ jwt.decode (Token.access_token token) SECRET_KEY utcnow
             = Return (jwt.mk (Some (UserDoc.id doc))
                              (Some (utcnow + minutes_15)))).
Proof.
  intros r found. subst r.
  destruct found as [doc|] eqn:Hfound; subst found.
  - rewrite (login_found verify_password db user_data utcnow doc Hfound).
    destruct (verify_password _ _) eqn:Hv; cbn [fst snd http_status].
    + split; [reflexivity|]. split; [|split].
      * split; [intros _; now exists doc | reflexivity].
      * intros H. contradiction.
      * intros doc' Hd _. inversion Hd; subst doc'.
        eexists. split; [reflexivity|]. split; [reflexivity|].
        cbn [Token.access_token]. unfold jwt.decode, jwt.encode.
        rewrite String.eqb_refl. cbn [negb jwt.exp].
        assert (E : (utcnow + minutes_15 <=? utcnow) = false)
          by (apply Z.leb_gt; unfold minutes_15; lia).
        now rewrite E.
    + split; [reflexivity|]. split; [|split].
      * split; [discriminate|].
        intros (doc' & Hd & Hv'). inversion Hd; subst doc'. congruence.
      * reflexivity.
      * intros doc' Hd Hv'. inversion Hd; subst doc'. congruence.
  - rewrite (login_not_found verify_password db user_data utcnow Hfound).
    cbn [fst snd http_status].
    split; [reflexivity|]. split; [|split].
    + split; [discriminate | intros (doc & Hd & _); discriminate].
    + reflexivity.
    + intros doc Hd. discriminate.
Qed.

(** X2: after a registration that went through, [login] with the same
    email and a password the stored hash verifies returns a token for
    the new user's id with the new user's public view, and a password
    the hash rejects gets 401; neither login writes. *)
Theorem register_then_login (get_password_hash : string -> string)
    (verify_password : string -> string -> bool) (db : Database)
    (user_data : UserCreate.t) (uuid_user uuid_teacher : string)
    (now_user now_token now_login : datetime) (password : string) :
  existsb (fun x => String.eqb (UserDoc.email x)
                               (UserCreate.email user_data))
          (users db) = false ->
  let db1 := snd (register get_password_hash user_data uuid_user
                           uuid_teacher now_user now_token db) in
  let r := login verify_password
                 (UserLogin.mk (UserCreate.email user_data) password)
                 now_login db1 in
  snd r = db1
  /\ fst r
     = (if verify_password password
             (get_password_hash (UserCreate.password user_data))
        then Return
               (Token.mk
                  (jwt.encode
                     (jwt.mk (Some uuid_user)
                             (Some (now_login + minutes_15)))
                     SECRET_KEY)
                  "bearer"
                  (UserResponse.mk uuid_user (UserCreate.email user_data)
                     (UserCreate.full_name user_data)
                     (UserCreate.role user_data) None None))
        else Raise (HTTPException 401 "Invalid credentials")).
Proof.
  intros Hfresh db1 r.
  assert (Hnone : Mongo.find_one
            (fun u => String.eqb (UserDoc.email u)
                                 (UserCreate.email user_data))
            (users db) = None).
  { pose proof (find_one_truthy
      (fun u => String.eqb (UserDoc.email u) (UserCreate.email user_data))
      (users db)) as Ht.
    rewrite Hfresh in Ht.
    destruct (Mongo.find_one _ (users db)); [discriminate Ht | reflexivity]. }
  assert (Hfind : Mongo.find_one
            (fun u => String.eqb (UserDoc.email u)
                                 (UserCreate.email user_data))
            (users db1)
          = Some (UserDoc.mk uuid_user (UserCreate.email user_data)
                    (UserCreate.full_name user_data)
                    (UserCreate.role user_data) now_user None None
                    (get_password_hash (UserCreate.password user_data)))).
  { subst db1. unfold register, bind, query, write, ret.
    rewrite Hnone. cbn [truthy_doc].
    destruct (String.eqb (UserCreate.role user_data) "teacher");
      cbn [snd fst users set_users set_teachers];
      unfold Mongo.insert_one; rewrite (find_one_app_none _ _ _ Hnone);
      cbn; now rewrite String.eqb_refl. }
  subst r.
  rewrite (login_found verify_password db1
             (UserLogin.mk (UserCreate.email user_data) password)
             now_login _ Hfind).
  cbn [fst snd UserLogin.password UserDoc.hashed_password UserDoc.id].
  split; [reflexivity|].
  destruct (verify_password _ _); reflexivity.
Qed.

Lemma register_then_login_witness :
  existsb (fun x => String.eqb (UserDoc.email x)
                      (UserCreate.email AuthSample.john_data))
          (users AuthSample.db_users) = false
  /\ http_status
       (fst (login MoreSample.sample_verify
               (UserLogin.mk "john.smith@teacher.com" "TeacherPass456!") 9
               (snd (register AuthSample.sample_hash AuthSample.john_data
                       "u_2" "t_2" 1 2 AuthSample.db_users)))) = 200
  /\ http_status
       (fst (login MoreSample.sample_verify
               (UserLogin.mk "john.smith@teacher.com" "WrongPassword") 9
               (snd (register AuthSample.sample_hash AuthSample.john_data
                       "u_2" "t_2" 1 2 AuthSample.db_users)))) = 401.
Proof.
  split; [reflexivity|].
  split.
  - destruct (register_then_login AuthSample.sample_hash
                MoreSample.sample_verify AuthSample.db_users
                AuthSample.john_data "u_2" "t_2" 1 2 9 "TeacherPass456!"
                eq_refl) as [_ H].
    cbn [UserCreate.email AuthSample.john_data] in H.
    rewrite H. reflexivity.
  - destruct (register_then_login AuthSample.sample_hash
                MoreSample.sample_verify AuthSample.db_users
                AuthSample.john_data "u_2" "t_2" 1 2 9 "WrongPassword"
                eq_refl) as [_ H].
    cbn [UserCreate.email AuthSample.john_data] in H.
    rewrite H. reflexivity.
Defined.

Lemma decode_issued (data : jwt.payload) (expires_delta : option Z)
    (issued presented : datetime) :
  jwt.decode (create_access_token data expires_delta issued) SECRET_KEY
             presented
  = (if expiry expires_delta issued <=? presented
     then Raise (JWTException "ExpiredSignatureError")
     else Return (jwt.mk (jwt.sub data)
                         (Some (expiry expires_delta issued)))).
Proof.
  unfold create_access_token, jwt.encode, jwt.decode, expiry.
  rewrite String.eqb_refl. cbn [negb jwt.exp].
  destruct expires_delta as [d|]; [destruct (d =? 0)|]; reflexivity.
Qed.

(** X3: a token of [create_access_token] decodes under the secret key to
    its subject at every instant before its expiry and is refused as
    expired from the expiry on; it is refused under every other key; the
    expiry is the issue instant plus the delta, and plus 15 minutes when
    the delta is absent or zero. *)
Theorem access_token_lifetime (data : jwt.payload)
    (expires_delta : option Z) (issued presented : datetime) :
  let token := create_access_token data expires_delta issued in
  (presented < expiry expires_delta issued <->
   jwt.decode token SECRET_KEY presented
   = Return (jwt.mk (jwt.sub data) (Some (expiry expires_delta issued))))
  /\ (expiry expires_delta issued <= presented <->
      jwt.decode token SECRET_KEY presented
      = Raise (JWTException "ExpiredSignatureError"))
  /\ (forall key, key <> SECRET_KEY ->
        jwt.decode token key presented
        = Raise (JWTException "InvalidSignatureError"))
  /\ create_access_token data (Some 0) issued
     = create_access_token data None issued
  /\ (forall d, d <> 0 ->
        create_access_token data (Some d) issued
        = jwt.encode (jwt.mk (jwt.sub data) (Some (issued + d)))
                     SECRET_KEY).
Proof.
  intros token. subst token. rewrite decode_issued.
  destruct (expiry expires_delta issued <=? presented) eqn:E.
  - apply Z.leb_le in E.
    split; [split; [lia | discriminate]|].
    split; [split; [reflexivity | intros _; exact E]|].
    split; [|split].
    + intros key Hk. unfold create_access_token, jwt.encode, jwt.decode.
      destruct (String.eqb SECRET_KEY key) eqn:Ek;
        [apply String.eqb_eq in Ek; congruence | reflexivity].
    + reflexivity.
    + intros d Hd. unfold create_access_token.
      destruct (d =? 0) eqn:Ed; [apply Z.eqb_eq in Ed; contradiction|].
      reflexivity.
  - apply Z.leb_gt in E.
    split; [split; [reflexivity | intros _; exact E]|].
    split; [split; [lia | discriminate]|].
    split; [|split].
    + intros key Hk. unfold create_access_token, jwt.encode, jwt.decode.
      destruct (String.eqb SECRET_KEY key) eqn:Ek;
        [apply String.eqb_eq in Ek; congruence | reflexivity].
    + reflexivity.
    + intros d Hd. unfold create_access_token.
      destruct (d =? 0) eqn:Ed; [apply Z.eqb_eq in Ed; contradiction|].
      reflexivity.
Qed.

(** A token that decodes to the id of a stored user resolves to the
    public view of the first stored user with that id. *)
Lemma get_current_user_valid (db : Database) (credentials : jwt.token)
    (utcnow : datetime) (p : jwt.payload) (user_id : string)
    (doc : UserDoc.t) :
  jwt.decode credentials SECRET_KEY utcnow = Return p ->
  jwt.sub p = Some user_id ->
  Mongo.find_one (fun u => String.eqb (UserDoc.id u) user_id) (users db)
  = Some doc ->
  get_current_user credentials utcnow db
  = (Return (UserResponse_of_doc doc), db).
Proof.
  intros Hd Hs Hf.
  unfold get_current_user, try_except, bind, lift, query, ret.
  now rewrite Hd, Hs, Hf.
Qed.

Lemma get_current_user_expired (db : Database) (data : jwt.payload)
    (expires_delta : option Z) (issued presented : datetime) :
  expiry expires_delta issued <= presented ->
  get_current_user (create_access_token data expires_delta issued)
                   presented db
  = (Raise (AttributeError "jwt" "PyJSONError"), db).
Proof.
  intros Hexp.
  unfold get_current_user, try_except, bind, lift.
  rewrite decode_issued.
  destruct (expiry expires_delta issued <=? presented) eqn:E;
    [reflexivity | apply Z.leb_gt in E; lia].
Qed.

(** X4: the token a registration returns, presented before its 15
    minutes are over, resolves to the user just registered, provided the
    email was free and no stored user already had the new id; presented
    later it is not accepted; resolving writes nothing. *)
Theorem register_then_resolve (get_password_hash : string -> string)
    (db : Database) (user_data : UserCreate.t)
    (uuid_user uuid_teacher : string)
    (now_user now_token presented : datetime) :
  existsb (fun x => String.eqb (UserDoc.email x)
                               (UserCreate.email user_data))
          (users db) = false ->
  existsb (fun x => String.eqb (UserDoc.id x) uuid_user) (users db)
  = false ->
  let r := register get_password_hash user_data uuid_user uuid_teacher
                    now_user now_token db in
  exists token,
    fst r = Return token
    /\ (presented < now_token + minutes_15 ->
        get_current_user (Token.access_token token) presented (snd r)
        = (Return (Token.user token), snd r))
    /\ (now_token + minutes_15 <= presented ->
        http_status
          (fst (get_current_user (Token.access_token token) presented
                                 (snd r))) = 500
        /\ snd (get_current_user (Token.access_token token) presented
                                 (snd r)) = snd r).
Proof.
  intros Hemail Hid r.
  assert (Hnone : forall f, existsb f (users db) = false ->
                            Mongo.find_one f (users db) = None).
  { intros f Hf. pose proof (find_one_truthy f (users db)) as Ht.
    rewrite Hf in Ht.
    destruct (Mongo.find_one f (users db)); [discriminate Ht | reflexivity]. }
  pose proof (Hnone _ Hemail) as He. pose proof (Hnone _ Hid) as Hi.
  assert (Hr : fst r
      = Return
          (Token.mk
             (create_access_token (jwt.mk (Some uuid_user) None) None
                                  now_token)
             "bearer"
             (UserResponse.mk uuid_user (UserCreate.email user_data)
                (UserCreate.full_name user_data)
                (UserCreate.role user_data) None None))
      /\ Mongo.find_one (fun u => String.eqb (UserDoc.id u) uuid_user)
           (users (snd r))
         = Some (UserDoc.mk uuid_user (UserCreate.email user_data)
                   (UserCreate.full_name user_data)
                   (UserCreate.role user_data) now_user None None
                   (get_password_hash (UserCreate.password user_data)))).
  { subst r. unfold register, bind, query, write, ret.
    rewrite He. cbn [truthy_doc].
    destruct (String.eqb (UserCreate.role user_data) "teacher");
      cbn [snd fst users set_users set_teachers];
      (split; [reflexivity|]);
      unfold Mongo.insert_one; rewrite (find_one_app_none _ _ _ Hi);
      cbn; now rewrite String.eqb_refl. }
  destruct Hr as [Hr Hf].
  eexists. split; [exact Hr|].
  cbn [Token.access_token Token.user]. split.
  - intros Hlt.
    rewrite (@get_current_user_valid (snd r) _ presented
               (jwt.mk (Some uuid_user) (Some (now_token + minutes_15)))
               uuid_user
               (UserDoc.mk uuid_user
                  (UserCreate.email user_data)
                  (UserCreate.full_name user_data)
                  (UserCreate.role user_data) now_user None None
                  (get_password_hash (UserCreate.password user_data)))).
    + reflexivity.
    + rewrite decode_issued. cbn [expiry jwt.sub].
      destruct (now_token + minutes_15 <=? presented) eqn:E;
        [apply Z.leb_le in E; lia | reflexivity].
    + reflexivity.
    + exact Hf.
  - intros Hge.
    rewrite get_current_user_expired by exact Hge.
    split; reflexivity.
Qed.

Lemma register_then_resolve_witness :
  get_current_user
    (create_access_token (jwt.mk (Some "u_2") None) None 2) 1000
    (snd (register AuthSample.sample_hash AuthSample.john_data "u_2" "t_2"
                   1 2 AuthSample.db_users))
  = (Return (UserResponse.mk "u_2" "john.smith@teacher.com" "John Smith"
                             "teacher" None None),
     snd (register AuthSample.sample_hash AuthSample.john_data "u_2" "t_2"
                   1 2 AuthSample.db_users)).
Proof.
  destruct (register_then_resolve AuthSample.sample_hash
              AuthSample.db_users AuthSample.john_data "u_2" "t_2" 1 2 1000
              eq_refl eq_refl) as (token & Ht & Hok & _).
  cbv zeta in Ht. injection Ht as Ht. subst token.
  apply Hok. reflexivity.
Defined.

(* ================================================================== *)
(** * Courses: creation, role gate, listing *)
(* ================================================================== *)

(** A route behind [Depends(get_current_user)], called with an unexpired
    token for the id of a stored user, runs on that user's view. *)
Lemma authenticated_valid {A} (route : UserResponse.t -> handler A)
    (db : Database) (doc : UserDoc.t) (issued presented : datetime) :
  Mongo.find_one (fun u => String.eqb (UserDoc.id u) (UserDoc.id doc))
                 (users db) = Some doc ->
  presented < issued + minutes_15 ->
  authenticated route
    (create_access_token (jwt.mk (Some (UserDoc.id doc)) None) None issued)
    presented db
  = route (UserResponse_of_doc doc) db.
Proof.
  intros Hf Hlt. unfold authenticated, bind.
  rewrite (@get_current_user_valid db _ presented
             (jwt.mk (Some (UserDoc.id doc)) (Some (issued + minutes_15)))
             (UserDoc.id doc) doc).
  - reflexivity.
  - rewrite decode_issued. cbn [expiry jwt.sub].
    destruct (issued + minutes_15 <=? presented) eqn:E;
      [apply Z.leb_le in E; lia | reflexivity].
  - reflexivity.
  - exact Hf.
Qed.

Lemma create_course_teacher (db : Database) (course_data : CourseCreate.t)
    (uuid_course : string) (utcnow : datetime)
    (current_user : UserResponse.t) :
  UserResponse.role current_user = "teacher" ->
  let course :=
    Course.mk uuid_course (CourseCreate.title course_data)
      (CourseCreate.description course_data)
      (UserResponse.id current_user) (UserResponse.full_name current_user)
      (CourseCreate.subject course_data)
      (CourseCreate.difficulty_level course_data)
      (CourseCreate.duration_hours course_data) utcnow
      (CourseCreate.image course_data) [] 4.5%float
      (CourseCreate.total_lessons course_data) in
  create_course course_data uuid_course utcnow current_user db
  = (Return course, set_courses db (courses db ++ [course])).
Proof.
  intros Hrole course. unfold create_course, bind, write, ret.
  rewrite Hrole. reflexivity.
Qed.

Lemma create_course_other (db : Database) (course_data : CourseCreate.t)
    (uuid_course : string) (utcnow : datetime)
    (current_user : UserResponse.t) :
  UserResponse.role current_user <> "teacher" ->
  create_course course_data uuid_course utcnow current_user db
  = (Raise (HTTPException 403 "Only teachers can create courses"), db).
Proof.
  intros Hrole. unfold create_course, raise.
  destruct (String.eqb (UserResponse.role current_user) "teacher") eqn:E;
    [apply String.eqb_eq in E; contradiction | reflexivity].
Qed.

(** X5: [POST /courses] with an unexpired token of a stored user answers
    403 and writes nothing unless that user's role is "teacher"; for a
    teacher it appends one course carrying the user's id and name as
    [teacher_id] and [teacher_name], with no student enrolled, and
    returns it; no other collection changes. *)
Theorem create_course_role_gate (db : Database) (doc : UserDoc.t)
    (issued presented : datetime) (course_data : CourseCreate.t)
    (uuid_course : string) (utcnow : datetime) :
  Mongo.find_one (fun u => String.eqb (UserDoc.id u) (UserDoc.id doc))
                 (users db) = Some doc ->
  presented < issued + minutes_15 ->
  let token :=
    create_access_token (jwt.mk (Some (UserDoc.id doc)) None) None issued in
  let r := authenticated (create_course course_data uuid_course utcnow)
                         token presented db in
  (UserDoc.role doc <> "teacher" ->
   r = (Raise (HTTPException 403 "Only teachers can create courses"), db))
  /\ (UserDoc.role doc = "teacher" ->
      exists course,
        fst r = Return course
        /\ courses (snd r) = courses db ++ [course]
        /\ Course.id course = uuid_course
        /\ Course.teacher_id course = UserDoc.id doc
        /\ Course.teacher_name course = UserDoc.full_name doc
        /\ Course.enrolled_students course = []
        /\ Course.subject course = CourseCreate.subject course_data
        /\ Course.difficulty_level course
           = CourseCreate.difficulty_level course_data
        /\ users (snd r) = users db
        /\ teachers (snd r) = teachers db
        /\ progress (snd r) = progress db
        /\ quizzes (snd r) = quizzes db
        /\ quiz_submissions (snd r) = quiz_submissions db
        /\ community_posts (snd r) = community_posts db).
Proof.
  intros Hf Hlt token r. subst r token.
  rewrite (authenticated_valid _ db doc issued presented Hf Hlt).
  split.
  - intros Hrole. now apply create_course_other.
  - intros Hrole. rewrite create_course_teacher by exact Hrole.
    eexists. cbn [fst snd courses set_courses users teachers progress
                  quizzes quiz_submissions community_posts].
    repeat split.
Qed.

Lemma create_course_role_gate_witness :
  authenticated (create_course MoreSample.course_data "course_9" 50)
    AuthSample.fresh_token 1000 AuthSample.db_users
  = (Raise (HTTPException 403 "Only teachers can create courses"),
     AuthSample.db_users).
Proof.
  destruct (create_course_role_gate AuthSample.db_users AuthSample.emma
              0 1000 MoreSample.course_data "course_9" 50 eq_refl eq_refl)
    as [H _].
  apply H. discriminate.
Defined.



(* ================================================================== *)
(** * Enrollment across routes *)
(* ================================================================== *)

Lemma addToSet_incl (v : string) (arr : list string) :
  incl arr (Mongo.addToSet v arr).
Proof.
  unfold Mongo.addToSet. destruct (existsb (String.eqb v) arr).
  - apply incl_refl.
  - apply incl_appl, incl_refl.
Qed.

Lemma addToSet_In (v s : string) (arr : list string) :
  In s (Mongo.addToSet v arr) -> In s arr \/ s = v.
Proof.
  unfold Mongo.addToSet. destruct (existsb (String.eqb v) arr).
  - now left.
  - intros H. apply in_app_or in H. destruct H as [H|[H|[]]]; auto.
Qed.

Lemma update_one_Forall2 {A} (R : A -> A -> Prop) (q : A -> bool)
    (f : A -> A) (l : list A) :
  (forall x, R x x) -> (forall x, q x = true -> R x (f x)) ->
  Forall2 R l (Mongo.update_one q f l).
Proof.
  intros Hrefl Hf. induction l as [|x l IH]; cbn; [constructor|].
  destruct (q x) eqn:Hq.
  - constructor; [now apply Hf|].
    clear IH. induction l; constructor; auto.
  - constructor; [apply Hrefl | exact IH].
Qed.

(** The store after [enroll_in_course], in every case. *)
Lemma enroll_in_course_store (db : Database) (course_id uuid : string)
    (utcnow : datetime) (current_user : UserResponse.t) :
  let db' := snd (enroll_in_course course_id uuid utcnow current_user db) in
  let by_id := fun c => String.eqb (Course.id c) course_id in
  users db' = users db /\ teachers db' = teachers db
  /\ quizzes db' = quizzes db
  /\ quiz_submissions db' = quiz_submissions db
  /\ community_posts db' = community_posts db
  /\ (UserResponse.role current_user <> "student" -> db' = db)
  /\ (UserResponse.role current_user = "student" ->
      courses db'
      = Mongo.update_one by_id
          (fun c => Course.set_enrolled_students c
                      (Mongo.addToSet (UserResponse.id current_user)
                                      (Course.enrolled_students c)))
          (courses db)
      /\ progress db'
         = match Mongo.find_one by_id (courses db) with
           | Some course =>
               progress db
               ++ [Progress.mk uuid (UserResponse.id current_user)
                     course_id (Course.title course) 0%float utcnow
                     0%float []]
           | None => progress db
           end).
Proof.
  intros db' by_id. subst db'.
  destruct (String.eqb (UserResponse.role current_user) "student") eqn:Hrole.
  - apply String.eqb_eq in Hrole.
    destruct (Mongo.find_one by_id (courses db)) as [course|] eqn:Hfind.
    + destruct (enroll_in_course_found db course_id uuid utcnow
                  current_user Hrole Hfind) as (_ & _ & Hc & Hp).
      unfold enroll_in_course, bind, query, write, ret in *.
      rewrite Hrole in *.
      change (negb ("student" =? "student")%string) with false in *.
      cbv beta iota in *. cbn [courses set_courses] in *.
      destruct (Mongo.find_one _ (Mongo.update_one _ _ (courses db)));
        cbn in *; repeat split; try congruence; intros; congruence.
    + rewrite (enroll_in_course_absent db course_id uuid utcnow
                 current_user Hrole Hfind).
      cbn [snd]. repeat split; try congruence.
      symmetry. now apply update_one_none.
  - unfold enroll_in_course, raise. rewrite Hrole. cbn [negb snd].
    split; [reflexivity|]. split; [reflexivity|]. split; [reflexivity|].
    split; [reflexivity|]. split; [reflexivity|].
    split; [reflexivity|].
    intros Hs. rewrite Hs in Hrole. discriminate Hrole.
Qed.

(** X7: whatever the caller and the course id, [enroll_in_course] keeps
    every stored course in place with its id and title, never removes a
    student from an enrollment list, adds at most the caller's id, and
    that only to a course with the requested id and for a student; it
    appends at most one progress record and touches no other
    collection. *)
Theorem enroll_in_course_monotone (db : Database) (course_id uuid : string)
    (utcnow : datetime) (current_user : UserResponse.t) :
  let db' := snd (enroll_in_course course_id uuid utcnow current_user db) in
  Forall2
    (fun c c' =>
       Course.id c' = Course.id c
       /\ Course.title c' = Course.title c
       /\ Course.teacher_id c' = Course.teacher_id c
       /\ incl (Course.enrolled_students c) (Course.enrolled_students c')
       /\ forall s, In s (Course.enrolled_students c') ->
            In s (Course.enrolled_students c)
            \/ (s = UserResponse.id current_user
                /\ Course.id c = course_id
                /\ UserResponse.role current_user = "student"))
    (courses db) (courses db')
  /\ (exists added, progress db' = progress db ++ added
                    /\ (List.length added <= 1)%nat
                    /\ forall p, In p added ->
                         Progress.student_id p = UserResponse.id current_user
                         /\ Progress.course_id p = course_id)
  /\ users db' = users db /\ teachers db' = teachers db
  /\ quizzes db' = quizzes db
  /\ quiz_submissions db' = quiz_submissions db
  /\ community_posts db' = community_posts db.
Proof.
  intros db'.
  destruct (enroll_in_course_store db course_id uuid utcnow current_user)
    as (Hu & Ht & Hq & Hs & Hcp & Hother & Hstudent).
  fold db' in Hu, Ht, Hq, Hs, Hcp, Hother, Hstudent.
  split; [|split; [|now repeat split]].
  - destruct (string_dec (UserResponse.role current_user) "student")
      as [Hrole|Hrole].
    + destruct (Hstudent Hrole) as [Hc _]. rewrite Hc.
      apply update_one_Forall2.
      * intros c. repeat split; try apply incl_refl. intros s; now left.
      * intros c Hid. apply String.eqb_eq in Hid.
        destruct c; cbn in *. repeat split.
        -- apply addToSet_incl.
        -- intros s Hin. apply addToSet_In in Hin.
           destruct Hin as [Hin| ->]; [now left | right; auto].
    + rewrite (Hother Hrole).
      clear. induction (courses db) as [|c l IH]; constructor; [|exact IH].
      repeat split; try apply incl_refl. intros s; now left.
  - destruct (string_dec (UserResponse.role current_user) "student")
      as [Hrole|Hrole].
    + destruct (Hstudent Hrole) as [_ Hp]. rewrite Hp.
      destruct (Mongo.find_one _ (courses db)).
      * eexists. split; [reflexivity|]. split; [cbn; lia|].
        intros p [<-|[]]. split; reflexivity.
      * exists []. rewrite app_nil_r. split; [reflexivity|].
        split; [cbn; lia | intros p []].
    + rewrite (Hother Hrole). exists []. rewrite app_nil_r.
      split; [reflexivity|]. split; [cbn; lia | intros p []].
Qed.

(** X8: after a student has enrolled in an existing course, the course,
    with the student on its list, is on that student's dashboard
    whenever the student then has at most ten courses, and the new
    progress record is there whenever the student then has at most ten
    records. *)
Theorem enroll_then_dashboard (db : Database) (course_id uuid : string)
    (utcnow : datetime) (current_user : UserResponse.t)
    (course : Course.t) :
  UserResponse.role current_user = "student" ->
  Mongo.find_one (fun c => String.eqb (Course.id c) course_id)
                 (courses db) = Some course ->
  let uid := UserResponse.id current_user in
  let db1 := snd (enroll_in_course course_id uuid utcnow current_user db) in
  let enrolled_course :=
    Course.set_enrolled_students course
      (Mongo.addToSet uid (Course.enrolled_students course)) in
  let record :=
    Progress.mk uuid uid course_id (Course.title course) 0%float utcnow
                0%float [] in
  exists d,
    get_student_dashboard uid db1 = (Return d, db1)
    /\ In uid (Course.enrolled_students enrolled_course)
    /\ ((List.length
           (filter (fun c => Mongo.array_contains uid
                               (Course.enrolled_students c))
                   (courses db1)) <= 10)%nat ->
        In enrolled_course (sd_enrolled_courses d))
    /\ ((List.length
           (filter (fun p => String.eqb (Progress.student_id p) uid)
                   (progress db1)) <= 10)%nat ->
        In record (sd_progress d)).
Proof.
  intros Hrole Hfind uid db1 enrolled_course record.
  destruct (enroll_in_course_found db course_id uuid utcnow current_user
              Hrole Hfind) as (_ & Hf1 & _ & Hp1).
  fold db1 in Hf1, Hp1. fold uid in Hf1, Hp1.
  fold enrolled_course in Hf1. fold record in Hp1.
  eexists. split; [reflexivity|].
  cbn [sd_enrolled_courses sd_progress].
  unfold Mongo.to_list, Mongo.find.
  assert (Hon : Mongo.array_contains uid
                  (Course.enrolled_students enrolled_course) = true).
  { subst enrolled_course. destruct course; cbn. apply addToSet_holds. }
  split; [now apply existsb_eqb_In|]. split.
  - intros Hle. rewrite firstn_all2 by exact Hle.
    apply filter_In. split; [|exact Hon].
    apply (find_some _ _ Hf1).
  - intros Hle. rewrite firstn_all2 by exact Hle.
    apply filter_In. split.
    + rewrite Hp1. apply in_or_app. right. now left.
    + cbn. apply String.eqb_refl.
Qed.

Lemma enroll_then_dashboard_witness :
  exists d,
    get_student_dashboard (UserResponse.id CourseSample.student_3)
      (snd (enroll_in_course "course_2" "p_1" 10 CourseSample.student_3
                             CourseSample.db_seeded))
    = (Return d,
       snd (enroll_in_course "course_2" "p_1" 10 CourseSample.student_3
                             CourseSample.db_seeded))
    /\ In (Course.set_enrolled_students CourseSample.course_2
             ["student_1"; "student_3"])
          (sd_enrolled_courses d).
Proof.
  destruct (enroll_then_dashboard CourseSample.db_seeded "course_2" "p_1"
              10 CourseSample.student_3 CourseSample.course_2 eq_refl
              eq_refl) as (d & Hd & _ & Hin & _).
  exists d. split; [exact Hd|].
  apply Hin. apply Nat.leb_le. reflexivity.
Defined.

(** X9: each enrollment of a student in an existing course, a repeated
    one included, raises by one, until it stays at fifty, the
    [total_courses] that the handler [get_student_progress] computes for
    the student; and since the student then has a progress record, the
    route [GET /progress/{student_id}] answers 500 for that student. *)
Theorem enroll_then_progress_count (db : Database)
    (course_id uuid : string) (utcnow : datetime)
    (current_user : UserResponse.t) (course : Course.t) :
  UserResponse.role current_user = "student" ->
  Mongo.find_one (fun c => String.eqb (Course.id c) course_id)
                 (courses db) = Some course ->
  let uid := UserResponse.id current_user in
  let db1 := snd (enroll_in_course course_id uuid utcnow current_user db) in
  let records :=
    List.length
      (filter (fun p => String.eqb (Progress.student_id p) uid)
              (progress db)) in
  option_map (fun v => total_courses (pv_stats v))
             (returned (get_student_progress uid db))
  = Some (Z.of_nat (Nat.min 50 records))
  /\ option_map (fun v => total_courses (pv_stats v))
                (returned (get_student_progress uid db1))
     = Some (Z.of_nat (Nat.min 50 (S records)))
  /\ route_get_student_progress uid db1
     = (Raise (ValueError "'ObjectId' object is not iterable"), db1).
Proof.
  intros Hrole Hfind uid db1 records.
  destruct (enroll_in_course_found db course_id uuid utcnow current_user
              Hrole Hfind) as (_ & _ & _ & Hp1).
  fold db1 in Hp1. fold uid in Hp1.
  assert (Hmine :
    filter (fun p => String.eqb (Progress.student_id p) uid) (progress db1)
    = filter (fun p => String.eqb (Progress.student_id p) uid) (progress db)
      ++ [Progress.mk uuid uid course_id (Course.title course) 0%float
                      utcnow 0%float []]).
  { rewrite Hp1, filter_app. cbn [filter Progress.student_id].
    now rewrite String.eqb_refl. }
  unfold returned. rewrite !get_student_progress_value.
  cbn [fst option_map pv_stats total_courses].
  rewrite !length_firstn. fold records. split; [reflexivity|].
  rewrite Hmine, length_app. cbn [List.length]. fold records.
  split; [do 2 f_equal; lia|].
  rewrite route_get_student_progress_value, Hmine.
  destruct (filter _ (progress db)) as [|p rest]; reflexivity.
Qed.

Lemma enroll_then_progress_count_witness :
  option_map (fun v => total_courses (pv_stats v))
    (returned
       (get_student_progress "student_3"
          (snd (enroll_in_course "course_2" "p_2" 20 CourseSample.student_3
                  (snd (enroll_in_course "course_2" "p_1" 10
                          CourseSample.student_3
                          CourseSample.db_seeded))))))
  = Some 2
  /\ http_status
       (fst (route_get_student_progress "student_3"
               (snd (enroll_in_course "course_2" "p_2" 20
                       CourseSample.student_3
                       (snd (enroll_in_course "course_2" "p_1" 10
                               CourseSample.student_3
                               CourseSample.db_seeded)))))) = 500.
Proof.
  destruct (enroll_then_progress_count
              (snd (enroll_in_course "course_2" "p_1" 10
                      CourseSample.student_3 CourseSample.db_seeded))
              "course_2" "p_2" 20 CourseSample.student_3
              (Course.set_enrolled_students CourseSample.course_2
                 ["student_1"; "student_3"]) eq_refl eq_refl)
    as (_ & H & Hr).
  split; [exact H|].
  change "student_3" with (UserResponse.id CourseSample.student_3) at 1.
  rewrite Hr. reflexivity.
Defined.

Lemma delete_many_all {A} (l : list A) :
  delete_many (fun _ => true) l = [].
Proof. unfold delete_many. induction l; [reflexivity | assumption]. Qed.

(** X10: the routes that write courses keep every enrollment list free
    of repetition: [seed_database] establishes it from any store, and
    [create_course] and [enroll_in_course] preserve it for every caller
    and input. *)
Theorem enrollments_stay_sets (db : Database) :
  (forall n1 n2 n3 n4 n5,
      enrollments_are_sets (snd (seed_database n1 n2 n3 n4 n5 db)))
  /\ (enrollments_are_sets db ->
      (forall course_data uuid utcnow current_user,
          enrollments_are_sets
            (snd (create_course course_data uuid utcnow current_user db)))
      /\ (forall course_id uuid utcnow current_user,
             enrollments_are_sets
               (snd (enroll_in_course course_id uuid utcnow current_user
                                      db)))).
Proof.
  split.
  - intros n1 n2 n3 n4 n5 c Hin.
    unfold seed_database, bind, write, ret in Hin.
    cbn [snd courses set_courses set_teachers set_community_posts] in Hin.
    rewrite delete_many_all in Hin.
    unfold insert_many in Hin. cbn [app sample_courses] in Hin.
    destruct Hin as [<-|[<-|[<-|[]]]]; cbn [Course.enrolled_students];
      repeat constructor; cbn; intuition discriminate.
  - intros Hall. split.
    + intros course_data uuid utcnow current_user.
      exact (create_course_NoDup db course_data uuid utcnow current_user
                                 Hall).
    + intros course_id uuid utcnow current_user.
      exact (enroll_in_course_NoDup db course_id uuid utcnow current_user
                                    Hall).
Qed.

(* ================================================================== *)
(** * Progress updates *)
(* ================================================================== *)

(** X11: [update_progress] answers with its success message for every
    input.  It rewrites the first progress record with the id: the two
    values are stored as given, whatever they are, [last_accessed] is
    the clock, and the record's id, student, course, title and quiz
    scores stay; every other record and collection stays.  When no
    record has the id nothing is written, and the answer is the same. *)
Theorem update_progress_spec (db : Database) (progress_id : string)
    (completion_percentage time_spent_hours : float) (utcnow : datetime) :
  let r := update_progress progress_id completion_percentage
                           time_spent_hours utcnow db in
  let by_id := fun p => String.eqb (Progress.id p) progress_id in
  fst r = Return "Progress updated successfully"
  /\ users (snd r) = users db /\ teachers (snd r) = teachers db
  /\ courses (snd r) = courses db /\ quizzes (snd r) = quizzes db
  /\ quiz_submissions (snd r) = quiz_submissions db
  /\ community_posts (snd r) = community_posts db
  /\ (Mongo.find_one by_id (progress db) = None -> snd r = db)
  /\ (forall p, Mongo.find_one by_id (progress db) = Some p ->
        exists before after p',
          progress db = before ++ p :: after
          /\ progress (snd r) = before ++ p' :: after
          /\ (forall x, In x before -> Progress.id x <> progress_id)
          /\ Progress.completion_percentage p' = completion_percentage
          /\ Progress.time_spent_hours p' = time_spent_hours
          /\ Progress.last_accessed p' = utcnow
          /\ Progress.id p' = Progress.id p
          /\ Progress.student_id p' = Progress.student_id p
          /\ Progress.course_id p' = Progress.course_id p
          /\ Progress.course_title p' = Progress.course_title p
          /\ Progress.quiz_scores p' = Progress.quiz_scores p).
Proof.
  intros r by_id. subst r.
  unfold update_progress, bind, write, ret.
  cbn [fst snd users teachers courses quizzes quiz_submissions
       community_posts progress set_progress].
  split; [reflexivity|]. split; [reflexivity|]. split; [reflexivity|].
  split; [reflexivity|]. split; [reflexivity|]. split; [reflexivity|].
  split; [reflexivity|]. split.
  - intros Hnone. rewrite (update_one_none _ _ _ Hnone).
    destruct db; reflexivity.
  - intros p Hfind.
    destruct (update_one_split by_id
                (set_progress_fields completion_percentage
                                     time_spent_hours utcnow) _ Hfind)
      as (l1 & l2 & Hl & Hl1 & Hup).
    exists l1, l2,
      (set_progress_fields completion_percentage time_spent_hours utcnow p).
    split; [exact Hl|]. split; [exact Hup|]. split.
    + intros x Hx Heq. specialize (Hl1 x Hx). subst by_id. cbn in Hl1.
      rewrite Heq, String.eqb_refl in Hl1. discriminate.
    + repeat split.
Qed.

(* ================================================================== *)
(** * Teacher dashboard and directory *)
(* ================================================================== *)

Lemma nodup_length_le (l : list string) :
  (List.length (nodup string_dec l) <= List.length l)%nat.
Proof.
  induction l as [|x l IH]; cbn; [lia|].
  destruct (in_dec string_dec x l); cbn; lia.
Qed.

Lemma filter_none {A} (f : A -> bool) (l : list A) :
  (forall x, In x l -> f x = false) -> filter f l = [].
Proof.
  induction l as [|x l IH]; intros H; cbn; [reflexivity|].
  rewrite (H x (or_introl eq_refl)). apply IH.
  intros y Hy. apply H. now right.
Qed.

(** The value [get_teacher_dashboard] returns. *)
Lemma get_teacher_dashboard_value (db : Database) (teacher_id : string) :
  let cs :=
    firstn 20
      (filter (fun c => String.eqb (Course.teacher_id c) teacher_id)
              (courses db)) in
  let ps :=
    firstn 100
      (filter (fun p => existsb (String.eqb (Progress.course_id p))
                                (map Course.id cs))
              (progress db)) in
  get_teacher_dashboard teacher_id db
  = (Return
       (mkTeacherDashboard
          (map (Document.mk (Some bson.ObjectId_of_store)) cs)
          (map (Document.mk (Some bson.ObjectId_of_store)) ps)
          (mkTeacherAnalytics
             (len_set (map Progress.student_id ps))
             (Z.of_nat (List.length cs)) 75.5%float 120.5%float)), db).
Proof.
  intros cs ps.
  unfold get_teacher_dashboard, bind, query, ret.
  unfold Mongo.to_list, find_documents, Mongo.find. cbv beta iota zeta.
  rewrite !firstn_map. fold cs. rewrite !map_map.
  cbn [Document.fields].
  change (map (fun x : Course.t => Course.id x) cs) with (map Course.id cs).
  fold ps. unfold len. rewrite length_map. reflexivity.
Qed.

(** X12: the handler [get_teacher_dashboard] always returns and writes
    nothing.  It holds at most twenty courses, all taught by the
    teacher, and at most a hundred progress records, each of one of
    those courses; [total_courses] is the number of those courses,
    [total_students] the number of distinct students among those
    records (zero exactly when there is none), while
    [average_completion] and [total_hours_taught] are 75.5 and 120.5
    whatever is stored.  The documents still carry their ["_id"], which
    the response encoder cannot encode: the route answers, with empty
    lists and zero counts, only for a teacher without stored course,
    and with a 500 for every teacher who has one. *)
Theorem get_teacher_dashboard_spec (db : Database) (teacher_id : string) :
  exists d,
    get_teacher_dashboard teacher_id db = (Return d, db)
    /\ (List.length (td_courses d) <= 20)%nat
    /\ (List.length (td_student_progress d) <= 100)%nat
    /\ (forall c, In c (td_courses d) ->
          Document._id c <> None
          /\ In (Document.fields c) (courses db)
          /\ Course.teacher_id (Document.fields c) = teacher_id)
    /\ (forall p, In p (td_student_progress d) ->
          Document._id p <> None
          /\ In (Document.fields p) (progress db)
          /\ exists c, In c (td_courses d)
                       /\ Course.id (Document.fields c)
                          = Progress.course_id (Document.fields p))
    /\ ta_total_courses (td_analytics d)
       = Z.of_nat (List.length (td_courses d))
    /\ 0 <= ta_total_students (td_analytics d)
         <= Z.of_nat (List.length (td_student_progress d))
    /\ ta_total_students (td_analytics d)
       = Z.of_nat
           (List.length
              (nodup string_dec
                 (map (fun p => Progress.student_id (Document.fields p))
                      (td_student_progress d))))
    /\ (ta_total_students (td_analytics d) = 0
        <-> td_student_progress d = [])
    /\ ta_average_completion (td_analytics d) = 75.5%float
    /\ ta_total_hours_taught (td_analytics d) = 120.5%float
    /\ ((forall c, In c (courses db) -> Course.teacher_id c <> teacher_id)
        -> route_get_teacher_dashboard teacher_id db
           = (Return (mkTeacherDashboard [] []
                        (mkTeacherAnalytics 0 0 75.5%float 120.5%float)),
              db))
    /\ ((exists c, In c (courses db) /\ Course.teacher_id c = teacher_id)
        -> route_get_teacher_dashboard teacher_id db
           = (Raise (ValueError "'ObjectId' object is not iterable"), db)
           /\ http_status
                (fst (route_get_teacher_dashboard teacher_id db)) = 500).
Proof.
  pose proof (get_teacher_dashboard_value db teacher_id) as Hv.
  cbv zeta in Hv.
  set (cs := firstn 20 (filter _ (courses db))) in Hv.
  set (ps := firstn 100 (filter _ (progress db))) in Hv.
  eexists. split; [exact Hv|].
  cbn [td_courses td_student_progress td_analytics ta_total_courses
       ta_total_students ta_average_completion ta_total_hours_taught].
  rewrite !length_map, map_map. cbn [Document.fields].
  change (map (fun x : Progress.t => Progress.student_id x) ps)
    with (map Progress.student_id ps).
  unfold len_set, len.
  split; [subst cs; rewrite length_firstn; lia|].
  split; [subst ps; rewrite length_firstn; lia|].
  split.
  { intros c Hc. apply in_map_iff in Hc. destruct Hc as (x & <- & Hx).
    cbn. split; [discriminate|].
    subst cs. apply In_firstn in Hx. apply filter_In in Hx.
    destruct Hx as [Hin Hb]. split; [exact Hin | now apply String.eqb_eq]. }
  split.
  { intros p Hp. apply in_map_iff in Hp. destruct Hp as (x & <- & Hx).
    cbn. split; [discriminate|].
    subst ps. apply In_firstn in Hx. apply filter_In in Hx.
    destruct Hx as [Hin Hb]. split; [exact Hin|].
    apply existsb_exists in Hb. destruct Hb as (i & Hi & He).
    apply String.eqb_eq in He. apply in_map_iff in Hi.
    destruct Hi as (c & Hc & Hcin).
    exists (Document.mk (Some bson.ObjectId_of_store) c).
    split; [now apply in_map | cbn; congruence]. }
  split; [reflexivity|].
  pose proof (nodup_length_le (map Progress.student_id ps)) as Hle.
  rewrite length_map in Hle.
  split; [lia|]. split; [reflexivity|].
  split.
  { split.
    - intros H0. destruct ps as [|p ps']; [reflexivity|].
      exfalso. cbn [map] in H0.
      assert (Hin : In (Progress.student_id p)
                       (nodup string_dec
                          (Progress.student_id p
                           :: map Progress.student_id ps')))
        by (apply nodup_In; now left).
      destruct (nodup string_dec _); [exact Hin | cbn in H0; lia].
    - intros Hnil. destruct ps; [reflexivity | discriminate Hnil]. }
  split; [reflexivity|]. split; [reflexivity|].
  assert (Hroute : route_get_teacher_dashboard teacher_id db
    = (match cs with
       | [] => Return (mkTeacherDashboard [] []
                 (mkTeacherAnalytics 0 0 75.5%float 120.5%float))
       | _ :: _ => Raise (ValueError "'ObjectId' object is not iterable")
       end, db)).
  { unfold route_get_teacher_dashboard, respond, bind, lift.
    rewrite Hv. unfold encode_teacher_dashboard.
    cbn [td_courses td_student_progress td_analytics].
    destruct cs as [|c cs'] eqn:Ecs; [|reflexivity].
    assert (Hps : ps = []).
    { subst ps. cbn [map]. rewrite filter_none; [reflexivity|].
      intros x _. reflexivity. }
    rewrite Hps. reflexivity. }
  rewrite Hroute. split.
  - intros Hnone.
    assert (Hcs : cs = []).
    { subst cs. rewrite filter_none; [reflexivity|].
      intros c Hc. specialize (Hnone c Hc).
      destruct (String.eqb (Course.teacher_id c) teacher_id) eqn:E;
        [apply String.eqb_eq in E; contradiction | reflexivity]. }
    now rewrite Hcs.
  - intros (c & Hin & Ht).
    assert (Hcs : cs <> []).
    { subst cs. intros Hnil.
      assert (Hf : In c (filter
                 (fun c => String.eqb (Course.teacher_id c) teacher_id)
                 (courses db)))
        by (apply filter_In; split; [exact Hin | now apply String.eqb_eq]).
      destruct (filter _ (courses db)); [exact Hf | discriminate Hnil]. }
    destruct cs; [contradiction | split; reflexivity].
Qed.

Lemma get_teachers_selected (db : Database) (subject : option string) :
  get_teachers subject db
  = (Return (firstn 50 (filter (teaches subject) (teachers db))), db).
Proof.
  unfold get_teachers, bind, query, ret, Mongo.to_list, Mongo.find.
  cbv zeta. do 2 f_equal. f_equal.
  apply filter_ext. intros t.
  unfold teaches, truthy_str, teacher_matches.
  destruct subject as [s|]; cbn; [|reflexivity].
  destruct (String.eqb s ""); cbn; [reflexivity|].
  now rewrite orb_false_r, andb_true_r.
Qed.

(** X13: once a teacher has put a subject on the profile with
    [update_teacher_profile], [get_teachers] filtered on that subject
    lists the updated profile whenever at most fifty stored profiles
    teach it; everything that listing returns is a stored profile that
    has the subject, and it returns at most fifty. *)
Theorem update_profile_then_listed (db : Database)
    (profile_data : TeacherCreate.t) (current_user : UserResponse.t)
    (t : Teacher.t) (s : string) :
  UserResponse.role current_user = "teacher" ->
  Mongo.find_one
    (fun x => String.eqb (Teacher.user_id x) (UserResponse.id current_user))
    (teachers db) = Some t ->
  s <> "" ->
  In s (TeacherCreate.subjects profile_data) ->
  let db1 := snd (update_teacher_profile profile_data current_user db) in
  exists listed,
    get_teachers (Some s) db1 = (Return listed, db1)
    /\ (List.length listed <= 50)%nat
    /\ (forall x, In x listed ->
          In x (teachers db1) /\ In s (Teacher.subjects x))
    /\ ((List.length
           (filter (fun x => Mongo.array_contains s (Teacher.subjects x))
                   (teachers db1)) <= 50)%nat ->
        In (set_profile profile_data t) listed).
Proof.
  intros Hrole Hfind Hs Hin db1.
  assert (Hsel : forall x, teaches (Some s) x
                           = Mongo.array_contains s (Teacher.subjects x)).
  { intros x. unfold teaches.
    destruct (String.eqb s "") eqn:E;
      [apply String.eqb_eq in E; contradiction | reflexivity]. }
  rewrite get_teachers_selected.
  rewrite (filter_ext _ _ Hsel).
  eexists. split; [reflexivity|].
  split; [rewrite length_firstn; lia|]. split.
  - intros x Hx. apply In_firstn in Hx. apply filter_In in Hx.
    destruct Hx as [Hx Hb]. split; [exact Hx | now apply existsb_eqb_In].
  - intros Hle. rewrite firstn_all2 by exact Hle.
    apply filter_In. split.
    + subst db1. unfold update_teacher_profile, bind, write, ret.
      rewrite Hrole.
      change (negb ("teacher" =? "teacher")%string) with false.
      cbn [snd teachers set_teachers].
      destruct (update_one_split _ (set_profile profile_data) _ Hfind)
        as (l1 & l2 & _ & _ & Hup).
      rewrite Hup. apply in_or_app. right. now left.
    + cbn. now apply existsb_eqb_In.
Qed.

Lemma update_profile_then_listed_witness :
  exists listed,
    get_teachers (Some "JavaScript")
      (snd (update_teacher_profile TeacherSample.subjects_only
              Sample.teacher TeacherSample.db_teachers))
    = (Return listed,
       snd (update_teacher_profile TeacherSample.subjects_only
              Sample.teacher TeacherSample.db_teachers))
    /\ In (set_profile TeacherSample.subjects_only
                       TeacherSample.john_profile) listed.
Proof.
  assert (Hne : "JavaScript" <> "") by discriminate.
  assert (Hin : In "JavaScript"
                   (TeacherCreate.subjects TeacherSample.subjects_only))
    by (right; left; reflexivity).
  destruct (update_profile_then_listed TeacherSample.db_teachers
              TeacherSample.subjects_only Sample.teacher
              TeacherSample.john_profile "JavaScript" eq_refl eq_refl
              Hne Hin) as (listed & Hl & _ & _ & Hon).
  exists listed. split; [exact Hl|].
  apply Hon. apply Nat.leb_le. reflexivity.
Defined.

(** X14: the profile that [register] appends for a teacher has no
    subject: the unfiltered [get_teachers] reaches it within the first
    fifty profiles, while under a subject filter the listing is what it
    was before the registration, and lists only profiles that were
    stored before and have a subject. *)
Theorem registered_teacher_unlisted (get_password_hash : string -> string)
    (db : Database) (user_data : UserCreate.t)
    (uuid_user uuid_teacher : string) (now_user now_token : datetime)
    (s : string) :
  UserCreate.role user_data = "teacher" ->
  existsb (fun x => String.eqb (UserDoc.email x)
                               (UserCreate.email user_data))
          (users db) = false ->
  s <> "" ->
  let db1 := snd (register get_password_hash user_data uuid_user
                           uuid_teacher now_user now_token db) in
  let profile :=
    Teacher.mk uuid_teacher uuid_user (UserCreate.full_name user_data)
               (UserCreate.email user_data) [] 0 4.5%float 0 None None
               None in
  teachers db1 = teachers db ++ [profile]
  /\ fst (get_teachers None db1)
     = Return (firstn 50 (teachers db ++ [profile]))
  /\ fst (get_teachers (Some s) db1) = fst (get_teachers (Some s) db)
  /\ exists listed,
       fst (get_teachers (Some s) db1) = Return listed
       /\ forall x, In x listed ->
            Teacher.subjects x <> [] /\ In x (teachers db).
Proof.
  intros Hrole Hfresh Hs db1 profile.
  assert (Hsel : forall x, teaches (Some s) x
                           = Mongo.array_contains s (Teacher.subjects x)).
  { intros x. unfold teaches.
    destruct (String.eqb s "") eqn:E;
      [apply String.eqb_eq in E; contradiction | reflexivity]. }
  assert (Ht : teachers db1 = teachers db ++ [profile]).
  { subst db1. unfold register, bind, query, write, ret.
    rewrite find_one_truthy, Hfresh, Hrole. reflexivity. }
  split; [exact Ht|].
  rewrite !get_teachers_selected. cbn [fst]. rewrite Ht.
  split.
  { f_equal. f_equal.
    rewrite (filter_ext (teaches None) (fun _ => true)) by reflexivity.
    apply filter_true. }
  assert (Hsame : filter (teaches (Some s)) (teachers db ++ [profile])
                  = filter (teaches (Some s)) (teachers db)).
  { rewrite filter_app. cbn [filter]. rewrite Hsel. cbn.
    apply app_nil_r. }
  rewrite Hsame. split; [reflexivity|].
  eexists. split; [reflexivity|].
  intros x Hx. apply In_firstn in Hx. apply filter_In in Hx.
  destruct Hx as [Hin Hb]. split; [|exact Hin].
  rewrite Hsel in Hb. intros Hnil. rewrite Hnil in Hb. discriminate.
Qed.

Lemma registered_teacher_unlisted_witness :
  fst (get_teachers (Some "Programming")
         (snd (register AuthSample.sample_hash AuthSample.john_data "u_2"
                        "t_2" 1 2 MoreSample.seeded)))
  = fst (get_teachers (Some "Programming") MoreSample.seeded).
Proof.
  assert (Hne : "Programming" <> "") by discriminate.
  destruct (registered_teacher_unlisted AuthSample.sample_hash
              MoreSample.seeded AuthSample.john_data "u_2" "t_2" 1 2
              "Programming" eq_refl eq_refl Hne) as (_ & _ & H & _).
  exact H.
Defined.

(* ================================================================== *)
(** * Community posts *)
(* ================================================================== *)

Lemma insert_desc_map {A B} (key : A -> Z) (f : A -> B) (g : B -> A)
    (x : A) (l : list A) :
  (forall y, g (f y) = y) ->
  Mongo.insert_desc (fun d => key (g d)) (f x) (map f l)
  = map f (Mongo.insert_desc key x l).
Proof.
  intros Hg. induction l as [|y l IH]; cbn; [reflexivity|].
  rewrite !Hg. destruct (key y <? key x); cbn; [reflexivity|].
  now rewrite IH.
Qed.

Lemma sort_desc_map {A B} (key : A -> Z) (f : A -> B) (g : B -> A)
    (l : list A) :
  (forall y, g (f y) = y) ->
  Mongo.sort_desc (fun d => key (g d)) (map f l)
  = map f (Mongo.sort_desc key l).
Proof.
  intros Hg. unfold Mongo.sort_desc.
  change (@nil B) with (map f []).
  generalize (@nil A) as acc.
  induction l as [|x l IH]; intros acc; cbn; [reflexivity|].
  rewrite insert_desc_map by exact Hg. apply IH.
Qed.

(** The value [get_community_posts] returns: the first fifty of the
    posts of the category, most recent first, each with its ["_id"]. *)
Lemma get_community_posts_selected (db : Database)
    (category : option string) :
  get_community_posts category db
  = (Return
       (map (Document.mk (Some bson.ObjectId_of_store))
          (firstn 50
             (Mongo.sort_desc CommunityPost.created_at
                (filter (in_category category) (community_posts db))))),
     db).
Proof.
  unfold get_community_posts, bind, query, ret, Mongo.to_list.
  unfold find_documents, Mongo.find. cbv zeta.
  rewrite (sort_desc_map CommunityPost.created_at
             (Document.mk (Some bson.ObjectId_of_store))
             (@Document.fields CommunityPost.t)) by reflexivity.
  rewrite firstn_map.
  do 2 f_equal. do 3 f_equal.
  apply filter_ext. intros p.
  unfold in_category, truthy_str, post_matches.
  destruct category as [c|]; cbn; [|reflexivity].
  destruct (String.eqb c ""); cbn; [reflexivity|].
  now rewrite andb_true_r.
Qed.

Lemma sort_desc_nil_iff {A} (key : A -> Z) (l : list A) (n : nat) :
  firstn (S n) (Mongo.sort_desc key l) = [] <-> l = [].
Proof.
  pose proof (sort_desc_perm key l) as Hp. split.
  - intros H. destruct (Mongo.sort_desc key l) as [|x s] eqn:E.
    + now apply Permutation_sym, Permutation_nil in Hp.
    + discriminate H.
  - intros ->. reflexivity.
Qed.

(** What the route answers: the encoding of that list. *)
Lemma route_get_community_posts_value (db : Database)
    (category : option string) :
  route_get_community_posts category db
  = (match filter (in_category category) (community_posts db) with
     | [] => Return []
     | _ :: _ => Raise (ValueError "'ObjectId' object is not iterable")
     end, db).
Proof.
  unfold route_get_community_posts, respond, bind, lift.
  rewrite get_community_posts_selected.
  pose proof (sort_desc_nil_iff CommunityPost.created_at
                (filter (in_category category) (community_posts db)) 49)
    as Hnil.
  destruct (firstn 50 (Mongo.sort_desc CommunityPost.created_at
              (filter (in_category category) (community_posts db))))
    as [|x rest] eqn:E.
  - rewrite (proj1 Hnil eq_refl). reflexivity.
  - destruct (filter (in_category category) (community_posts db));
      [|reflexivity].
    discriminate (proj2 Hnil eq_refl).
Qed.

(** X15: the handler [get_community_posts] always returns and writes
    nothing.  Its result is in descending order of [created_at], holds
    at most fifty posts, each a stored post of the category asked for,
    and as many as there are such posts up to fifty; no post of the
    category that it leaves out is more recent than one it returns.
    The documents still carry their ["_id"], which the response encoder
    cannot encode: the route answers, with the empty list, only when no
    stored post is of the category, and with a 500 whenever one is. *)
Theorem get_community_posts_spec (db : Database)
    (category : option string) :
  let matching := filter (in_category category) (community_posts db) in
  exists listed,
    get_community_posts category db = (Return listed, db)
    /\ (forall d, In d listed -> Document._id d <> None)
    /\ StronglySorted (desc CommunityPost.created_at)
         (map (@Document.fields CommunityPost.t) listed)
    /\ List.length listed = Nat.min 50 (List.length matching)
    /\ (forall d, In d listed ->
          In (Document.fields d) (community_posts db)
          /\ forall c, category = Some c -> c <> "" ->
               CommunityPost.category (Document.fields d) = c)
    /\ (exists rest,
           Permutation matching
             (map (@Document.fields CommunityPost.t) listed ++ rest)
           /\ forall d y, In d listed -> In y rest ->
                CommunityPost.created_at y
                <= CommunityPost.created_at (Document.fields d))
    /\ (matching = [] ->
        route_get_community_posts category db = (Return [], db))
    /\ (matching <> [] ->
        route_get_community_posts category db
        = (Raise (ValueError "'ObjectId' object is not iterable"), db)
        /\ http_status (fst (route_get_community_posts category db))
           = 500).
Proof.
  intros matching.
  rewrite get_community_posts_selected, route_get_community_posts_value.
  fold matching.
  destruct (most_recent CommunityPost.created_at 50 matching)
    as (Hlen & Hsorted & Hperm & Htop).
  set (top := firstn 50 (Mongo.sort_desc CommunityPost.created_at matching))
    in *.
  assert (Hfields :
    map (@Document.fields CommunityPost.t)
        (map (Document.mk (Some bson.ObjectId_of_store)) top) = top)
    by (rewrite map_map; apply map_id).
  eexists. split; [reflexivity|]. rewrite Hfields, length_map.
  split.
  { intros d Hd. apply in_map_iff in Hd. destruct Hd as (x & <- & _).
    discriminate. }
  split; [exact Hsorted|]. split; [exact Hlen|]. split.
  { intros d Hd. apply in_map_iff in Hd. destruct Hd as (p & <- & Hp).
    cbn [Document.fields].
    assert (Hm : In p matching).
    { apply (Permutation_in _ (Permutation_sym Hperm)).
      apply in_or_app. now left. }
    subst matching. apply filter_In in Hm. destruct Hm as [Hin Hc].
    split; [exact Hin|].
    intros c -> Hne. cbn in Hc.
    destruct (String.eqb c "") eqn:E;
      [apply String.eqb_eq in E; contradiction|].
    now apply String.eqb_eq. }
  split.
  { eexists. split; [exact Hperm|].
    intros d y Hd Hy. apply in_map_iff in Hd.
    destruct Hd as (p & <- & Hp). cbn [Document.fields].
    now apply Htop. }
  split.
  - intros ->. reflexivity.
  - intros Hne. destruct matching; [contradiction | split; reflexivity].
Qed.

Lemma sort_desc_snoc {A} (key : A -> Z) (l : list A) (x : A) :
  Mongo.sort_desc key (l ++ [x])
  = Mongo.insert_desc key x (Mongo.sort_desc key l).
Proof. unfold Mongo.sort_desc. now rewrite fold_left_app. Qed.

Lemma insert_desc_newest {A} (key : A -> Z) (x : A) (l : list A) :
  (forall y, In y l -> key y < key x) ->
  Mongo.insert_desc key x l = x :: l.
Proof.
  intros Hall. destruct l as [|y l]; [reflexivity|]. cbn.
  assert (E : (key y <? key x) = true)
    by (apply Z.ltb_lt, Hall; now left).
  now rewrite E.
Qed.

(** X16: a post created at an instant later than that of every stored
    post is stored with the caller's id and name, no like and no reply.
    The handler [get_community_posts], for all posts and for the post's
    own category, then returns it first, followed by the first
    forty-nine of what it returned before; and since a post is then
    listed, the route [GET /community/posts] answers 500 for those two
    listings. *)
Theorem create_post_then_first (db : Database) (post_data : PostCreate.t)
    (uuid_post : string) (utcnow : datetime)
    (current_user : UserResponse.t) (category : option string) :
  (forall p, In p (community_posts db) ->
     CommunityPost.created_at p < utcnow) ->
  category = None \/ category = Some (PostCreate.category post_data) ->
  let r := create_community_post post_data uuid_post utcnow current_user
                                 db in
  exists post before,
    fst r = Return post
    /\ CommunityPost.author_id post = UserResponse.id current_user
    /\ CommunityPost.author_name post = UserResponse.full_name current_user
    /\ CommunityPost.likes post = 0
    /\ CommunityPost.replies post = []
    /\ community_posts (snd r) = community_posts db ++ [post]
    /\ fst (get_community_posts category db) = Return before
    /\ fst (get_community_posts category (snd r))
       = Return (Document.mk (Some bson.ObjectId_of_store) post
                 :: firstn 49 before)
    /\ route_get_community_posts category (snd r)
       = (Raise (ValueError "'ObjectId' object is not iterable"), snd r).
Proof.
  intros Hnew Hcat r. subst r.
  unfold create_community_post, bind, write, ret.
  cbn [fst snd]. eexists. eexists.
  split; [reflexivity|].
  cbn [CommunityPost.author_id CommunityPost.author_name
       CommunityPost.likes CommunityPost.replies].
  split; [reflexivity|]. split; [reflexivity|]. split; [reflexivity|].
  split; [reflexivity|]. split; [reflexivity|].
  rewrite !get_community_posts_selected, route_get_community_posts_value.
  cbn [fst]. split; [reflexivity|].
  cbn [community_posts set_community_posts]. unfold Mongo.insert_one.
  rewrite filter_app. cbn [filter].
  match goal with
  | |- context [in_category category ?p] =>
      assert (Hin : in_category category p = true)
  end.
  { destruct Hcat as [-> | ->]; cbn; [reflexivity|].
    destruct (String.eqb (PostCreate.category post_data) "");
      [reflexivity | apply String.eqb_refl]. }
  rewrite Hin, sort_desc_snoc, insert_desc_newest.
  - split.
    + rewrite (firstn_cons 49), firstn_map, firstn_firstn. reflexivity.
    + destruct (filter (in_category category) (community_posts db));
        reflexivity.
  - intros y Hy. cbn [CommunityPost.created_at].
    apply (Permutation_in _
             (Permutation_sym (sort_desc_perm CommunityPost.created_at _)))
      in Hy.
    apply filter_In in Hy. apply Hnew, Hy.
Qed.

Lemma create_post_then_first_witness :
  option_map
    (map (fun d => CommunityPost.id (Document.fields d)))
    (returned
       (get_community_posts None
          (snd (create_community_post MoreSample.post_data "post_3" 9
                  Sample.student MoreSample.seeded))))
  = Some ["post_3"; "post_2"; "post_1"]
  /\ http_status
       (fst (route_get_community_posts None
               (snd (create_community_post MoreSample.post_data "post_3" 9
                       Sample.student MoreSample.seeded)))) = 500.
Proof.
  assert (Hnew : forall p, In p (community_posts MoreSample.seeded) ->
                           CommunityPost.created_at p < 9).
  { intros p [<-|[<-|[]]]; reflexivity. }
  destruct (create_post_then_first MoreSample.seeded MoreSample.post_data
              "post_3" 9 Sample.student None Hnew (or_introl eq_refl))
    as (post & before & Hp & _ & _ & _ & _ & _ & Hb & Hl & Hr).
  cbv zeta in Hp, Hl, Hr. unfold returned. rewrite Hl, Hr.
  injection Hp as Hp. injection Hb as Hb. subst post before.
  split; reflexivity.
Defined.

(* ================================================================== *)
(** * Files *)
(* ================================================================== *)

Lemma find_one_app_some {A} (f : A -> bool) (l1 l2 : list A) (x : A) :
  Mongo.find_one f l1 = Some x ->
  Mongo.find_one f (l1 ++ l2) = Some x.
Proof.
  unfold Mongo.find_one.
  induction l1 as [|y l1 IH]; cbn; [discriminate|].
  destruct (f y); [trivial | exact IH].
Qed.

(** X17: [upload_file] never fails, appends one file and answers with
    its id.  [get_file] answers 404 exactly for an id no stored file has
    and never writes; after an upload it answers, for the new id, with
    the uploaded name, type and encoded content when the id was not in
    use, and with the file that already had the id otherwise; files
    retrievable before the upload stay retrievable, unchanged. *)
Theorem upload_then_get_file (b64 : list Byte.byte -> string)
    (files : list StoredFile.t) (file : UploadFile.t) (uuid_file : string)
    (utcnow : datetime) :
  let r := upload_file b64 file uuid_file utcnow files in
  let by_id := fun id f => String.eqb (StoredFile.id f) id in
  fst r = Return (mkUploadResult uuid_file (UploadFile.filename file)
                                 "File uploaded successfully")
  /\ (exists stored, snd r = files ++ [stored])
  /\ get_file uuid_file (snd r)
     = (match Mongo.find_one (by_id uuid_file) files with
        | Some older => Return (file_view older)
        | None =>
            Return (mkFileView (UploadFile.filename file)
                               (UploadFile.content_type file)
                               (b64 (UploadFile.data file)))
        end, snd r)
  /\ (forall id older, Mongo.find_one (by_id id) files = Some older ->
        get_file id files = (Return (file_view older), files)
        /\ get_file id (snd r) = (Return (file_view older), snd r))
  /\ (forall id, Mongo.find_one (by_id id) files = None ->
        get_file id files = (Raise (HTTPException 404 "File not found"),
                             files))
  /\ (forall id, id <> uuid_file ->
        Mongo.find_one (by_id id) files = None ->
        get_file id (snd r)
        = (Raise (HTTPException 404 "File not found"), snd r)).
Proof.
  intros r by_id. subst r. unfold upload_file. cbn [fst snd].
  split; [reflexivity|]. split; [eexists; reflexivity|].
  unfold get_file, Mongo.insert_one. fold (by_id uuid_file).
  split; [|split; [|split]].
  - destruct (Mongo.find_one (by_id uuid_file) files) as [older|] eqn:Hf.
    + now rewrite (find_one_app_some _ _ _ _ Hf).
    + rewrite (find_one_app_none _ _ _ Hf). cbn. subst by_id. cbn.
      now rewrite String.eqb_refl.
  - intros id older Hf. fold (by_id id).
    now rewrite Hf, (find_one_app_some _ _ _ _ Hf).
  - intros id Hf. fold (by_id id). now rewrite Hf.
  - intros id Hne Hf. fold (by_id id).
    rewrite (find_one_app_none _ _ _ Hf). cbn. subst by_id. cbn.
    destruct (String.eqb uuid_file id) eqn:E;
      [apply String.eqb_eq in E; congruence | reflexivity].
Qed.

(* ================================================================== *)
(** * Seeding *)
(* ================================================================== *)

(** X18: from any store, [seed_database] leaves exactly the three sample
    courses, the two sample teachers and the two sample posts in their
    collections and touches no other collection; the course listing then
    returns the three sample courses, in order; seeding again at the
    same instants changes nothing. *)
Theorem seed_database_spec (db : Database)
    (n1 n2 n3 n4 n5 : datetime) :
  let r := seed_database n1 n2 n3 n4 n5 db in
  fst r = Return "Database seeded with sample data successfully"
  /\ courses (snd r) = sample_courses n1 n2 n3
  /\ teachers (snd r) = sample_teachers
  /\ community_posts (snd r) = sample_posts n4 n5
  /\ users (snd r) = users db
  /\ progress (snd r) = progress db
  /\ quizzes (snd r) = quizzes db
  /\ quiz_submissions (snd r) = quiz_submissions db
  /\ get_courses None None (snd r)
     = (Return (sample_courses n1 n2 n3), snd r)
  /\ option_map (map Course.id) (returned (get_courses None None (snd r)))
     = Some ["course_1"; "course_2"; "course_3"]
  /\ seed_database n1 n2 n3 n4 n5 (snd r) = (fst r, snd r).
Proof.
  intros r. subst r.
  unfold seed_database, bind, write, ret.
  cbn [fst snd courses teachers community_posts users progress quizzes
       quiz_submissions set_courses set_teachers set_community_posts].
  rewrite !delete_many_all. unfold insert_many. cbn [app].
  repeat split.
Qed.

(* ================================================================== *)
(** * Quiz submissions and the quiz collection *)
(* ================================================================== *)

Lemma matching_positions_le (answers : list Z)
    (questions : list QuizQuestion.t) :
  (matching_positions answers questions
   <= Nat.min (List.length answers) (List.length questions))%nat.
Proof.
  unfold matching_positions.
  etransitivity; [apply filter_length_le|].
  now rewrite length_seq.
Qed.

(** X19: [submit_quiz] answers 404 and stores nothing when no stored
    quiz has the id.  Whenever it returns, the number of right answers
    lies between 0 and the smaller of the numbers of answers and of
    questions, [percentage] repeats [score], and exactly one submission
    is stored: the request's quiz id and answers with the caller's id
    and the computed score in place of whatever the request carried. *)
Theorem submit_quiz_bounds (db : Database) (submission : QuizSubmission.t)
    (current_user : UserResponse.t) :
  let by_id := fun q =>
    String.eqb (Quiz.id q) (QuizSubmission.quiz_id submission) in
  (Mongo.find_one by_id (quizzes db) = None ->
   submit_quiz submission current_user db
   = (Raise (HTTPException 404 "Quiz not found"), db))
  /\ (forall result db',
        submit_quiz submission current_user db = (Return result, db') ->
        0 <= sr_correct_answers result
          <= Z.min (len (QuizSubmission.answers submission))
                   (sr_total_questions result)
        /\ 0 < sr_total_questions result
        /\ sr_percentage result = sr_score result
        /\ quiz_submissions db'
           = quiz_submissions db
             ++ [QuizSubmission.mk (QuizSubmission.quiz_id submission)
                   (UserResponse.id current_user)
                   (QuizSubmission.answers submission) (sr_score result)
                   (QuizSubmission.completed_at submission)]
        /\ quizzes db' = quizzes db /\ users db' = users db
        /\ progress db' = progress db /\ courses db' = courses db).
Proof.
  intros by_id. split.
  - intros Hnone. unfold submit_quiz, bind, query, raise.
    fold by_id. now rewrite Hnone.
  - intros result db' Hrun.
    destruct (Mongo.find_one by_id (quizzes db)) as [quiz|] eqn:Hfind.
    + destruct (Quiz.questions quiz) as [|q qs] eqn:Hq.
      * unfold submit_quiz, bind, query, lift in Hrun.
        fold by_id in Hrun.
        rewrite Hfind, score_loop_counts, Hq in Hrun. discriminate Hrun.
      * assert (Hne : Quiz.questions quiz <> [])
          by (rewrite Hq; discriminate).
        pose proof (submit_quiz_found db submission current_user
                      Hfind Hne) as H.
        cbv zeta in H. rewrite H in Hrun.
        injection Hrun as Hr Hdb. subst result db'.
        cbn [sr_correct_answers sr_total_questions sr_percentage sr_score
             quiz_submissions quizzes users progress courses
             set_quiz_submissions].
        pose proof (matching_positions_le
                      (QuizSubmission.answers submission)
                      (Quiz.questions quiz)) as Hle.
        rewrite Hq in *. unfold len. cbn [List.length] in *.
        repeat split; try reflexivity; lia.
    + unfold submit_quiz, bind, query, raise in Hrun.
      fold by_id in Hrun. rewrite Hfind in Hrun. discriminate Hrun.
Qed.

(** X20: [get_course_quiz] keeps the quiz collection well formed: when
    every stored quiz has a question, every question's [correct_answer]
    indexes one of its options and no two stored quizzes belong to one
    course, the same holds after a call, which leaves the stored quizzes
    as they were and appends at most one, for the course asked. *)
Theorem get_course_quiz_keeps_quizzes_ok (db : Database)
    (course_id uuid_quiz uuid_q1 uuid_q2 : string) (utcnow : datetime) :
  quizzes_ok db ->
  let db' := snd (get_course_quiz course_id uuid_quiz uuid_q1 uuid_q2
                                  utcnow db) in
  quizzes_ok db'
  /\ (exists added,
         quizzes db' = quizzes db ++ added
         /\ (List.length added <= 1)%nat
         /\ forall q, In q added ->
              Quiz.course_id q = course_id /\ Quiz.id q = uuid_quiz
              /\ List.length (Quiz.questions q) = 2%nat)
  /\ (exists q, In q (quizzes db') /\ Quiz.course_id q = course_id).
Proof.
  intros [Hqs Hnd] db'. subst db'.
  destruct (Mongo.find_one
              (fun q => String.eqb (Quiz.course_id q) course_id)
              (quizzes db)) as [doc|] eqn:Hfind.
  - rewrite (get_course_quiz_stored db course_id uuid_quiz uuid_q1 uuid_q2
               utcnow Hfind).
    cbn [snd]. split; [split; assumption|]. split.
    + exists []. rewrite app_nil_r. split; [reflexivity|].
      split; [cbn; lia | intros q []].
    + exists doc. apply find_some in Hfind. destruct Hfind as [Hin He].
      split; [exact Hin | now apply String.eqb_eq].
  - unfold get_course_quiz, bind, query, write, ret, lift.
    rewrite Hfind. unfold quizzes_ok.
    cbn [snd Quiz_unpack quizzes set_quizzes].
    unfold Mongo.insert_one.
    split; [split|split].
    + intros q Hq. apply in_app_or in Hq. destruct Hq as [Hq|[<-|[]]];
        [now apply Hqs|].
      cbn [Quiz.questions generate_quiz_questions].
      split; [discriminate|].
      repeat constructor; cbn; lia.
    + rewrite map_app. cbn [map Quiz.course_id].
      apply NoDup_app; [exact Hnd | repeat constructor; intros [] |].
      intros c Hc [<-|[]].
      apply in_map_iff in Hc. destruct Hc as (q & Hqc & Hqin).
      apply (find_none _ _ Hfind) in Hqin.
      rewrite Hqc, String.eqb_refl in Hqin. discriminate.
    + eexists. split; [reflexivity|]. split; [cbn; lia|].
      intros q [<-|[]]. repeat split.
    + eexists. split; [apply in_or_app; right; left; reflexivity|].
      reflexivity.
Qed.

Lemma get_course_quiz_keeps_quizzes_ok_witness :
  quizzes_ok Sample.empty_db
  /\ quizzes_ok (snd (get_course_quiz "course_1" "quiz_1" "q_1" "q_2" 0
                                      Sample.empty_db)).
Proof.
  assert (H0 : quizzes_ok Sample.empty_db).
  { split; [intros q [] | constructor]. }
  split; [exact H0|].
  destruct (get_course_quiz_keeps_quizzes_ok Sample.empty_db "course_1"
              "quiz_1" "q_1" "q_2" 0 H0) as [H _].
  exact H.
Defined.
